(** * Contest calendar server: store, aggregator and booking engine

    A shallow embedding of the Python sources [database.py], [fetchers.py],
    [calendar_manager.py], [utils.py] and [tools.py].

    - SQLite tables are lists of rows in rowid order ([contests],
      [calendar_events]) and a finite map ([preferences], only read and
      written by key).
    - [datetime] values are records of their fields, as in CPython; the
      calendar arithmetic follows [Lib/_pydatetime.py].
    - Effects are threaded through a [world]: the database file, the Google
      Calendar collaborator with the calls made to it, and the number of
      wall-clock readings taken so far.  Python exceptions are the [Raise]
      results of a small state-and-error monad. *)

From Stdlib Require Import ZArith String Ascii List Lia DecimalString Bool.
From Stdlib Require Import Sorted Permutation.
From Stdlib Require Import DecimalPos DecimalFacts.
From stdpp Require Import gmap strings list.

Open Scope string_scope.
Open Scope Z_scope.

(** ** Text: [str] formatting and parsing *)

Module PyStr.

(** ["%d" % n] and [f"{n}"] for an integer. *)
Definition decimal (n : Z) : string := NilZero.string_of_int (Z.to_int n).

Definition digit_char (d : Z) : ascii := ascii_of_N (48 + Z.to_N d).

(** The last [w] decimal digits of [n]. *)
Fixpoint fixed (w : nat) (n : Z) : string :=
  match w with
  | O => ""
  | S w' => fixed w' (n / 10) ++ String (digit_char (n mod 10)) ""
  end.

(** ["%0wd" % n] for [0 <= n]: at least [w] digits, padded with zeros. *)
Definition pad (w : nat) (n : Z) : string :=
  if n <? 10 ^ Z.of_nat w then fixed w n else decimal n.

Definition is_digit (c : ascii) : bool :=
  let k := N_of_ascii c in ((48 <=? k) && (k <=? 57))%N.

Definition digit_val (c : ascii) : Z := Z.of_N (N_of_ascii c) - 48.

Fixpoint digits_acc (acc : Z) (s : string) : option Z :=
  match s with
  | "" => Some acc
  | String c s' =>
      if is_digit c then digits_acc (10 * acc + digit_val c) s' else None
  end.

(** A non-empty run of ASCII digits, read in base ten. *)
Definition parse_digits (s : string) : option Z :=
  match s with
  | "" => None
  | _ => digits_acc 0 s
  end.

(** [s[i:j]] for [0 <= i <= j]. *)
Definition slice (i j : nat) (s : string) : string := substring i (j - i) s.

(** [s[i:]]. *)
Definition slice_from (i : nat) (s : string) : string :=
  substring i (String.length s - i) s.

(** [s.find(c)]: index of the first occurrence, if any. *)
Fixpoint find_char (c : ascii) (s : string) : option nat :=
  match s with
  | "" => None
  | String c' s' =>
      if Ascii.eqb c c' then Some O else S <$> find_char c s'
  end.

(** [sep.join(parts)]. *)
Definition join (sep : string) (parts : list string) : string :=
  String.concat sep parts.

Definition is_space (c : ascii) : bool :=
  let k := N_of_ascii c in ((k =? 32) || ((9 <=? k) && (k <=? 13)))%N.

Fixpoint lstrip (s : string) : string :=
  match s with
  | String c s' => if is_space c then lstrip s' else s
  | "" => ""
  end.

Fixpoint rev_string (acc s : string) : string :=
  match s with
  | "" => acc
  | String c s' => rev_string (String c acc) s'
  end.

Definition strip (s : string) : string :=
  rev_string "" (lstrip (rev_string "" (lstrip s))).

(** Digits with optional single underscores between them, as [int] reads
    them; [prev] tells whether the previous character was a digit. *)
Fixpoint int_body (prev : bool) (acc : Z) (s : string) : option Z :=
  match s with
  | "" => if prev then Some acc else None
  | String c s' =>
      if is_digit c then int_body true (10 * acc + digit_val c) s'
      else if Ascii.eqb c "_" && prev then
        match s' with
        | "" => None
        | _ => int_body false acc s'
        end
      else None
  end.

(** [int(s)] for a [str] in base ten: surrounding whitespace, an optional
    sign, ASCII digits.  [None] stands for [ValueError]. *)
Definition py_int (s : string) : option Z :=
  match strip s with
  | String "+" r => int_body false 0 r
  | String "-" r => Z.opp <$> int_body false 0 r
  | r => int_body false 0 r
  end.

(** [c in s] for a character [c]. *)
Fixpoint contains_char (c : ascii) (s : string) : bool :=
  match s with
  | "" => false
  | String x s' => Ascii.eqb x c || contains_char c s'
  end.

(** [s.replace(c, by)] for a character [c]: every occurrence. *)
Fixpoint replace_char (c : ascii) (by_ : string) (s : string) : string :=
  match s with
  | "" => ""
  | String x s' =>
      if Ascii.eqb x c then by_ ++ replace_char c by_ s'
      else String x (replace_char c by_ s')
  end.

(** A [str] is held as its UTF-8 bytes.  The characters for which
    [str.isspace] holds are U+0009..U+000D, U+001C..U+0020, U+0085,
    U+00A0, U+1680, U+2000..U+200A, U+2028, U+2029, U+202F, U+205F and
    U+3000.  [space_head s] is what follows such a character at the head
    of [s]. *)
Definition space_head (s : string) : option string :=
  match s with
  | "" => None
  | String c r =>
      let k := N_of_ascii c in
      if (((9 <=? k) && (k <=? 13)) || ((28 <=? k) && (k <=? 32)))%N
      then Some r
      else
        match r with
        | String c2 r2 =>
            let k2 := N_of_ascii c2 in
            if ((k =? 194) && ((k2 =? 133) || (k2 =? 160)))%N then Some r2
            else
              match r2 with
              | String c3 r3 =>
                  let k3 := N_of_ascii c3 in
                  if ((k =? 225) && (k2 =? 154) && (k3 =? 128))%N
                     || ((k =? 226) && (k2 =? 128)
                         && (((128 <=? k3) && (k3 <=? 138)) || (k3 =? 168)
                             || (k3 =? 169) || (k3 =? 175)))%N
                     || ((k =? 226) && (k2 =? 129) && (k3 =? 159))%N
                     || ((k =? 227) && (k2 =? 128) && (k3 =? 128))%N
                  then Some r3 else None
              | "" => None
              end
        | "" => None
        end
  end.

(** The same at the end of a string, read backwards: [space_tail s] takes
    the reversed bytes. *)
Definition space_tail (s : string) : option string :=
  match s with
  | "" => None
  | String c r =>
      let k := N_of_ascii c in
      if (((9 <=? k) && (k <=? 13)) || ((28 <=? k) && (k <=? 32)))%N
      then Some r
      else
        match r with
        | String c2 r2 =>
            let k2 := N_of_ascii c2 in
            if ((k2 =? 194) && ((k =? 133) || (k =? 160)))%N then Some r2
            else
              match r2 with
              | String c3 r3 =>
                  let k3 := N_of_ascii c3 in
                  if ((k3 =? 225) && (k2 =? 154) && (k =? 128))%N
                     || ((k3 =? 226) && (k2 =? 128)
                         && (((128 <=? k) && (k <=? 138)) || (k =? 168)
                             || (k =? 169) || (k =? 175)))%N
                     || ((k3 =? 226) && (k2 =? 129) && (k =? 159))%N
                     || ((k3 =? 227) && (k2 =? 128) && (k =? 128))%N
                  then Some r3 else None
              | "" => None
              end
        | "" => None
        end
  end.

(** Drop the characters that [step] recognises, one at a time; [fuel]
    bounds their number. *)
Fixpoint drop_while (step : string -> option string) (fuel : nat)
    (s : string) : string :=
  match fuel with
  | O => s
  | S fuel' =>
      match step s with
      | Some r => drop_while step fuel' r
      | None => s
      end
  end.

(** [s.strip()]. *)
Definition str_strip (s : string) : string :=
  let l := drop_while space_head (String.length s) s in
  rev_string ""
    (drop_while space_tail (String.length l) (rev_string "" l)).

(** Every character of [s] satisfies [p]. *)
Fixpoint all_chars (p : ascii -> bool) (s : string) : bool :=
  match s with
  | "" => true
  | String c s' => p c && all_chars p s'
  end.

(** The characters of a decimal numeral: digits and the minus sign. *)
Definition numeral_char (c : ascii) : bool := is_digit c || Ascii.eqb c "-".

End PyStr.

(** ** [datetime]: calendar arithmetic, parsing and rendering *)

Module PyDatetime.
Import PyStr.

Definition MINYEAR : Z := 1.
Definition MAXYEAR : Z := 9999.
Definition MAXORDINAL : Z := 3652059.

Definition DAYS_IN_MONTH (month : Z) : Z :=
  match month with
  | 1 => 31 | 2 => 28 | 3 => 31 | 4 => 30 | 5 => 31 | 6 => 30
  | 7 => 31 | 8 => 31 | 9 => 30 | 10 => 31 | 11 => 30 | 12 => 31
  | _ => -1
  end.

Definition DAYS_BEFORE_MONTH (month : Z) : Z :=
  match month with
  | 1 => 0 | 2 => 31 | 3 => 59 | 4 => 90 | 5 => 120 | 6 => 151
  | 7 => 181 | 8 => 212 | 9 => 243 | 10 => 273 | 11 => 304 | 12 => 334
  | _ => -1
  end.

Definition is_leap (year : Z) : bool :=
  (year mod 4 =? 0) && (negb (year mod 100 =? 0) || (year mod 400 =? 0)).

Definition days_before_year (year : Z) : Z :=
  let y := year - 1 in y * 365 + y / 4 - y / 100 + y / 400.

Definition days_in_month (year month : Z) : Z :=
  if (month =? 2) && is_leap year then 29 else DAYS_IN_MONTH month.

Definition days_before_month (year month : Z) : Z :=
  DAYS_BEFORE_MONTH month + (if (2 <? month) && is_leap year then 1 else 0).

(** Day 1 is 0001-01-01. *)
Definition ymd2ord (year month day : Z) : Z :=
  days_before_year year + days_before_month year month + day.

Definition DI400Y : Z := 146097.
Definition DI100Y : Z := 36524.
Definition DI4Y : Z := 1461.

Definition ord2ymd (n : Z) : Z * Z * Z :=
  let n := n - 1 in
  let n400 := n / DI400Y in
  let n := n mod DI400Y in
  let year := n400 * 400 + 1 in
  let n100 := n / DI100Y in
  let n := n mod DI100Y in
  let n4 := n / DI4Y in
  let n := n mod DI4Y in
  let n1 := n / 365 in
  let n := n mod 365 in
  let year := year + n100 * 100 + n4 * 4 + n1 in
  if (n1 =? 4) || (n100 =? 4) then (year - 1, 12, 31)
  else
    let leapyear := (n1 =? 3) && (negb (n4 =? 24) || (n100 =? 3)) in
    let month := Z.shiftr (n + 50) 5 in
    let preceding :=
      DAYS_BEFORE_MONTH month + (if (2 <? month) && leapyear then 1 else 0) in
    if n <? preceding then
      let month := month - 1 in
      let preceding :=
        preceding
        - (DAYS_IN_MONTH month + (if (month =? 2) && leapyear then 1 else 0)) in
      (year, month, n - preceding + 1)
    else (year, month, n - preceding + 1).

(** One day and one second, in microseconds. *)
Definition US_PER_SECOND : Z := 1000000.
Definition US_PER_DAY : Z := 86400 * US_PER_SECOND.

(** A [datetime] object.  [tzinfo] is [None] for a naive value and
    [Some off] for an aware one, [off] being [utcoffset()] in microseconds
    ([Some 0] is [timezone.utc]). *)
Record datetime := mk_datetime {
  year : Z;
  month : Z;
  day : Z;
  hour : Z;
  minute : Z;
  second : Z;
  microsecond : Z;
  tzinfo : option Z
}.

Definition utc : option Z := Some 0.

(** The range checks of the [datetime] and [timezone] constructors. *)
Definition valid_fields (y mo d h mi s us : Z) : bool :=
  (MINYEAR <=? y) && (y <=? MAXYEAR) && (1 <=? mo) && (mo <=? 12)
  && (1 <=? d) && (d <=? days_in_month y mo)
  && (0 <=? h) && (h <=? 23) && (0 <=? mi) && (mi <=? 59)
  && (0 <=? s) && (s <=? 59) && (0 <=? us) && (us <=? 999999).

Definition valid_offset (tz : option Z) : bool :=
  match tz with
  | None => true
  | Some off => (- US_PER_DAY <? off) && (off <? US_PER_DAY)
  end.

Definition valid (d : datetime) : bool :=
  valid_fields (year d) (month d) (day d) (hour d) (minute d) (second d)
    (microsecond d)
  && valid_offset (tzinfo d).

(** [datetime(y, mo, d, h, mi, s, us, tzinfo)]; [None] is [ValueError]. *)
Definition datetime_new (y mo d h mi s us : Z) (tz : option Z)
  : option datetime :=
  if valid_fields y mo d h mi s us && valid_offset tz
  then Some (mk_datetime y mo d h mi s us tz) else None.

(** The wall-clock fields as microseconds, counted from the start of
    ordinal day 0: [timedelta(self.toordinal(), hours=.., ..)]. *)
Definition to_micros (d : datetime) : Z :=
  (ymd2ord (year d) (month d) (day d) * 86400
   + hour d * 3600 + minute d * 60 + second d) * US_PER_SECOND
  + microsecond d.

(** The inverse, with the range check of [datetime.__add__]; [None] is
    [OverflowError]. *)
Definition of_micros (t : Z) (tz : option Z) : option datetime :=
  let days := t / US_PER_DAY in
  let rest := t mod US_PER_DAY in
  let secs := rest / US_PER_SECOND in
  let us := rest mod US_PER_SECOND in
  if (0 <? days) && (days <=? MAXORDINAL) then
    let '(y, mo, d) := ord2ymd days in
    Some (mk_datetime y mo d (secs / 3600) (secs mod 3600 / 60)
            (secs mod 3600 mod 60) us tz)
  else None.

(** [self + timedelta(microseconds=delta)]. *)
Definition add_micros (d : datetime) (delta : Z) : option datetime :=
  of_micros (to_micros d + delta) (tzinfo d).

(** The instant an aware value denotes, on the UTC time line. *)
Definition instant (d : datetime) : Z :=
  to_micros d - default 0 (tzinfo d).

(** 1970-01-01T00:00:00 on that scale. *)
Definition EPOCH : Z := 719163 * US_PER_DAY.

(** [datetime.fromtimestamp(t, tz=timezone.utc)] for an integer [t];
    [None] is the [ValueError]/[OverflowError] raised for a year outside
    1..9999. *)
Definition fromtimestamp_utc (t : Z) : option datetime :=
  of_micros (EPOCH + t * US_PER_SECOND) utc.

(** [self.astimezone(timezone.utc)].  A naive value is taken to be in the
    system's local zone, whose offset [local_offset] supplies. *)
Definition astimezone_utc (local_offset : datetime -> Z) (d : datetime)
  : option datetime :=
  let off := match tzinfo d with
             | Some off => off
             | None => local_offset d
             end in
  of_micros (to_micros d - off) utc.

(** [self.astimezone(tz)] for an aware [self] and a zone given by its UTC
    offset as a function of the instant (a [ZoneInfo]): first
    [self - offset], then [tz.fromutc]. *)
Definition astimezone_zone (zone : Z -> Z) (d : datetime) : option datetime :=
  match of_micros (instant d) utc with
  | Some u =>
      let off := zone (to_micros u) in
      of_micros (to_micros u + off) (Some off)
  | None => None
  end.

(** Comparison of two aware values. *)
Definition datetime_ltb (a b : datetime) : bool := instant a <? instant b.

(** *** [isoformat] *)

Definition format_time (d : datetime) : string :=
  pad 2 (hour d) ++ ":" ++ pad 2 (minute d) ++ ":" ++ pad 2 (second d)
  ++ (if microsecond d =? 0 then "" else "." ++ pad 6 (microsecond d)).

Definition format_offset (tz : option Z) : string :=
  match tz with
  | None => ""
  | Some off =>
      let sign := if off <? 0 then "-" else "+" in
      let a := Z.abs off in
      let hh := a / (3600 * US_PER_SECOND) in
      let r := a mod (3600 * US_PER_SECOND) in
      let mm := r / (60 * US_PER_SECOND) in
      let ss := r mod (60 * US_PER_SECOND) in
      sign ++ pad 2 hh ++ ":" ++ pad 2 mm
      ++ (if ss =? 0 then ""
          else ":" ++ pad 2 (ss / US_PER_SECOND)
               ++ (if ss mod US_PER_SECOND =? 0 then ""
                   else "." ++ pad 6 (ss mod US_PER_SECOND)))
  end.

Definition isoformat (d : datetime) : string :=
  pad 4 (year d) ++ "-" ++ pad 2 (month d) ++ "-" ++ pad 2 (day d)
  ++ "T" ++ format_time d ++ format_offset (tzinfo d).

(** *** [fromisoformat]

    The grammar is the one [isoformat] emits,
    [YYYY-MM-DD[*HH[:MM[:SS[.fff[fff]]]][+HH:MM[:SS[.ffffff]]]]], which
    every CPython from 3.7 on accepts. *)

(** [HH[:MM[:SS[.fff[fff]]]]] as hours, minutes, seconds, microseconds. *)
Definition parse_hh_mm_ss_ff (t : string) : option (Z * Z * Z * Z) :=
  let two i := parse_digits (slice i (i + 2) t) in
  let colon i := String.eqb (slice i (i + 1) t) ":" in
  match String.length t with
  | 2%nat => h ← two 0%nat; Some (h, 0, 0, 0)
  | 5%nat =>
      if colon 2%nat then h ← two 0%nat; m ← two 3%nat; Some (h, m, 0, 0)
      else None
  | 8%nat =>
      if colon 2%nat && colon 5%nat
      then h ← two 0%nat; m ← two 3%nat; s ← two 6%nat; Some (h, m, s, 0)
      else None
  | 12%nat =>
      if colon 2%nat && colon 5%nat && String.eqb (slice 8 9 t) "."
      then h ← two 0%nat; m ← two 3%nat; s ← two 6%nat;
           f ← parse_digits (slice 9 12 t); Some (h, m, s, f * 1000)
      else None
  | 15%nat =>
      if colon 2%nat && colon 5%nat && String.eqb (slice 8 9 t) "."
      then h ← two 0%nat; m ← two 3%nat; s ← two 6%nat;
           f ← parse_digits (slice 9 15 t); Some (h, m, s, f)
      else None
  | _ => None
  end.

(** Position of the sign that starts the zone suffix: the first ['+'] or
    ['-'] of the time part. *)
Fixpoint tz_pos (t : string) : option nat :=
  match t with
  | "" => None
  | String c t' =>
      if Ascii.eqb c "+" || Ascii.eqb c "-" then Some O else S <$> tz_pos t'
  end.

Definition parse_isoformat_time (t : string)
  : option (Z * Z * Z * Z * option Z) :=
  match tz_pos t with
  | None =>
      '(h, m, s, f) ← parse_hh_mm_ss_ff t; Some (h, m, s, f, None)
  | Some p =>
      '(h, m, s, f) ← parse_hh_mm_ss_ff (slice 0 p t);
      let tzstr := slice_from (S p) t in
      let len := String.length tzstr in
      if Nat.eqb len 5 || Nat.eqb len 8 || Nat.eqb len 15 then
        '(zh, zm, zs, zf) ← parse_hh_mm_ss_ff tzstr;
        let td := ((zh * 3600 + zm * 60 + zs) * US_PER_SECOND + zf) in
        let sign := if String.eqb (slice p (S p) t) "-" then -1 else 1 in
        Some (h, m, s, f, Some (sign * td))
      else None
  end.

Definition parse_isoformat_date (dstr : string) : option (Z * Z * Z) :=
  if String.eqb (slice 4 5 dstr) "-" && String.eqb (slice 7 8 dstr) "-" then
    y ← parse_digits (slice 0 4 dstr);
    m ← parse_digits (slice 5 7 dstr);
    d ← parse_digits (slice 8 10 dstr);
    if (Nat.eqb (String.length (slice 0 4 dstr)) 4
        && Nat.eqb (String.length (slice 5 7 dstr)) 2
        && Nat.eqb (String.length (slice 8 10 dstr)) 2)%bool
    then Some (y, m, d) else None
  else None.

(** [datetime.fromisoformat(s)]; [None] is [ValueError]. *)
Definition fromisoformat (s : string) : option datetime :=
  '(y, mo, d) ← parse_isoformat_date (slice 0 10 s);
  let tstr := slice_from 11 s in
  match tstr with
  | "" =>
      if Nat.leb (String.length s) 10 then datetime_new y mo d 0 0 0 0 None
      else None
  | _ =>
      '(h, mi, sec, us, tz) ← parse_isoformat_time tstr;
      datetime_new y mo d h mi sec us tz
  end.

(** *** Notions used to state and prove facts about the above *)

(** A month and a day that exist in year [y]. *)
Definition valid_date (y m d : Z) : bool :=
  (1 <=? m) && (m <=? 12) && (1 <=? d) && (d <=? days_in_month y m).

(** Lexicographic combination of two comparisons. *)
Definition lex (c1 c2 : comparison) : comparison :=
  match c1 with
  | Eq => c2
  | _ => c1
  end.

(** Field by field, most significant first: how CPython compares two
    values of the same zone. *)
Definition fields_compare (d1 d2 : datetime) : comparison :=
  lex (year d1 ?= year d2)
    (lex (month d1 ?= month d2)
       (lex (day d1 ?= day d2)
          (lex (hour d1 ?= hour d2)
             (lex (minute d1 ?= minute d2)
                (lex (second d1 ?= second d2)
                   (microsecond d1 ?= microsecond d2)))))).

(** The end of [isoformat] for a UTC value: the fraction, if any, and the
    offset. *)
Definition utc_tail (us : Z) : string :=
  (if us =? 0 then "" else "." ++ pad 6 us) ++ "+00:00".

(** [s] is [isoformat] of a UTC-aware value. *)
Definition utc_iso (s : string) : Prop :=
  exists d, valid d = true /\ tzinfo d = utc /\ s = isoformat d.

(** The instants a UTC [datetime] can hold: from 0001-01-01T00:00:00Z to
    the last microsecond of year 9999. *)
Definition MIN_INSTANT : Z := US_PER_DAY.
Definition MAX_INSTANT : Z := (MAXORDINAL + 1) * US_PER_DAY - 1.

(** One day of the 400-year cycle: [ord2ymd] yields a date that exists and
    that [ymd2ord] maps back. *)
Definition cycle_ok (r : Z) : bool :=
  let '(y, m, d) := ord2ymd (r + 1) in
  (1 <=? y) && (y <=? 400) && valid_date y m d && (ymd2ord y m d =? r + 1).

Fixpoint all_from (fuel : nat) (z : Z) (f : Z -> bool) : bool :=
  match fuel with
  | O => true
  | S k => if f z then all_from k (z + 1) f else false
  end.

(** [d.strftime('%Y-%m-%d %H:%M IST')].  The year is written with four
    digits, which is what every platform does from year 1000 on. *)
Definition strftime_ist (d : datetime) : string :=
  pad 4 (year d) ++ "-" ++ pad 2 (month d) ++ "-" ++ pad 2 (day d)
  ++ " " ++ pad 2 (hour d) ++ ":" ++ pad 2 (minute d) ++ " IST".

(** The characters [isoformat] writes. *)
Definition iso_char (c : ascii) : bool :=
  is_digit c || Ascii.eqb c "-" || Ascii.eqb c "T" || Ascii.eqb c ":"
  || Ascii.eqb c "." || Ascii.eqb c "+".

(** A time to the second as RFC 3339 writes it in UTC, with the suffix Z. *)
Definition zulu (d : datetime) : string :=
  fixed 4 (year d) ++ "-" ++ fixed 2 (month d) ++ "-" ++ fixed 2 (day d)
  ++ "T" ++ fixed 2 (hour d) ++ ":" ++ fixed 2 (minute d) ++ ":"
  ++ fixed 2 (second d) ++ "Z".

End PyDatetime.

(** ** Effects: state and exceptions *)

Module Eff.

(** A Python exception: an [Exception] with its [str(e)], or
    [asyncio.CancelledError], a [BaseException] that [except Exception]
    lets through. *)
Inductive exn :=
| Exception (msg : string)
| CancelledError.

Inductive result (A : Type) : Type :=
| Ok (a : A)
| Raise (e : exn).
Arguments Ok {A} a.
Arguments Raise {A} e.

(** A computation over a mutable state [W] that returns or raises; what
    it did to the state before raising stays done. *)
Definition M (W A : Type) : Type := W -> result A * W.

Definition ret {W A} (a : A) : M W A := fun w => (Ok a, w).

Definition raise {W A} (e : exn) : M W A := fun w => (Raise e, w).

Definition bind {W A B} (m : M W A) (k : A -> M W B) : M W B :=
  fun w =>
    match m w with
    | (Ok a, w') => k a w'
    | (Raise e, w') => (Raise e, w')
    end.

(** [try: m  except Exception as e: h (str(e))]. *)
Definition try_except {W A} (m : M W A) (h : string -> M W A) : M W A :=
  fun w =>
    match m w with
    | (Raise (Exception msg), w') => h msg w'
    | r => r
    end.

(** An awaitable under [asyncio.gather(..., return_exceptions=True)]:
    whatever it raises becomes its result. *)
Definition capture {W A} (m : M W A) : M W (result A) :=
  fun w => let '(r, w') := m w in (Ok r, w').

Definition get {W} : M W W := fun w => (Ok w, w).
Definition modify {W} (f : W -> W) : M W unit := fun w => (Ok tt, f w).

(** A library call that raises [Exception(msg)] when it has no value. *)
Definition lift {W A} (msg : string) (o : option A) : M W A :=
  match o with
  | Some a => ret a
  | None => raise (Exception msg)
  end.

(** [for x in xs: body x]. *)
Fixpoint for_each {W A} (xs : list A) (body : A -> M W unit) : M W unit :=
  match xs with
  | [] => ret tt
  | x :: xs' => bind (body x) (fun _ => for_each xs' body)
  end.

Declare Scope eff_scope.
Delimit Scope eff_scope with eff.
Notation "'let*' x ':=' m 'in' k" := (bind m (fun x => k))
  (at level 10, x name, m at level 100, k at level 200) : eff_scope.
Notation "'let*' ' p ':=' m 'in' k" := (bind m (fun p => k))
  (at level 10, p pattern, m at level 100, k at level 200) : eff_scope.
Notation "m ;; k" := (bind m (fun _ => k))
  (at level 100, k at level 200, right associativity) : eff_scope.

End Eff.

(** ** The data the program keeps and exchanges *)

Module Data.
Import PyDatetime.

(** The dict a fetcher builds for one contest.  [url] is read with
    [contest.get('url', '')]. *)
Record contest := mk_contest {
  id : string;
  platform : string;
  title : string;
  start_time : string;
  duration_seconds : Z;
  url : option string
}.

(** A row of table [contests] (primary key [row_id]), also the dict
    [dict(zip(columns, row))] built from it. *)
Record contest_row := mk_contest_row {
  row_id : string;
  row_platform : string;
  row_title : string;
  row_start_time : string;
  row_duration_seconds : Z;
  row_url : string;
  fetched_at : string
}.

(** A row of table [calendar_events] (primary key [event_id]). *)
Record calendar_event_row := mk_calendar_event_row {
  event_id : string;
  contest_id : string;
  created_at : string
}.

(** The SQLite file: two tables in rowid order and the key-value table
    [preferences].  Foreign keys are not enforced (the connection never
    switches them on). *)
Record database := mk_database {
  contests : list contest_row;
  calendar_events : list calendar_event_row;
  preferences : gmap string string
}.

(** [init_db] on a fresh file. *)
Definition empty_database : database := mk_database [] [] ∅.

(** The body sent to [events().insert]. *)
Record event_body := mk_event_body {
  summary : string;
  description : string;
  start_dateTime : string;
  start_timeZone : string;
  end_dateTime : string;
  end_timeZone : string;
  useDefault : bool;
  overrides : list (string * Z)
}.

(** The event resource the calendar answers with. *)
Record event_resource := mk_event_resource {
  ev_id : string;
  ev_summary : string;
  ev_start : string;
  htmlLink : option string
}.

(** What the Google client library gives back: a value, or an error (an
    [HttpError], a transport or credential error) with its text. *)
Inductive answer (A : Type) : Type :=
| Answered (a : A)
| Refused (msg : string).
Arguments Answered {A} a.
Arguments Refused {A} msg.

(** One exchange with the Google Calendar service: the request and what
    came back. *)
Inductive exchange :=
| Authenticate (r : answer unit)
| Insert (body : event_body) (r : answer event_resource)
| ListEvents (timeMin timeMax : string) (r : answer (list event_resource))
| Delete (eventId : string) (r : answer unit).

(** The Google Calendar collaborator over its own state [S]: whether the
    manager holds a built service, and what each request answers. *)
Record calendar_api (S : Type) := mk_calendar_api {
  has_service : S -> bool;
  authenticate : S -> answer unit * S;
  events_insert : event_body -> S -> answer event_resource * S;
  events_list : string -> string -> S -> answer (list event_resource) * S;
  events_delete : string -> S -> answer unit * S
}.
Arguments has_service {S}.
Arguments authenticate {S}.
Arguments events_insert {S}.
Arguments events_list {S}.
Arguments events_delete {S}.

(** Everything a tool call can read or change. *)
Record world (S : Type) := mk_world {
  db : database;
  calendar : S;
  calls : list exchange;
  ticks : nat
}.
Arguments mk_world {S}.
Arguments db {S}.
Arguments calendar {S}.
Arguments calls {S}.
Arguments ticks {S}.

Definition set_db {S} (f : database -> database) (w : world S) : world S :=
  mk_world (f (db w)) (calendar w) (calls w) (ticks w).


(** Preference values: what [set_preference] is given and what
    [get_preference] hands back. *)
Inductive pyvalue :=
| PyNone
| PyStr (s : string)
| PyInt (n : Z)
| PyInts (l : list Z).

(** What awaiting the HTTP exchange gives: the task is cancelled, an
    [Exception] is raised (network, decoding, a missing key), or the JSON
    document arrives. *)
Inductive fetched (A : Type) : Type :=
| Cancelled
| Failed (msg : string)
| Response (data : A).
Arguments Cancelled {A}.
Arguments Failed {A} msg.
Arguments Response {A} data.

(** The JSON documents of the three sources. *)
Record cf_contest := mk_cf_contest {
  cf_id : Z;
  cf_name : string;
  cf_phase : string;
  cf_startTimeSeconds : Z;
  cf_durationSeconds : Z
}.

Record cf_data := mk_cf_data {
  cf_status : string;
  cf_result : list cf_contest
}.

Record lc_contest := mk_lc_contest {
  lc_title : string;
  lc_titleSlug : string;
  lc_startTime : Z;
  lc_duration : Z
}.

Record cc_contest := mk_cc_contest {
  contest_code : string;
  contest_name : string;
  contest_start_date_iso : string;
  contest_duration : string
}.

Record cc_data := mk_cc_data {
  cc_status : string;
  future_contests : list cc_contest
}.

(** What [add_contest_to_calendar_tool] answers; each constructor is one
    [return] of the function, with the values its text is made of.
    - [Conflict]: "Contest already added to calendar! ... Event ID: .."
    - [NotFound]: "Contest with ID '..' not found. Please fetch contests
      first."
    - [Success]: "Successfully added to Google Calendar! ..."
    - [Failure]: "Error adding to calendar: " followed by [str(e)]. *)
Inductive add_outcome :=
| Conflict (event_id : string)
| NotFound (contest_id : string)
| Success (contest : contest_row) (start_time_ist : datetime)
    (event : event_resource) (reminder_minutes : list Z)
| Failure (msg : string).

(** What [delete_calendar_event_tool] answers: "Successfully deleted event
    .." or "Error deleting event: " followed by [str(e)]. *)
Inductive delete_outcome :=
| Deleted (event_id : string)
| DeleteFailure (msg : string).

(** What [get_contest_resource] answers: the JSON document of the row
    with its [start_time_ist], or [{"error": "Contest not found"}]. *)
Inductive resource_outcome :=
| Resource (contest : contest_row) (start_time_ist : string)
| ResourceError.

(** One contest of the text [fetch_contests_tool] returns: the row whose
    title, platform, duration and id it shows, the start as shown, and the
    URL line, which is there when the URL is not empty. *)
Record listing := mk_listing {
  listed : contest_row;
  listed_start : string;
  listed_url : option string
}.

(** What [fetch_contests_tool] answers: "No upcoming contests found in
    the specified timeframe." or "Found n upcoming contest(s):" followed
    by the contests. *)
Inductive fetch_outcome :=
| NoUpcoming
| Upcoming (entries : list listing).

(** One event of the text [list_calendar_contests_tool] returns. *)
Record shown_event := mk_shown_event {
  shown_summary : string;
  shown_start : string;
  shown_id : string
}.

(** What [list_calendar_contests_tool] answers: "No upcoming events found
    in your Google Calendar.", "Found n upcoming event(s) in your
    calendar:" followed by the events, or "Error listing events: "
    followed by [str(e)]. *)
Inductive list_outcome :=
| NoEvents
| Events (entries : list shown_event)
| ListFailure (msg : string).

End Data.

(** ** config.py *)

Module Config.
Definition DEFAULT_REMINDER_MINUTES : list Z := [30; 10].
Definition DEFAULT_DAYS_AHEAD : Z := 30.
End Config.

(** ** The program *)

Section Program.
Import PyStr PyDatetime Eff Data.
Local Open Scope eff_scope.

(** The surroundings of the process: the calendar service, the wall clock
    ([wall_clock n] is what the [n]-th call of [datetime.now(timezone.utc)]
    returns), the zone [IST = ZoneInfo('Asia/Kolkata')] as the UTC offset
    in force at each instant, and the offset of the system's local zone. *)
Context {S : Type} (api : calendar_api S).
Context (wall_clock : nat -> datetime).
Context (IST : Z -> Z).
Context (local_offset : datetime -> Z).

Abbreviation W := (world S).

(** [datetime.now(timezone.utc)]. *)
Definition now : M W datetime :=
  fun w => (Ok (wall_clock (ticks w)),
            mk_world (db w) (calendar w) (calls w) (Datatypes.S (ticks w))).

(** *** database.py: [ContestDatabase] *)

(** [INSERT OR REPLACE INTO contests]: a row with the same primary key is
    deleted, the new row gets the next rowid. *)
Definition replace_contest (r : contest_row) (t : list contest_row)
  : list contest_row :=
  List.filter (fun x => negb (String.eqb (row_id x) (row_id r))) t ++ [r].

Definition replace_calendar_event (r : calendar_event_row)
    (t : list calendar_event_row) : list calendar_event_row :=
  List.filter (fun x => negb (String.eqb (event_id x) (event_id r))) t ++ [r].

Definition save_contests (cs : list contest) : M W unit :=
  for_each cs (fun contest =>
    let* stamp := now in
    modify (set_db (fun d =>
      mk_database
        (replace_contest
           (mk_contest_row (id contest) (platform contest) (title contest)
              (start_time contest) (duration_seconds contest)
              (default "" (url contest)) (isoformat stamp))
           (contests d))
        (calendar_events d) (preferences d)))).

(** [ORDER BY start_time]: rows with equal keys stay in rowid order. *)
Fixpoint insert_by_start_time (r : contest_row) (l : list contest_row)
  : list contest_row :=
  match l with
  | [] => [r]
  | x :: l' =>
      if String.ltb (row_start_time r) (row_start_time x)
      then r :: x :: l'
      else x :: insert_by_start_time r l'
  end.

Definition order_by_start_time (l : list contest_row) : list contest_row :=
  fold_right insert_by_start_time [] l.

(** The [WHERE] clause of [get_upcoming_contests]; TEXT values compare
    byte by byte. *)
Definition in_window (platform : option string)
    (current_time cutoff_time : string) (r : contest_row) : bool :=
  match platform with
  | Some p => String.eqb (row_platform r) p
  | None => true
  end
  && String.ltb current_time (row_start_time r)
  && String.ltb (row_start_time r) cutoff_time.

(** [if platform:] *)
Definition truthy (platform : option string) : option string :=
  match platform with
  | Some "" => None
  | p => p
  end.

Definition get_upcoming_contests (platform : option string) (days_ahead : Z)
  : M W (list contest_row) :=
  let* n1 := now in
  let* cutoff :=
    lift "date value out of range" (add_micros n1 (days_ahead * US_PER_DAY)) in
  let cutoff_time := isoformat cutoff in
  let* n2 := now in
  let current_time := isoformat n2 in
  let* w := get in
  ret (order_by_start_time
         (List.filter (in_window (truthy platform) current_time cutoff_time)
            (contests (db w)))).

(** [SELECT * FROM contests WHERE id = ?] with [fetchone()]. *)
Definition select_contest (d : database) (contest_id : string)
  : option contest_row :=
  List.find (fun r => String.eqb (row_id r) contest_id) (contests d).

Definition get_contest_by_id (contest_id : string)
  : M W (option contest_row) :=
  let* w := get in
  ret (select_contest (db w) contest_id).

Definition save_calendar_event (event_id contest_id : string) : M W unit :=
  let* stamp := now in
  modify (set_db (fun d =>
    mk_database (contests d)
      (replace_calendar_event
         (mk_calendar_event_row event_id contest_id (isoformat stamp))
         (calendar_events d))
      (preferences d))).

(** [SELECT event_id FROM calendar_events WHERE contest_id = ?] with
    [fetchone()]: the first matching row in rowid order. *)
Definition select_event (d : database) (contest_id : string)
  : option calendar_event_row :=
  List.find (fun r => String.eqb (Data.contest_id r) contest_id)
    (calendar_events d).

Definition is_contest_in_calendar (contest_id : string)
  : M W (bool * option string) :=
  let* w := get in
  match select_event (db w) contest_id with
  | Some r => ret (true, Some (event_id r))
  | None => ret (false, None)
  end.

(** [json.dumps(value) if not isinstance(value, str) else value]. *)
Definition value_str (v : pyvalue) : string :=
  match v with
  | PyStr s => s
  | PyNone => "null"
  | PyInt n => decimal n
  | PyInts l => "[" ++ join ", " (map decimal l) ++ "]"
  end.

(** A JSON integer: an optional minus sign and digits without a leading
    zero. *)
Definition json_int (s : string) : option Z :=
  let body := match s with String "-" r => r | _ => s end in
  let sign := match s with String "-" _ => -1 | _ => 1 end in
  match body with
  | String "0" (String _ _) => None
  | _ => Z.mul sign <$> parse_digits body
  end.

(** Split at every [sep]. *)
Fixpoint split_on (sep : ascii) (cur : string) (s : string) : list string :=
  match s with
  | "" => [rev_string "" cur]
  | String c s' =>
      if Ascii.eqb c sep then rev_string "" cur :: split_on sep "" s'
      else split_on sep (String c cur) s'
  end.

(** [json.loads] on the texts this program stores: an integer or an array
    of integers, with optional whitespace.  [None] is the [except] branch;
    other JSON documents are outside this model. *)
Definition json_loads (s : string) : option pyvalue :=
  let t := strip s in
  match t with
  | String "[" r =>
      match rev_string "" r with
      | String "]" inner_rev =>
          let inner := strip (rev_string "" inner_rev) in
          match inner with
          | "" => Some (PyInts [])
          | _ =>
              PyInts <$> mapM (fun x => json_int (strip x))
                           (split_on "," "" inner)
          end
      | _ => None
      end
  | _ => PyInt <$> json_int t
  end.

Definition get_preference (key : string) (default_value : pyvalue)
  : M W pyvalue :=
  let* w := get in
  match preferences (db w) !! key with
  | Some text =>
      match json_loads text with
      | Some v => ret v
      | None => ret (PyStr text)
      end
  | None => ret default_value
  end.

Definition set_preference (key : string) (value : pyvalue) : M W unit :=
  modify (set_db (fun d =>
    mk_database (contests d) (calendar_events d)
      (<[key := value_str value]> (preferences d)))).

(** *** calendar_manager.py: [GoogleCalendarManager] *)

(** A request to the service: [api] answers it, and the exchange is
    appended to [calls]. *)
Definition request {A} (log : answer A -> exchange)
    (f : S -> answer A * S) : M W A :=
  fun w =>
    let '(r, cal) := f (calendar w) in
    (match r with
     | Answered a => Ok a
     | Refused msg => Raise (Exception msg)
     end,
     mk_world (db w) cal (calls w ++ [log r]) (ticks w)).

(** [if not self.service: self.authenticate()] *)
Definition ensure_service : M W unit :=
  let* w := get in
  if has_service api (calendar w) then ret tt
  else request Authenticate (authenticate api).

Definition create_contest_event (contest : contest_row)
    (reminder_minutes : option (list Z)) : M W event_resource :=
  ensure_service ;;
  let reminder_minutes :=
    default Config.DEFAULT_REMINDER_MINUTES reminder_minutes in
  let* start_time :=
    lift ("Invalid isoformat string: " ++ row_start_time contest)
      (fromisoformat (row_start_time contest)) in
  let* end_time :=
    lift "date value out of range"
      (add_micros start_time (row_duration_seconds contest * US_PER_SECOND)) in
  let event :=
    mk_event_body
      (row_platform contest ++ ": " ++ row_title contest)
      ("Contest URL: " ++ row_url contest)
      (isoformat start_time) "Asia/Kolkata"
      (isoformat end_time) "Asia/Kolkata"
      false
      (map (fun minutes => ("popup", minutes)) reminder_minutes) in
  try_except (request (Insert event) (events_insert api event))
    (fun e => raise (Exception ("Failed to create calendar event: " ++ e))).

Definition list_events (days_ahead : Z) : M W (list event_resource) :=
  ensure_service ;;
  let* n := now in
  let* time_max :=
    lift "date value out of range" (add_micros n (days_ahead * US_PER_DAY)) in
  request (ListEvents (isoformat n) (isoformat time_max))
    (events_list api (isoformat n) (isoformat time_max)).

Definition delete_event (event_id : string) : M W bool :=
  ensure_service ;;
  try_except
    (request (Delete event_id) (events_delete api event_id) ;; ret true)
    (fun e => raise (Exception ("Failed to delete event: " ++ e))).

(** *** utils.py *)

Definition to_ist (dt : datetime) : option datetime :=
  let dt :=
    match tzinfo dt with
    | None =>
        mk_datetime (year dt) (month dt) (day dt) (hour dt) (minute dt)
          (second dt) (microsecond dt) utc
    | Some _ => dt
    end in
  astimezone_zone IST dt.

(** *** fetchers.py: [ContestFetcher] *)

Definition await {A} (r : fetched A) : M W A :=
  match r with
  | Cancelled => raise CancelledError
  | Failed msg => raise (Exception msg)
  | Response data => ret data
  end.

(** The loop of [fetch_codeforces]; an exception leaves it at once. *)
Fixpoint codeforces_loop (entries : list cf_contest) (acc : list contest)
  : M W (list contest) :=
  match entries with
  | [] => ret acc
  | entry :: rest =>
      if String.eqb (cf_phase entry) "BEFORE" then
        let* start_time :=
          lift "year is out of range"
            (fromtimestamp_utc (cf_startTimeSeconds entry)) in
        codeforces_loop rest
          (acc ++ [mk_contest
                     ("codeforces_" ++ decimal (cf_id entry))
                     "Codeforces"
                     (cf_name entry)
                     (isoformat start_time)
                     (cf_durationSeconds entry)
                     (Some ("https://codeforces.com/contest/"
                            ++ decimal (cf_id entry)))])
      else codeforces_loop rest acc
  end.

Definition fetch_codeforces (response : fetched cf_data)
  : M W (list contest) :=
  try_except
    (let* data := await response in
     if negb (String.eqb (cf_status data) "OK") then ret []
     else codeforces_loop (cf_result data) [])
    (fun _ => ret []).

Fixpoint leetcode_loop (current_time : datetime) (entries : list lc_contest)
    (acc : list contest) : M W (list contest) :=
  match entries with
  | [] => ret acc
  | entry :: rest =>
      let* start_time :=
        lift "year is out of range"
          (fromtimestamp_utc (lc_startTime entry)) in
      if datetime_ltb current_time start_time then
        leetcode_loop current_time rest
          (acc ++ [mk_contest
                     ("leetcode_" ++ lc_titleSlug entry)
                     "LeetCode"
                     (lc_title entry)
                     (isoformat start_time)
                     (lc_duration entry)
                     (Some ("https://leetcode.com/contest/"
                            ++ lc_titleSlug entry))])
      else leetcode_loop current_time rest acc
  end.

(** [response] holds [data.get('data', {}).get('allContests', [])]. *)
Definition fetch_leetcode (response : fetched (list lc_contest))
  : M W (list contest) :=
  try_except
    (let* all_contests := await response in
     let* current_time := now in
     leetcode_loop current_time all_contests [])
    (fun _ => ret []).

(** The body of the inner [try] of [fetch_codechef] for one entry. *)
Definition codechef_entry (entry : cc_contest) : M W contest :=
  let* start_time :=
    lift ("Invalid isoformat string: " ++ contest_start_date_iso entry)
      (fromisoformat (contest_start_date_iso entry)) in
  let* start_time_utc :=
    lift "date value out of range"
      (astimezone_utc local_offset start_time) in
  let* minutes :=
    lift ("invalid literal for int() with base 10: "
          ++ contest_duration entry)
      (py_int (contest_duration entry)) in
  let duration_seconds := minutes * 60 in
  ret (mk_contest
         ("codechef_" ++ contest_code entry)
         "CodeChef"
         (contest_name entry)
         (isoformat start_time_utc)
         duration_seconds
         (Some ("https://www.codechef.com/" ++ contest_code entry))).

Fixpoint codechef_loop (entries : list cc_contest) (acc : list contest)
  : M W (list contest) :=
  match entries with
  | [] => ret acc
  | entry :: rest =>
      let* acc' :=
        try_except
          (let* c := codechef_entry entry in ret (acc ++ [c])%list)
          (fun _ => ret acc) in
      codechef_loop rest acc'
  end.

Definition fetch_codechef (response : fetched cc_data)
  : M W (list contest) :=
  try_except
    (let* data := await response in
     if negb (String.eqb (cc_status data) "success") then ret []
     else codechef_loop (future_contests data) [])
    (fun _ => ret []).

(** The fan-in of [fetch_all]: [extend] with every result that is a list. *)
Fixpoint collect (results : list (result (list contest))) : list contest :=
  match results with
  | [] => []
  | Ok l :: rest => l ++ collect rest
  | Raise _ :: rest => collect rest
  end.

(** [asyncio.gather] with [return_exceptions=True]; the tasks share no
    state but the clock, so they are run one after the other. *)
Fixpoint gather (tasks : list (M W (list contest)))
  : M W (list (result (list contest))) :=
  match tasks with
  | [] => ret []
  | t :: rest =>
      let* r := capture t in
      let* rs := gather rest in
      ret (r :: rs)
  end.

(** [fetch_all] over any three awaitables. *)
Definition fetch_all_of (tasks : list (M W (list contest)))
  : M W (list contest) :=
  let* results := gather tasks in
  ret (collect results).

Definition fetch_all (codeforces : fetched cf_data)
    (leetcode : fetched (list lc_contest)) (codechef : fetched cc_data)
  : M W (list contest) :=
  fetch_all_of
    [fetch_codeforces codeforces; fetch_leetcode leetcode;
     fetch_codechef codechef].

(** *** tools.py *)

Definition add_contest_to_calendar_tool (contest_id : string)
    (reminder_minutes : option (list Z)) (force : bool) : M W add_outcome :=
  let reminder_minutes :=
    match reminder_minutes with
    | None => [30; 10]
    | Some r => r
    end in
  let* '(already_exists, event_id) := is_contest_in_calendar contest_id in
  if already_exists && negb force then
    ret (Conflict (default "None" event_id))
  else
    let* contest := get_contest_by_id contest_id in
    match contest with
    | None => ret (NotFound contest_id)
    | Some contest =>
        try_except
          (let* event :=
             create_contest_event contest (Some reminder_minutes) in
           save_calendar_event (ev_id event) contest_id ;;
           let* start_time :=
             lift ("Invalid isoformat string: " ++ row_start_time contest)
               (fromisoformat (row_start_time contest)) in
           let* start_time_ist :=
             lift "date value out of range" (to_ist start_time) in
           ret (Success contest start_time_ist event reminder_minutes))
          (fun e => ret (Failure e))
    end.

Definition delete_calendar_event_tool (event_id : string)
  : M W delete_outcome :=
  try_except
    (delete_event event_id ;; ret (Deleted event_id))
    (fun e => ret (DeleteFailure e)).

(** Returns the reminder list its message repeats. *)
Definition set_reminder_preferences_tool (reminder_minutes : list Z)
  : M W (list Z) :=
  set_preference "default_reminders" (PyInts reminder_minutes) ;;
  ret reminder_minutes.

(** *** utils.py, continued *)

Definition format_ist_time (dt : datetime) : option string :=
  strftime_ist <$> to_ist dt.

(** *** tools.py, continued *)

Definition get_contest_resource (contest_id : string)
  : M W resource_outcome :=
  let* contest := get_contest_by_id contest_id in
  match contest with
  | Some contest =>
      let* start_time :=
        lift ("Invalid isoformat string: " ++ row_start_time contest)
          (fromisoformat (row_start_time contest)) in
      let* start_time_ist :=
        lift "date value out of range" (format_ist_time start_time) in
      ret (Resource contest start_time_ist)
  | None => ret ResourceError
  end.

(** The loop of [fetch_contests_tool] that renders the contests. *)
Fixpoint listing_loop (contests : list contest_row) (acc : list listing)
  : M W (list listing) :=
  match contests with
  | [] => ret acc
  | contest :: rest =>
      let* start_time :=
        lift ("Invalid isoformat string: " ++ row_start_time contest)
          (fromisoformat (row_start_time contest)) in
      let* start_time_ist :=
        lift "date value out of range" (to_ist start_time) in
      listing_loop rest
        (acc ++ [mk_listing contest (strftime_ist start_time_ist)
                   (match row_url contest with
                    | "" => None
                    | u => Some u
                    end)])
  end.

(** The three [fetched] arguments are what the HTTP exchanges of the
    adapters give, as for [fetch_all]; [truthy (Some platform)] is
    [platform if platform else None]. *)
Definition fetch_contests_tool (platform : string) (days_ahead : Z)
    (codeforces : fetched cf_data) (leetcode : fetched (list lc_contest))
    (codechef : fetched cc_data) : M W fetch_outcome :=
  let platform := str_strip platform in
  let* all_contests := fetch_all codeforces leetcode codechef in
  save_contests all_contests ;;
  let* contests :=
    get_upcoming_contests (truthy (Some platform)) days_ahead in
  match contests with
  | [] => ret NoUpcoming
  | _ =>
      let* entries := listing_loop contests [] in
      ret (Upcoming entries)
  end.

(** The loop of [list_calendar_contests_tool].  [ev_start event] is
    [event['start'].get('dateTime', event['start'].get('date'))]. *)
Fixpoint events_loop (events : list event_resource) (acc : list shown_event)
  : M W (list shown_event) :=
  match events with
  | [] => ret acc
  | event :: rest =>
      let start := ev_start event in
      let* start_ist :=
        if contains_char "T" start then
          let* start_dt :=
            lift ("Invalid isoformat string: "
                  ++ replace_char "Z" "+00:00" start)
              (fromisoformat (replace_char "Z" "+00:00" start)) in
          lift "date value out of range" (format_ist_time start_dt)
        else ret start in
      events_loop rest
        (acc ++ [mk_shown_event (ev_summary event) start_ist (ev_id event)])
  end.

Definition list_calendar_contests_tool (days_ahead : Z) : M W list_outcome :=
  try_except
    (let* events := list_events days_ahead in
     match events with
     | [] => ret NoEvents
     | _ =>
         let* entries := events_loop events [] in
         ret (Events entries)
     end)
    (fun e => ret (ListFailure e)).

End Program.

(** ** Values the program builds, named so that statements can mention
    them *)

(** What each adapter makes of one entry of its source, [None] when the
    entry makes it raise. *)
Module Entry.
Import PyStr PyDatetime Data.

Definition codeforces_contest (entry : cf_contest) : option contest :=
  start_time ← fromtimestamp_utc (cf_startTimeSeconds entry);
  Some (mk_contest
          ("codeforces_" ++ decimal (cf_id entry))
          "Codeforces"
          (cf_name entry)
          (isoformat start_time)
          (cf_durationSeconds entry)
          (Some ("https://codeforces.com/contest/"
                 ++ decimal (cf_id entry)))).

Definition leetcode_contest (entry : lc_contest) : option contest :=
  start_time ← fromtimestamp_utc (lc_startTime entry);
  Some (mk_contest
          ("leetcode_" ++ lc_titleSlug entry)
          "LeetCode"
          (lc_title entry)
          (isoformat start_time)
          (lc_duration entry)
          (Some ("https://leetcode.com/contest/" ++ lc_titleSlug entry))).

Definition codechef_contest (local_offset : datetime -> Z)
    (entry : cc_contest) : option contest :=
  start_time ← fromisoformat (contest_start_date_iso entry);
  start_time_utc ← astimezone_utc local_offset start_time;
  minutes ← py_int (contest_duration entry);
  Some (mk_contest
          ("codechef_" ++ contest_code entry)
          "CodeChef"
          (contest_name entry)
          (isoformat start_time_utc)
          (minutes * 60)
          (Some ("https://www.codechef.com/" ++ contest_code entry))).

End Entry.

(** Where a contest record comes from, as far as it tells. *)
Module Origin.
Import Data.

(** The record carries the name of a platform and an id with that
    platform's prefix. *)
Definition from_platform (name prefix : string) (c : contest) : Prop :=
  platform c = name /\ exists s, id c = prefix ++ s.

Definition from_adapter (c : contest) : Prop :=
  from_platform "Codeforces" "codeforces_" c
  \/ from_platform "LeetCode" "leetcode_" c
  \/ from_platform "CodeChef" "codechef_" c.

End Origin.

Module Request.
Import PyDatetime Data.

(** The body [create_contest_event] sends for a stored row, given the end
    time it has computed and the reminders. *)
Definition event_request (row : contest_row) (end_time : datetime)
    (reminder_minutes : list Z) : event_body :=
  mk_event_body
    (row_platform row ++ ": " ++ row_title row)
    ("Contest URL: " ++ row_url row)
    (row_start_time row) "Asia/Kolkata"
    (isoformat end_time) "Asia/Kolkata"
    false
    (map (fun minutes => ("popup", minutes)) reminder_minutes).

End Request.

(** ** A scripted calendar service and sample data, for running the model *)

Module Sample.
Import PyDatetime Eff Data.

(** The service answers [events().insert] and [events().delete] with the
    next scripted result. *)
Record script := mk_script {
  service : bool;
  inserts : list (answer event_resource);
  deletes : list (answer unit)
}.

Definition scripted : calendar_api script :=
  mk_calendar_api script
    service
    (fun s => (Answered tt, mk_script true (inserts s) (deletes s)))
    (fun _ s =>
       match inserts s with
       | r :: rest => (r, mk_script (service s) rest (deletes s))
       | [] => (Refused "HttpError 503", s)
       end)
    (fun _ _ s => (Answered [], s))
    (fun _ s =>
       match deletes s with
       | r :: rest => (r, mk_script (service s) (inserts s) rest)
       | [] => (Refused "HttpError 404", s)
       end).

(** 2024-02-20T12:00:00Z, then one second later at every reading. *)
Definition clock (n : nat) : datetime :=
  mk_datetime 2024 2 20 12 0 (Z.of_nat n mod 60) 0 utc.

(** India Standard Time as in force since 1945: UTC+05:30. *)
Definition ist (_ : Z) : Z := 19800 * US_PER_SECOND.

(** A process whose local zone is UTC. *)
Definition local_utc (_ : datetime) : Z := 0.

Definition round_900 : contest_row :=
  mk_contest_row "codeforces_1900" "Codeforces" "Codeforces Round 900"
    "2024-03-01T14:35:00+00:00" 7200 "https://codeforces.com/contest/1900"
    "2024-02-20T11:00:00+00:00".

Definition event_1 : event_resource :=
  mk_event_resource "evt_1" "Codeforces: Codeforces Round 900"
    "2024-03-01T14:35:00+00:00" (Some "https://calendar.google.com/evt_1").

Definition world_of (d : database) (s : script) : world script :=
  mk_world d s [] 0.

(** A store that holds one contest and no booking, and a service that will
    accept one insert. *)
Definition fresh : world script :=
  world_of (mk_database [round_900] [] ∅)
    (mk_script false [Answered event_1] []).

(** A booking row whose contest is not in the store. *)
Definition orphan_booking : world script :=
  world_of
    (mk_database []
       [mk_calendar_event_row "evt_1" "codeforces_1900"
          "2024-02-20T12:00:00+00:00"] ∅)
    (mk_script true [Answered event_1] []).

(** A contest that starts in the last hour of year 9999 (Codeforces
    [startTimeSeconds = 253402297200]) and lasts thirty minutes. *)
Definition last_hour : contest_row :=
  mk_contest_row "codeforces_9999" "Codeforces" "Millennium Round"
    "9999-12-31T23:00:00+00:00" 1800 "https://codeforces.com/contest/9999"
    "2024-02-20T11:00:00+00:00".

Definition event_2 : event_resource :=
  mk_event_resource "evt_2" "Codeforces: Millennium Round"
    "9999-12-31T23:00:00+00:00" None.

Definition far_future : world script :=
  world_of (mk_database [last_hour] [] ∅)
    (mk_script true [Answered event_2] []).

(** Two readings of the clock two microseconds apart, on either side of
    2024-03-01T12:00:00Z. *)
Definition straddle (n : nat) : datetime :=
  match n with
  | O => mk_datetime 2024 3 1 11 59 59 999999 utc
  | _ => mk_datetime 2024 3 1 12 0 0 1 utc
  end.

Definition at_noon : contest_row :=
  mk_contest_row "codeforces_1" "Codeforces" "Round at noon"
    "2024-03-01T12:00:00+00:00" 7200 "https://codeforces.com/contest/1"
    "2024-02-20T11:00:00+00:00".

Definition next_noon : contest_row :=
  mk_contest_row "leetcode_weekly-1" "LeetCode" "Weekly 1"
    "2024-03-02T12:00:00+00:00" 5400 "https://leetcode.com/contest/weekly-1"
    "2024-02-20T11:00:00+00:00".

Definition two_noons : world script :=
  world_of (mk_database [at_noon; next_noon] [] ∅) (mk_script true [] []).

(** A service that refuses the next insert. *)
Definition refusing : world script :=
  world_of (mk_database [round_900] [] ∅)
    (mk_script true [Refused "HttpError 403: quotaExceeded"] []).

(** A service that accepts one delete, and a store without any booking. *)
Definition deleting : world script :=
  world_of (mk_database [round_900] [] ∅)
    (mk_script true [] [Answered tt]).

(** The same contest fetched twice, renamed in between. *)
Definition weekly_before : contest :=
  mk_contest "leetcode_weekly-1" "LeetCode" "Weekly Contest"
    "2024-03-02T12:00:00+00:00" 5400
    (Some "https://leetcode.com/contest/weekly-1").

Definition weekly_after : contest :=
  mk_contest "leetcode_weekly-1" "LeetCode" "Weekly Contest 1"
    "2024-03-02T12:00:00+00:00" 5400
    (Some "https://leetcode.com/contest/weekly-1").

(** What LeetCode lists: one contest on 2024-03-02T02:30:00Z. *)
Definition weekly_listed : lc_contest :=
  mk_lc_contest "Weekly Contest 1" "weekly-1" 1709346600 5400.

(** The request [create_contest_event] builds for [round_900] with the
    reminders 30 and 10. *)
Definition request_900 : event_body :=
  mk_event_body "Codeforces: Codeforces Round 900"
    "Contest URL: https://codeforces.com/contest/1900"
    "2024-03-01T14:35:00+00:00" "Asia/Kolkata"
    "2024-03-01T16:35:00+00:00" "Asia/Kolkata" false
    [("popup", 30); ("popup", 10)].

(** 2024-03-01T20:00:00+05:30. *)
Definition evening_ist : datetime :=
  mk_datetime 2024 3 1 20 0 0 0 (Some (19800 * US_PER_SECOND)).

(** The CodeChef entry of the specification's example. *)
Definition start_2030 : cc_contest :=
  mk_cc_contest "START123" "Starters 123" "2024-03-01T20:00:00+05:30" "150".

(** An entry whose UTC equivalent falls before year 1. *)
Definition before_year_1 : cc_contest :=
  mk_cc_contest "START0" "Starters 0" "0001-01-01T00:00:00+05:30" "150".

(** A clock that stands still at 2024-02-20T12:00:00Z. *)
Definition frozen (_ : nat) : datetime := mk_datetime 2024 2 20 12 0 0 0 utc.

(** 2024-03-01T14:35:00Z, the start of [round_900]. *)
Definition start_900 : datetime := mk_datetime 2024 3 1 14 35 0 0 utc.

(** The same instant on an Indian clock. *)
Definition start_900_ist : datetime :=
  mk_datetime 2024 3 1 20 5 0 0 (Some (19800 * US_PER_SECOND)).

(** 2024-03-01T16:35:00Z, two hours later. *)
Definition end_900 : datetime := mk_datetime 2024 3 1 16 35 0 0 utc.

(** A manager that holds a service, which will accept one insert. *)
Definition ready : world script :=
  world_of (mk_database [round_900] [] ∅)
    (mk_script true [Answered event_1] []).

(** The contest is booked under [evt_0]; the service will accept one more
    insert and one delete. *)
Definition booked : world script :=
  world_of
    (mk_database [round_900]
       [mk_calendar_event_row "evt_0" "codeforces_1900"
          "2024-02-19T08:00:00+00:00"] ∅)
    (mk_script true [Answered event_1] [Answered tt]).

(** [booked] once the contest has been booked again with [force]. *)
Definition booked_again : world script :=
  mk_world
    (mk_database [round_900]
       [mk_calendar_event_row "evt_0" "codeforces_1900"
          "2024-02-19T08:00:00+00:00";
        mk_calendar_event_row "evt_1" "codeforces_1900"
          "2024-02-20T12:00:00+00:00"] ∅)
    (mk_script true [] [Answered tt])
    [Insert request_900 (Answered event_1)] 1.

(** A manager without credentials: there is no service, and every attempt
    to authenticate fails. *)
Definition no_credentials : calendar_api unit :=
  mk_calendar_api unit
    (fun _ => false)
    (fun s => (Refused "credentials.json is missing", s))
    (fun _ s => (Refused "no service", s))
    (fun _ _ s => (Refused "no service", s))
    (fun _ s => (Refused "no service", s)).

Definition locked_out : world unit :=
  mk_world (mk_database [round_900] [] ∅) tt [] 0.

(** Two events as the calendar lists them: one with a time, one that lasts
    all day. *)
Definition timed_event : event_resource :=
  mk_event_resource "evt_1" "Codeforces: Codeforces Round 900"
    "2024-03-01T14:35:00Z" None.

Definition all_day_event : event_resource :=
  mk_event_resource "evt_9" "Holiday" "2024-03-08" None.

(** What Codeforces lists: contest 1900, yet to start, at
    2024-03-01T14:35:00Z for two hours. *)
Definition listed_900 : cf_contest :=
  mk_cf_contest 1900 "Codeforces Round 900" "BEFORE" 1709303700 7200.

(** How [fetch_contests_tool] shows [round_900]. *)
Definition shown_900 : listing :=
  mk_listing round_900 "2024-03-01 20:05 IST"
    (Some "https://codeforces.com/contest/1900").

End Sample.

(** ** The specification's wording of the time-window query *)

Module Spec.
Import PyDatetime Data.

(** The instant a stored row starts at. *)
Definition start_instant (r : contest_row) : option Z :=
  instant <$> fromisoformat (row_start_time r).

(** [query_upcoming(platform?, horizon)] as specified: the contests that
    start strictly between one reading [now] of the clock and
    [now + horizon], filtered by platform, in ascending order of start. *)
Definition query_upcoming (now : datetime) (platform : option string)
    (horizon_days : Z) (rows : list contest_row) : list contest_row :=
  order_by_start_time
    (List.filter
       (fun r =>
          match platform with
          | Some p => String.eqb (row_platform r) p
          | None => true
          end
          && match start_instant r with
             | Some t =>
                 (instant now <? t)
                 && (t <? instant now + horizon_days * US_PER_DAY)
             | None => false
             end)
       rows).

(** Every booking row names a contest that is in the store.  The tools
    keep it so: rows of [contests] are never deleted, and a booking row is
    only written for a contest that was found. *)
Definition bookings_stored (d : database) : Prop :=
  forall r, In r (calendar_events d) -> select_contest d (contest_id r) <> None.

End Spec.

(** * Properties *)

(** ** Text *)

Section TextFacts.
Import PyStr PyDatetime.

Lemma string_compare_refl (s : string) : (s ?= s)%string = Eq.
Proof.
  induction s as [|c s IH]; simpl; [done|].
  unfold Ascii.compare. by rewrite N.compare_refl.
Qed.

Lemma string_compare_app (a b x y : string) :
  String.length a = String.length b ->
  (a ++ x ?= b ++ y)%string = lex (a ?= b)%string (x ?= y)%string.
Proof.
  revert b. induction a as [|c a IH]; intros [|c' b] Hlen; simpl in *; try done.
  destruct (Ascii.compare c c'); simpl; [|done..].
  apply IH. by injection Hlen.
Qed.

Lemma string_length_app (a b : string) :
  String.length (a ++ b) = (String.length a + String.length b)%nat.
Proof. induction a as [|c a IH]; simpl; [done|by rewrite IH]. Qed.

Lemma fixed_length w n : String.length (fixed w n) = w.
Proof.
  revert n. induction w as [|w IH]; intros n; simpl; [done|].
  rewrite string_length_app, IH. simpl. lia.
Qed.

Lemma digit_char_compare a b :
  0 <= a <= 9 -> 0 <= b <= 9 ->
  Ascii.compare (digit_char a) (digit_char b) = (a ?= b).
Proof.
  intros Ha Hb. unfold Ascii.compare, digit_char.
  rewrite !N_ascii_embedding by lia.
  rewrite <- N2Z.inj_compare, !N2Z.inj_add, !Z2N.id by lia.
  apply Z.add_compare_mono_l.
Qed.

Lemma fixed_compare w a b :
  0 <= a < 10 ^ Z.of_nat w -> 0 <= b < 10 ^ Z.of_nat w ->
  (fixed w a ?= fixed w b)%string = (a ?= b).
Proof.
  revert a b. induction w as [|w IH]; intros a b Ha Hb.
  - simpl in *. replace a with 0 by lia. replace b with 0 by lia. done.
  - rewrite Nat2Z.inj_succ, Z.pow_succ_r in Ha, Hb by lia.
    pose proof (Z.div_mod a 10 ltac:(lia)) as Ea.
    pose proof (Z.div_mod b 10 ltac:(lia)) as Eb.
    pose proof (Z.mod_pos_bound a 10 ltac:(lia)) as Ra.
    pose proof (Z.mod_pos_bound b 10 ltac:(lia)) as Rb.
    assert (0 <= a / 10 < 10 ^ Z.of_nat w) as Qa by lia.
    assert (0 <= b / 10 < 10 ^ Z.of_nat w) as Qb by lia.
    simpl. rewrite string_compare_app by (by rewrite !fixed_length).
    rewrite (IH _ _ Qa Qb). simpl.
    rewrite digit_char_compare by lia.
    destruct (a / 10 ?= b / 10) eqn:Hq; simpl.
    + apply Z.compare_eq in Hq.
      destruct (a mod 10 ?= b mod 10) eqn:Hr; simpl; symmetry.
      * apply Z.compare_eq in Hr. apply Z.compare_eq_iff. lia.
      * rewrite Z.compare_lt_iff in *. lia.
      * rewrite Z.compare_gt_iff in *. lia.
    + symmetry. rewrite Z.compare_lt_iff in *. lia.
    + symmetry. rewrite Z.compare_gt_iff in *. lia.
Qed.

Lemma pad_fixed w n : n < 10 ^ Z.of_nat w -> pad w n = fixed w n.
Proof. intros H. unfold pad. by rewrite (proj2 (Z.ltb_lt _ _) H). Qed.

Lemma string_app_assoc (a b c : string) : (a ++ b) ++ c = a ++ (b ++ c).
Proof.
  induction a as [|x a IH]; [done|].
  change (String x ((a ++ b) ++ c) = String x (a ++ (b ++ c))). by f_equal.
Qed.

Lemma sep_compare c x y :
  (String c "" ++ x ?= String c "" ++ y)%string = (x ?= y)%string.
Proof.
  change ((String c x ?= String c y)%string = (x ?= y)%string).
  simpl. unfold Ascii.compare. by rewrite N.compare_refl.
Qed.

End TextFacts.

(** ** The calendar: ordinals and dates *)

Section CalendarFacts.
Import PyStr PyDatetime.

Lemma all_from_spec fuel z f :
  all_from fuel z f = true ->
  forall x, z <= x < z + Z.of_nat fuel -> f x = true.
Proof.
  revert z. induction fuel as [|k IH]; intros z H x Hx; [lia|].
  simpl in H. destruct (f z) eqn:Hz; [|done].
  destruct (decide (x = z)) as [->|Hne]; [done|].
  apply (IH (z + 1)); [done|lia].
Qed.

Lemma cycle_checked : all_from (Z.to_nat DI400Y) 0 cycle_ok = true.
Proof. vm_compute. reflexivity. Qed.

Lemma is_leap_shift y k : is_leap (y + 400 * k) = is_leap y.
Proof.
  unfold is_leap.
  replace ((y + 400 * k) mod 4) with (y mod 4)
    by (replace (y + 400 * k) with (y + (100 * k) * 4) by lia;
        by rewrite Z.mod_add).
  replace ((y + 400 * k) mod 100) with (y mod 100)
    by (replace (y + 400 * k) with (y + (4 * k) * 100) by lia;
        by rewrite Z.mod_add).
  replace ((y + 400 * k) mod 400) with (y mod 400)
    by (replace (y + 400 * k) with (y + k * 400) by lia;
        by rewrite Z.mod_add).
  done.
Qed.

Lemma days_before_year_shift y k :
  days_before_year (y + 400 * k) = days_before_year y + DI400Y * k.
Proof.
  unfold days_before_year, DI400Y. cbv zeta.
  replace (y + 400 * k - 1) with (y - 1 + 400 * k) by lia.
  replace ((y - 1 + 400 * k) / 4) with ((y - 1) / 4 + 100 * k)
    by (replace (y - 1 + 400 * k) with (y - 1 + (100 * k) * 4) by lia;
        by rewrite Z.div_add).
  replace ((y - 1 + 400 * k) / 100) with ((y - 1) / 100 + 4 * k)
    by (replace (y - 1 + 400 * k) with (y - 1 + (4 * k) * 100) by lia;
        by rewrite Z.div_add).
  replace ((y - 1 + 400 * k) / 400) with ((y - 1) / 400 + k)
    by (replace (y - 1 + 400 * k) with (y - 1 + k * 400) by lia;
        by rewrite Z.div_add).
  lia.
Qed.

Lemma ymd2ord_shift y m d k :
  ymd2ord (y + 400 * k) m d = ymd2ord y m d + DI400Y * k.
Proof.
  unfold ymd2ord, days_before_month.
  rewrite days_before_year_shift, is_leap_shift. lia.
Qed.

Lemma valid_date_shift y m d k :
  valid_date (y + 400 * k) m d = valid_date y m d.
Proof. unfold valid_date, days_in_month. by rewrite is_leap_shift. Qed.

Lemma ord2ymd_shift n :
  ord2ymd n =
  let '(y, m, d) := ord2ymd ((n - 1) mod DI400Y + 1) in
  (y + 400 * ((n - 1) / DI400Y), m, d).
Proof.
  unfold ord2ymd. cbv zeta.
  replace ((n - 1) mod DI400Y + 1 - 1) with ((n - 1) mod DI400Y) by lia.
  pose proof (Z.mod_pos_bound (n - 1) DI400Y ltac:(done)) as Hr.
  rewrite (Z.div_small ((n - 1) mod DI400Y) DI400Y) by done.
  rewrite (Z.mod_small ((n - 1) mod DI400Y) DI400Y) by done.
  set (r := (n - 1) mod DI400Y). set (q := (n - 1) / DI400Y).
  destruct (_ || _); [f_equal; [f_equal|..]; lia|].
  destruct (_ <? _); f_equal; f_equal; lia.
Qed.

Lemma ord2ymd_spec n :
  let '(y, m, d) := ord2ymd n in
  valid_date y m d = true /\ ymd2ord y m d = n.
Proof.
  rewrite ord2ymd_shift.
  pose proof (Z.mod_pos_bound (n - 1) DI400Y ltac:(done)) as Hr.
  pose proof (all_from_spec _ _ _ cycle_checked ((n - 1) mod DI400Y)) as Hc.
  rewrite Z2Nat.id in Hc by done. specialize (Hc ltac:(lia)).
  unfold cycle_ok in Hc.
  destruct (ord2ymd ((n - 1) mod DI400Y + 1)) as [[y m] d].
  rewrite !andb_true_iff in Hc. destruct Hc as [[[_ _] Hv] He].
  rewrite valid_date_shift, ymd2ord_shift. split; [done|].
  apply Z.eqb_eq in He. rewrite He.
  pose proof (Z.div_mod (n - 1) DI400Y ltac:(done)). lia.
Qed.

Lemma days_before_year_step y :
  days_before_year (y + 1)
  = days_before_year y + 365 + (if is_leap y then 1 else 0).
Proof.
  unfold days_before_year, is_leap. cbv zeta.
  replace (y + 1 - 1) with y by lia.
  destruct (Z.eqb_spec (y mod 4) 0), (Z.eqb_spec (y mod 100) 0),
    (Z.eqb_spec (y mod 400) 0); simpl; Z.div_mod_to_equations; lia.
Qed.

Lemma days_before_year_grows y k :
  0 <= k -> days_before_year y + 365 * k <= days_before_year (y + k).
Proof.
  intros Hk. revert k Hk. apply natlike_ind.
  - replace (y + 0) with y by lia. lia.
  - intros k Hk IH. replace (y + Z.succ k) with (y + k + 1) by lia.
    rewrite days_before_year_step. destruct (is_leap (y + k)); lia.
Qed.

Lemma month_cases m :
  1 <= m <= 12 ->
  m = 1 \/ m = 2 \/ m = 3 \/ m = 4 \/ m = 5 \/ m = 6 \/ m = 7 \/ m = 8
  \/ m = 9 \/ m = 10 \/ m = 11 \/ m = 12.
Proof. lia. Qed.

Lemma valid_date_bounds y m d :
  valid_date y m d = true ->
  1 <= m <= 12 /\ 1 <= d <= days_in_month y m.
Proof. unfold valid_date. rewrite !andb_true_iff. lia. Qed.

Lemma day_of_year_bounds y m d :
  valid_date y m d = true ->
  1 <= days_before_month y m + d <= 365 + (if is_leap y then 1 else 0).
Proof.
  intros H. apply valid_date_bounds in H as [Hm Hd].
  unfold days_before_month, days_in_month in *.
  destruct (is_leap y);
    destruct (month_cases m Hm)
      as [->|[->|[->|[->|[->|[->|[->|[->|[->|[->|[->| ->]]]]]]]]]]];
    simpl in *; lia.
Qed.

Lemma day_of_year_compare y m1 d1 m2 d2 :
  valid_date y m1 d1 = true -> valid_date y m2 d2 = true ->
  (days_before_month y m1 + d1 ?= days_before_month y m2 + d2)
  = lex (m1 ?= m2) (d1 ?= d2).
Proof.
  intros H1 H2.
  apply valid_date_bounds in H1 as [Hm1 Hd1].
  apply valid_date_bounds in H2 as [Hm2 Hd2].
  unfold days_before_month, days_in_month in *.
  destruct (is_leap y);
    destruct (month_cases m1 Hm1)
      as [->|[->|[->|[->|[->|[->|[->|[->|[->|[->|[->| ->]]]]]]]]]]];
    destruct (month_cases m2 Hm2)
      as [->|[->|[->|[->|[->|[->|[->|[->|[->|[->|[->| ->]]]]]]]]]]];
    simpl in *;
    first [ by rewrite Z.add_compare_mono_l
          | apply Z.compare_lt_iff; lia
          | apply Z.compare_gt_iff; lia ].
Qed.

Lemma ymd2ord_compare y1 m1 d1 y2 m2 d2 :
  valid_date y1 m1 d1 = true -> valid_date y2 m2 d2 = true ->
  (ymd2ord y1 m1 d1 ?= ymd2ord y2 m2 d2)
  = lex (y1 ?= y2) (lex (m1 ?= m2) (d1 ?= d2)).
Proof.
  intros H1 H2. unfold ymd2ord.
  pose proof (day_of_year_bounds _ _ _ H1) as B1.
  pose proof (day_of_year_bounds _ _ _ H2) as B2.
  destruct (Z.compare_spec y1 y2) as [->|Hlt|Hgt]; simpl.
  - rewrite <- !Z.add_assoc, Z.add_compare_mono_l.
    by apply day_of_year_compare.
  - apply Z.compare_lt_iff.
    pose proof (days_before_year_step y1).
    pose proof (days_before_year_grows (y1 + 1) (y2 - y1 - 1) ltac:(lia)).
    replace (y1 + 1 + (y2 - y1 - 1)) with y2 in * by lia. lia.
  - apply Z.compare_gt_iff.
    pose proof (days_before_year_step y2).
    pose proof (days_before_year_grows (y2 + 1) (y1 - y2 - 1) ltac:(lia)).
    replace (y2 + 1 + (y1 - y2 - 1)) with y1 in * by lia. lia.
Qed.

Lemma radix_compare b hi1 lo1 hi2 lo2 :
  0 <= lo1 < b -> 0 <= lo2 < b ->
  (hi1 * b + lo1 ?= hi2 * b + lo2) = lex (hi1 ?= hi2) (lo1 ?= lo2).
Proof.
  intros H1 H2.
  destruct (Z.compare_spec hi1 hi2) as [->|Hlt|Hgt]; simpl.
  - apply Z.add_compare_mono_l.
  - apply Z.compare_lt_iff. nia.
  - apply Z.compare_gt_iff. nia.
Qed.

Lemma lex_assoc a b c : lex (lex a b) c = lex a (lex b c).
Proof. by destruct a. Qed.

Lemma valid_fields_bounds y mo d h mi s us :
  valid_fields y mo d h mi s us = true ->
  1 <= y <= 9999 /\ valid_date y mo d = true
  /\ 0 <= h <= 23 /\ 0 <= mi <= 59 /\ 0 <= s <= 59 /\ 0 <= us <= 999999.
Proof.
  unfold valid_fields, valid_date, MINYEAR, MAXYEAR.
  rewrite !andb_true_iff. intros H.
  repeat match goal with H : _ /\ _ |- _ => destruct H end.
  repeat split; try lia.
Qed.

Lemma valid_bounds d :
  valid d = true ->
  1 <= year d <= 9999 /\ valid_date (year d) (month d) (day d) = true
  /\ 0 <= hour d <= 23 /\ 0 <= minute d <= 59 /\ 0 <= second d <= 59
  /\ 0 <= microsecond d <= 999999.
Proof.
  unfold valid. rewrite andb_true_iff. intros [H _].
  by apply valid_fields_bounds.
Qed.

Lemma to_micros_compare d1 d2 :
  valid d1 = true -> valid d2 = true ->
  (to_micros d1 ?= to_micros d2) = fields_compare d1 d2.
Proof.
  intros V1 V2.
  apply valid_bounds in V1 as (Y1 & D1 & H1 & M1 & S1 & U1).
  apply valid_bounds in V2 as (Y2 & D2 & H2 & M2 & S2 & U2).
  unfold to_micros, fields_compare, US_PER_SECOND.
  rewrite radix_compare by lia.
  replace (ymd2ord (year d1) (month d1) (day d1) * 86400 + hour d1 * 3600
           + minute d1 * 60 + second d1)
    with (((ymd2ord (year d1) (month d1) (day d1) * 24 + hour d1) * 60
           + minute d1) * 60 + second d1) by lia.
  replace (ymd2ord (year d2) (month d2) (day d2) * 86400 + hour d2 * 3600
           + minute d2 * 60 + second d2)
    with (((ymd2ord (year d2) (month d2) (day d2) * 24 + hour d2) * 60
           + minute d2) * 60 + second d2) by lia.
  rewrite !radix_compare by lia.
  rewrite ymd2ord_compare by done.
  by rewrite !lex_assoc.
Qed.

Lemma utc_tail_compare u1 u2 :
  0 <= u1 <= 999999 -> 0 <= u2 <= 999999 ->
  (utc_tail u1 ?= utc_tail u2)%string = (u1 ?= u2).
Proof.
  intros H1 H2. unfold utc_tail.
  destruct (Z.eqb_spec u1 0) as [->|N1], (Z.eqb_spec u2 0) as [->|N2].
  - done.
  - transitivity Lt; [reflexivity|]. symmetry. apply Z.compare_lt_iff. lia.
  - transitivity Gt; [reflexivity|]. symmetry. apply Z.compare_gt_iff. lia.
  - rewrite !pad_fixed by (simpl; lia).
    change (("." ++ fixed 6 u1) ++ "+00:00")
      with ("." ++ (fixed 6 u1 ++ "+00:00")).
    change (("." ++ fixed 6 u2) ++ "+00:00")
      with ("." ++ (fixed 6 u2 ++ "+00:00")).
    change (("." ++ (fixed 6 u1 ++ "+00:00")
             ?= "." ++ (fixed 6 u2 ++ "+00:00"))%string)
      with ((fixed 6 u1 ++ "+00:00" ?= fixed 6 u2 ++ "+00:00")%string).
    rewrite string_compare_app by (by rewrite !fixed_length).
    rewrite fixed_compare by (simpl; lia).
    by destruct (u1 ?= u2).
Qed.

Lemma day_two_digits y m d : valid_date y m d = true -> d <= 31.
Proof.
  intros H. apply valid_date_bounds in H as [Hm Hd].
  unfold days_in_month in Hd. destruct (_ && _); [lia|].
  destruct (month_cases _ Hm) as [E|[E|[E|[E|[E|[E|[E|[E|[E|[E|[E|E]]]]]]]]]]];
    rewrite E in Hd; simpl in Hd; lia.
Qed.

Lemma isoformat_utc d :
  valid d = true -> tzinfo d = utc ->
  isoformat d =
  fixed 4 (year d) ++ "-" ++ fixed 2 (month d) ++ "-" ++ fixed 2 (day d)
  ++ "T" ++ fixed 2 (hour d) ++ ":" ++ fixed 2 (minute d) ++ ":"
  ++ fixed 2 (second d) ++ utc_tail (microsecond d).
Proof.
  intros V T. apply valid_bounds in V as (Y & D & H & M & S & U).
  pose proof (day_two_digits _ _ _ D).
  apply valid_date_bounds in D as [Dm Dd].
  unfold isoformat, format_time, utc_tail. rewrite T.
  rewrite !pad_fixed by (simpl; lia).
  change (format_offset utc) with "+00:00".
  by rewrite !string_app_assoc.
Qed.

Lemma instant_utc d : tzinfo d = utc -> instant d = to_micros d.
Proof. unfold instant. intros ->. simpl. lia. Qed.

Theorem isoformat_compare d1 d2 :
  valid d1 = true -> tzinfo d1 = utc ->
  valid d2 = true -> tzinfo d2 = utc ->
  (isoformat d1 ?= isoformat d2)%string = (instant d1 ?= instant d2).
Proof.
  intros V1 T1 V2 T2.
  rewrite (isoformat_utc d1), (isoformat_utc d2) by done.
  rewrite !instant_utc, to_micros_compare by done.
  apply valid_bounds in V1 as (Y1 & D1 & H1 & M1 & S1 & U1).
  apply valid_bounds in V2 as (Y2 & D2 & H2 & M2 & S2 & U2).
  pose proof (day_two_digits _ _ _ D1). pose proof (day_two_digits _ _ _ D2).
  apply valid_date_bounds in D1 as [Dm1 Dd1].
  apply valid_date_bounds in D2 as [Dm2 Dd2].
  unfold fields_compare.
  repeat (rewrite string_compare_app by (by rewrite !fixed_length);
          rewrite fixed_compare by (simpl; lia);
          f_equal; rewrite ?sep_compare).
  by apply utc_tail_compare.
Qed.

End CalendarFacts.

(** ** [datetime] values *)

Section DatetimeFacts.
Import PyStr PyDatetime.

Lemma year_of_ordinal y m d :
  valid_date y m d = true ->
  1 <= ymd2ord y m d <= MAXORDINAL -> 1 <= y <= 9999.
Proof.
  intros V R. pose proof (day_of_year_bounds _ _ _ V) as B.
  pose proof (days_before_year_step y) as St.
  unfold ymd2ord, MAXORDINAL in R.
  assert (days_before_year 1 = 0) as E1 by done.
  assert (days_before_year 10000 = 3652059) as E2 by done.
  split.
  - destruct (Z_le_gt_dec 1 y) as [|Hy]; [done|].
    pose proof (days_before_year_grows (y + 1) (- y) ltac:(lia)) as G.
    replace (y + 1 + - y) with 1 in G by lia.
    destruct (is_leap y); lia.
  - destruct (Z_le_gt_dec y 9999) as [|Hy]; [done|].
    pose proof (days_before_year_grows 10000 (y - 10000) ltac:(lia)) as G.
    replace (10000 + (y - 10000)) with y in G by lia. lia.
Qed.

Lemma ordinal_of_valid y m d :
  1 <= y <= 9999 -> valid_date y m d = true ->
  1 <= ymd2ord y m d <= MAXORDINAL.
Proof.
  intros Y V. pose proof (day_of_year_bounds _ _ _ V) as B.
  pose proof (days_before_year_step y) as St.
  pose proof (days_before_year_grows 1 (y - 1) ltac:(lia)) as G1.
  pose proof (days_before_year_grows (y + 1) (9999 - y) ltac:(lia)) as G2.
  replace (1 + (y - 1)) with y in G1 by lia.
  replace (y + 1 + (9999 - y)) with 10000 in G2 by lia.
  assert (days_before_year 1 = 0) as E1 by done.
  assert (days_before_year 10000 = 3652059) as E2 by done.
  unfold ymd2ord, MAXORDINAL. destruct (is_leap y); lia.
Qed.

Lemma valid_fields_intro y mo d h mi s us :
  1 <= y <= 9999 -> valid_date y mo d = true ->
  0 <= h <= 23 -> 0 <= mi <= 59 -> 0 <= s <= 59 -> 0 <= us <= 999999 ->
  valid_fields y mo d h mi s us = true.
Proof.
  intros Y D H M S U. apply valid_date_bounds in D as [Dm Dd].
  unfold valid_fields, MINYEAR, MAXYEAR.
  rewrite !andb_true_iff. repeat split; lia.
Qed.

(** [of_micros] yields a value that exists, in the zone asked for, whose
    fields add up to the microseconds given. *)
Lemma of_micros_spec t tz d :
  of_micros t tz = Some d ->
  valid_fields (year d) (month d) (day d) (hour d) (minute d) (second d)
    (microsecond d) = true
  /\ tzinfo d = tz /\ to_micros d = t.
Proof.
  unfold of_micros. cbv zeta.
  destruct (_ && _) eqn:R; [|done].
  apply andb_true_iff in R as [R1 R2].
  pose proof (ord2ymd_spec (t / US_PER_DAY)) as O.
  destruct (ord2ymd (t / US_PER_DAY)) as [[y mo] dd].
  destruct O as [V E]. intros [= <-]. simpl.
  pose proof (year_of_ordinal _ _ _ V) as Y. rewrite E in Y.
  specialize (Y ltac:(lia)).
  unfold to_micros. simpl. rewrite E.
  unfold US_PER_DAY, US_PER_SECOND in *.
  split; [|split; [done|]].
  - apply valid_fields_intro; try done; Z.div_mod_to_equations; lia.
  - Z.div_mod_to_equations; lia.
Qed.

Lemma of_micros_valid t tz d :
  of_micros t tz = Some d -> valid_offset tz = true -> valid d = true.
Proof.
  intros H Hz. apply of_micros_spec in H as (V & T & _).
  unfold valid. by rewrite V, T, Hz.
Qed.

(** [of_micros] succeeds exactly on the representable range. *)
Lemma of_micros_total t tz :
  MIN_INSTANT <= t <= MAX_INSTANT -> exists d, of_micros t tz = Some d.
Proof.
  unfold MIN_INSTANT, MAX_INSTANT, of_micros. cbv zeta. intros R.
  assert (0 < t / US_PER_DAY <= MAXORDINAL) as [A B].
  { unfold US_PER_DAY, US_PER_SECOND, MAXORDINAL in *.
    Z.div_mod_to_equations; lia. }
  apply Z.ltb_lt in A. apply Z.leb_le in B. rewrite A, B. simpl.
  destruct (ord2ymd _) as [[y mo] dd]. eauto.
Qed.

Lemma to_micros_range d :
  valid d = true -> MIN_INSTANT <= to_micros d <= MAX_INSTANT.
Proof.
  intros V. apply valid_bounds in V as (Y & D & H & M & S & U).
  pose proof (ordinal_of_valid _ _ _ Y D) as O.
  unfold to_micros, MIN_INSTANT, MAX_INSTANT, US_PER_DAY, US_PER_SECOND,
    MAXORDINAL in *. lia.
Qed.


Lemma fromtimestamp_utc_spec t d :
  fromtimestamp_utc t = Some d ->
  valid d = true /\ tzinfo d = utc
  /\ instant d = EPOCH + t * US_PER_SECOND.
Proof.
  unfold fromtimestamp_utc. intros H.
  pose proof (of_micros_valid _ _ _ H eq_refl) as V.
  apply of_micros_spec in H as (_ & T & E).
  by rewrite instant_utc.
Qed.

Lemma astimezone_utc_spec local_offset d u :
  astimezone_utc local_offset d = Some u ->
  valid u = true /\ tzinfo u = utc
  /\ instant u
     = to_micros d - match tzinfo d with
                     | Some off => off
                     | None => local_offset d
                     end.
Proof.
  unfold astimezone_utc. intros H.
  pose proof (of_micros_valid _ _ _ H eq_refl) as V.
  apply of_micros_spec in H as (_ & T & E).
  by rewrite instant_utc.
Qed.

(** An aware value whose instant is representable has a UTC equivalent,
    and it denotes the same instant. *)
Lemma astimezone_utc_aware local_offset d off :
  tzinfo d = Some off ->
  MIN_INSTANT <= instant d <= MAX_INSTANT ->
  exists u, astimezone_utc local_offset d = Some u
            /\ valid u = true /\ tzinfo u = utc /\ instant u = instant d.
Proof.
  intros T R.
  assert (instant d = to_micros d - off) as E by (unfold instant; by rewrite T).
  destruct (of_micros_total (instant d) utc R) as [u Hu].
  exists u. assert (astimezone_utc local_offset d = Some u) as A.
  { unfold astimezone_utc. rewrite T. by rewrite <- E. }
  split; [done|]. apply astimezone_utc_spec in A as (V & Tu & I).
  rewrite T in I. repeat split; try done. lia.
Qed.

Lemma add_micros_utc d delta d' :
  tzinfo d = utc -> add_micros d delta = Some d' ->
  valid d' = true /\ tzinfo d' = utc /\ instant d' = instant d + delta.
Proof.
  unfold add_micros. intros T H. rewrite T in H.
  pose proof (of_micros_valid _ _ _ H eq_refl) as V.
  apply of_micros_spec in H as (_ & T' & E).
  rewrite !instant_utc by done. done.
Qed.

Lemma string_ltb_compare (a b : string) :
  String.ltb a b = match (a ?= b)%string with Lt => true | _ => false end.
Proof. done. Qed.

Lemma isoformat_ltb d1 d2 :
  valid d1 = true -> tzinfo d1 = utc ->
  valid d2 = true -> tzinfo d2 = utc ->
  String.ltb (isoformat d1) (isoformat d2) = (instant d1 <? instant d2).
Proof.
  intros V1 T1 V2 T2.
  rewrite string_ltb_compare, isoformat_compare by done.
  unfold Z.ltb. done.
Qed.

Lemma isoformat_inj d1 d2 :
  valid d1 = true -> tzinfo d1 = utc ->
  valid d2 = true -> tzinfo d2 = utc ->
  isoformat d1 = isoformat d2 -> instant d1 = instant d2.
Proof.
  intros V1 T1 V2 T2 E. apply Z.compare_eq.
  rewrite <- isoformat_compare by done. rewrite E. apply string_compare_refl.
Qed.

(** *** Parsing *)

Lemma is_digit_digit_char a : 0 <= a <= 9 -> is_digit (digit_char a) = true.
Proof.
  intros H. unfold is_digit, digit_char. cbv zeta.
  rewrite N_ascii_embedding by lia.
  apply andb_true_iff. split; apply N.leb_le; lia.
Qed.

Lemma digit_val_digit_char a : 0 <= a <= 9 -> digit_val (digit_char a) = a.
Proof.
  intros H. unfold digit_val, digit_char.
  rewrite N_ascii_embedding by lia. lia.
Qed.

Lemma digit_char_eqb a c :
  0 <= a <= 9 -> is_digit c = false -> Ascii.eqb (digit_char a) c = false.
Proof.
  intros H Hc. apply Ascii.eqb_neq. intros <-.
  by rewrite is_digit_digit_char in Hc.
Qed.

Lemma string_app_nil_r (s : string) : s ++ "" = s.
Proof.
  induction s as [|c s IH]; [done|].
  change (String c (s ++ "") = String c s). by f_equal.
Qed.

Lemma digits_acc_fixed w n acc rest :
  0 <= n < 10 ^ Z.of_nat w ->
  digits_acc acc (fixed w n ++ rest)
  = digits_acc (acc * 10 ^ Z.of_nat w + n) rest.
Proof.
  revert n acc rest. induction w as [|w IH]; intros n acc rest Hn.
  - simpl in *. f_equal. lia.
  - rewrite Nat2Z.inj_succ, Z.pow_succ_r in * by lia.
    change (fixed (S w) n)
      with (fixed w (n / 10) ++ String (digit_char (n mod 10)) "").
    rewrite string_app_assoc.
    pose proof (Z.div_mod n 10 ltac:(lia)).
    pose proof (Z.mod_pos_bound n 10 ltac:(lia)).
    rewrite IH by lia.
    change (String (digit_char (n mod 10)) "" ++ rest)
      with (String (digit_char (n mod 10)) rest).
    cbn [digits_acc]. rewrite is_digit_digit_char, digit_val_digit_char by lia.
    f_equal. lia.
Qed.

Lemma parse_digits_fixed w n :
  (0 < w)%nat -> 0 <= n < 10 ^ Z.of_nat w -> parse_digits (fixed w n) = Some n.
Proof.
  intros Hw Hn. unfold parse_digits.
  destruct (fixed w n) eqn:E.
  - apply (f_equal String.length) in E. rewrite fixed_length in E.
    simpl in E. lia.
  - rewrite <- E. rewrite <- (string_app_nil_r (fixed w n)) at 1.
    rewrite digits_acc_fixed by done. simpl. done.
Qed.

Lemma fixed_2 n :
  fixed 2 n
  = String (digit_char (n / 10 mod 10)) (String (digit_char (n mod 10)) "").
Proof. reflexivity. Qed.

Lemma fixed_4 n :
  fixed 4 n =
  String (digit_char (n / 10 / 10 / 10 mod 10))
    (String (digit_char (n / 10 / 10 mod 10))
       (String (digit_char (n / 10 mod 10))
          (String (digit_char (n mod 10)) ""))).
Proof. reflexivity. Qed.

Lemma fixed_6 n :
  fixed 6 n =
  String (digit_char (n / 10 / 10 / 10 / 10 / 10 mod 10))
    (String (digit_char (n / 10 / 10 / 10 / 10 mod 10))
       (String (digit_char (n / 10 / 10 / 10 mod 10))
          (String (digit_char (n / 10 / 10 mod 10))
             (String (digit_char (n / 10 mod 10))
                (String (digit_char (n mod 10)) ""))))).
Proof. reflexivity. Qed.

Ltac abstract_digit :=
  match goal with
  | |- context [digit_char ?x] =>
      let c := fresh "c" in
      let B := fresh "B" in
      assert (0 <= x <= 9) as B
        by (pose proof (Z.mod_pos_bound (x * 10 + 0) 10);
            Z.div_mod_to_equations; lia);
      pose proof (is_digit_digit_char x B);
      pose proof (digit_val_digit_char x B);
      pose proof (digit_char_eqb x "+" B eq_refl);
      pose proof (digit_char_eqb x "-" B eq_refl);
      clear B;
      generalize dependent (digit_char x); intros c; intros
  end.

Ltac parse_step :=
  first
    [ match goal with H : is_digit _ = true |- _ => rewrite H end
    | match goal with H : Ascii.eqb _ _ = false |- _ => rewrite H end
    | match goal with
      | |- context [Ascii.eqb ?a ?b] =>
          lazymatch a with Ascii _ _ _ _ _ _ _ _ => idtac end;
          let r := eval vm_compute in (Ascii.eqb a b) in
          change (Ascii.eqb a b) with r
      end
    | match goal with
      | |- context [is_digit ?a] =>
          lazymatch a with Ascii _ _ _ _ _ _ _ _ => idtac end;
          let r := eval vm_compute in (is_digit a) in
          change (is_digit a) with r
      | |- context [digit_val ?a] =>
          lazymatch a with Ascii _ _ _ _ _ _ _ _ => idtac end;
          let r := eval vm_compute in (digit_val a) in
          change (digit_val a) with r
      end
    | progress cbn -[is_digit digit_val Ascii.eqb Z.mul Z.add valid_fields
                     datetime_new] ].

Lemma datetime_new_valid d :
  valid d = true ->
  datetime_new (year d) (month d) (day d) (hour d) (minute d) (second d)
    (microsecond d) (tzinfo d) = Some d.
Proof.
  intros V. unfold datetime_new. unfold valid in V. rewrite V. by destruct d.
Qed.

Lemma datetime_new_spec y mo d h mi s us tz x :
  datetime_new y mo d h mi s us tz = Some x ->
  valid x = true /\ x = mk_datetime y mo d h mi s us tz.
Proof.
  unfold datetime_new. destruct (_ && _) eqn:E; [|done].
  intros [= <-]. by split.
Qed.

(** Whatever [fromisoformat] accepts is a value that exists. *)
Lemma fromisoformat_valid s d : fromisoformat s = Some d -> valid d = true.
Proof.
  unfold fromisoformat.
  destruct (parse_isoformat_date _) as [[[y mo] dd]|]; simpl; [|done].
  destruct (slice_from 11 s).
  - destruct (Nat.leb _ _); [|done].
    intros H. by apply datetime_new_spec in H as [? _].
  - destruct (parse_isoformat_time _) as [[[[[h mi] sec] us] tz]|]; simpl;
      [|done].
    intros H. by apply datetime_new_spec in H as [? _].
Qed.

(** Parsing undoes rendering, for every value whose zone is a whole
    number of minutes from UTC. *)
Lemma fromisoformat_isoformat d off :
  valid d = true -> tzinfo d = Some off ->
  off mod (60 * US_PER_SECOND) = 0 ->
  fromisoformat (isoformat d) = Some d.
Proof.
  intros V T Hmin.
  pose proof V as V'.
  apply valid_bounds in V' as (Y & D & H & M & S & U).
  pose proof (day_two_digits _ _ _ D).
  pose proof D as D'. apply valid_date_bounds in D' as [Dm Dd].
  assert (- US_PER_DAY < off < US_PER_DAY) as Hoff.
  { unfold valid in V. apply andb_true_iff in V as [_ V]. rewrite T in V.
    simpl in V. apply andb_true_iff in V. lia. }
  unfold isoformat, format_time. rewrite T.
  unfold format_offset. cbv zeta.
  set (a := Z.abs off).
  assert (a mod (3600 * US_PER_SECOND) mod (60 * US_PER_SECOND) = 0) as ->.
  { unfold US_PER_SECOND in *. subst a. Z.div_mod_to_equations. lia. }
  change (0 =? 0) with true. cbv iota.
  set (hh := a / (3600 * US_PER_SECOND)).
  set (mm := a mod (3600 * US_PER_SECOND) / (60 * US_PER_SECOND)).
  assert (0 <= hh <= 23 /\ 0 <= mm <= 59
          /\ (hh * 3600 + mm * 60) * US_PER_SECOND = a) as (Hh & Hm & Ha).
  { unfold US_PER_DAY, US_PER_SECOND in *. subst hh mm a.
    Z.div_mod_to_equations. lia. }
  rewrite !pad_fixed by (simpl; lia).
  rewrite fixed_4, !fixed_2.
  assert (forall h m s u tz,
    h = hour d -> m = minute d -> s = second d -> u = microsecond d ->
    tz = off ->
    datetime_new (year d) (month d) (day d) h m s u (Some tz) = Some d) as Fin.
  { intros h m s u tz -> -> -> -> ->. rewrite <- T.
    by apply datetime_new_valid. }
  destruct (Z.ltb_spec off 0) as [Hneg|Hpos];
    destruct (Z.eqb_spec (microsecond d) 0) as [E0|N0];
    rewrite ?fixed_6; repeat abstract_digit;
    cbv [String.append];
    unfold fromisoformat, parse_isoformat_date, parse_isoformat_time, slice,
      slice_from;
    repeat parse_step;
    repeat match goal with H : digit_val _ = _ |- _ => rewrite H; clear H end;
    match goal with
    | |- datetime_new ?y ?mo ?dd _ _ _ _ _ = _ =>
        replace y with (year d) by (Z.div_mod_to_equations; lia);
        replace mo with (month d) by (Z.div_mod_to_equations; lia);
        replace dd with (day d) by (Z.div_mod_to_equations; lia)
    end;
    apply Fin; unfold US_PER_SECOND in *; subst a;
    Z.div_mod_to_equations; lia.
Qed.

End DatetimeFacts.

(** ** The source adapters and the aggregator *)

Section FetcherFacts.
Import PyStr PyDatetime Eff Data.
Local Open Scope list_scope.
Context {S : Type}.
Context (wall_clock : nat -> datetime).
Context (local_offset : datetime -> Z).

Abbreviation W := (world S).

Ltac run :=
  unfold bind, ret, get, modify, lift, raise, try_except, capture, await,
    set_db in *.

(** A fetcher's contest whose start is rendered from a UTC value. *)
Lemma utc_iso_intro d :
  valid d = true -> tzinfo d = utc -> utc_iso (isoformat d).
Proof. intros V T. by exists d. Qed.

Lemma codeforces_loop_iso entries : forall acc (w : W),
  Forall (fun c => utc_iso (start_time c)) acc ->
  match codeforces_loop entries acc w with
  | (Ok l, w') => Forall (fun c => utc_iso (start_time c)) l /\ w' = w
  | (Raise e, w') => e <> CancelledError /\ w' = w
  end.
Proof.
  induction entries as [|entry rest IH]; intros acc w Hacc; simpl.
  - done.
  - destruct (String.eqb _ _); [|by apply IH].
    run. destruct (fromtimestamp_utc _) as [d|] eqn:E; simpl; [|done].
    apply fromtimestamp_utc_spec in E as (V & T & _).
    apply IH. apply Forall_app. split; [done|].
    constructor; [|done]. simpl. by apply utc_iso_intro.
Qed.

Lemma fetch_codeforces_spec response (w : W) :
  match response with
  | Cancelled => fetch_codeforces response w = (Raise CancelledError, w)
  | _ => exists l, fetch_codeforces response w = (Ok l, w)
                   /\ Forall (fun c => utc_iso (start_time c)) l
  end.
Proof.
  unfold fetch_codeforces. destruct response as [|msg|data]; run; simpl.
  - done.
  - by exists [].
  - destruct (negb _); simpl; [by exists []|].
    pose proof (codeforces_loop_iso (cf_result data) [] w ltac:(done)) as L.
    destruct (codeforces_loop _ _ _) as [[l|[msg|]] w']; destruct L as [L ->].
    + by exists l.
    + by exists [].
    + done.
Qed.

Lemma leetcode_loop_iso now_ entries : forall acc (w : W),
  Forall (fun c => utc_iso (start_time c)) acc ->
  match leetcode_loop now_ entries acc w with
  | (Ok l, w') => Forall (fun c => utc_iso (start_time c)) l /\ w' = w
  | (Raise e, w') => e <> CancelledError /\ w' = w
  end.
Proof.
  induction entries as [|entry rest IH]; intros acc w Hacc; simpl.
  - done.
  - run. destruct (fromtimestamp_utc _) as [d|] eqn:E; simpl; [|done].
    apply fromtimestamp_utc_spec in E as (V & T & _).
    destruct (datetime_ltb _ _); [|by apply IH].
    apply IH. apply Forall_app. split; [done|].
    constructor; [|done]. simpl. by apply utc_iso_intro.
Qed.

Lemma fetch_leetcode_spec response (w : W) :
  match response with
  | Cancelled =>
      fetch_leetcode wall_clock response w = (Raise CancelledError, w)
  | _ => exists l w', fetch_leetcode wall_clock response w = (Ok l, w')
                      /\ db w' = db w
                      /\ Forall (fun c => utc_iso (start_time c)) l
  end.
Proof.
  unfold fetch_leetcode. destruct response as [|msg|data]; run; simpl.
  - done.
  - by exists [], w.
  - unfold now. simpl.
    set (w1 := mk_world _ _ _ _).
    pose proof (leetcode_loop_iso (wall_clock (ticks w)) data [] w1
                  ltac:(done)) as L.
    destruct (leetcode_loop _ _ _ _) as [[l|[msg|]] w']; destruct L as [L ->].
    + by exists l, w1.
    + by exists [], w1.
    + done.
Qed.

Lemma codechef_loop_iso entries : forall acc (w : W),
  Forall (fun c => utc_iso (start_time c)) acc ->
  exists l, codechef_loop local_offset entries acc w = (Ok l, w)
            /\ Forall (fun c => utc_iso (start_time c)) l.
Proof.
  induction entries as [|entry rest IH]; intros acc w Hacc; simpl.
  - by exists acc.
  - unfold codechef_entry. run.
    destruct (fromisoformat _) as [d|]; simpl; [|by apply IH].
    destruct (astimezone_utc _ _) as [u|] eqn:E; simpl; [|by apply IH].
    destruct (py_int _) as [m|]; simpl; [|by apply IH].
    apply astimezone_utc_spec in E as (V & T & _).
    apply IH. apply Forall_app. split; [done|].
    constructor; [|done]. simpl. by apply utc_iso_intro.
Qed.

Lemma fetch_codechef_spec response (w : W) :
  match response with
  | Cancelled =>
      fetch_codechef local_offset response w = (Raise CancelledError, w)
  | _ => exists l, fetch_codechef local_offset response w = (Ok l, w)
                   /\ Forall (fun c => utc_iso (start_time c)) l
  end.
Proof.
  unfold fetch_codechef. destruct response as [|msg|data]; run; simpl.
  - done.
  - by exists [].
  - destruct (negb _); simpl; [by exists []|].
    destruct (codechef_loop_iso (future_contests data) [] w ltac:(done))
      as (l & -> & L).
    by exists l.
Qed.

(** [fetch_all_of] never raises: it returns the records of the tasks that
    returned, in task order. *)
Lemma fetch_all_of_three (t1 t2 t3 : M W (list contest)) (w : W) :
  fetch_all_of [t1; t2; t3] w
  = let '(r1, w1) := t1 w in
    let '(r2, w2) := t2 w1 in
    let '(r3, w3) := t3 w2 in
    (Ok (collect [r1; r2; r3]), w3).
Proof.
  unfold fetch_all_of. simpl. run.
  destruct (t1 w) as [r1 w1], (t2 w1) as [r2 w2], (t3 w2) as [r3 w3]. done.
Qed.

Lemma fetch_all_iso cf lc cc (w : W) :
  exists l w', fetch_all wall_clock local_offset cf lc cc w = (Ok l, w')
               /\ db w' = db w
               /\ Forall (fun c => utc_iso (start_time c)) l.
Proof.
  unfold fetch_all. rewrite fetch_all_of_three.
  pose proof (fetch_codeforces_spec cf w) as H1.
  assert (exists r1, fetch_codeforces cf w = (r1, w)
                     /\ Forall (fun c => utc_iso (start_time c)) (collect [r1]))
    as (r1 & -> & F1).
  { destruct cf; [eexists; split; [apply H1|done]|..];
      destruct H1 as (l & -> & F); exists (Ok l); simpl; by rewrite app_nil_r. }
  pose proof (fetch_leetcode_spec lc w) as H2.
  assert (exists r2 w2,
            fetch_leetcode wall_clock lc w = (r2, w2) /\ db w2 = db w
                     /\ Forall (fun c => utc_iso (start_time c)) (collect [r2]))
    as (r2 & w2 & -> & D2 & F2).
  { destruct lc; [eexists _, _; split; [apply H2|done]|..];
      destruct H2 as (l & w2 & -> & D & F); exists (Ok l), w2; simpl;
      by rewrite app_nil_r. }
  pose proof (fetch_codechef_spec cc w2) as H3.
  assert (exists r3, fetch_codechef local_offset cc w2 = (r3, w2)
                     /\ Forall (fun c => utc_iso (start_time c)) (collect [r3]))
    as (r3 & -> & F3).
  { destruct cc; [eexists; split; [apply H3|done]|..];
      destruct H3 as (l & -> & F); exists (Ok l); simpl; by rewrite app_nil_r. }
  eexists _, w2. split; [done|]. split; [done|].
  destruct r1, r2, r3; simpl in *; rewrite ?app_nil_r in *;
    repeat (apply Forall_app; split); done.
Qed.

End FetcherFacts.

(** ** The store and the booking engine *)

Section EngineFacts.
Import PyStr PyDatetime Eff Data.
Local Open Scope list_scope.
Context {S : Type} (api : calendar_api S).
Context (wall_clock : nat -> datetime).
Context (IST : Z -> Z).

Abbreviation W := (world S).

#[local] Arguments fromisoformat : simpl never.
#[local] Arguments isoformat : simpl never.
#[local] Arguments add_micros : simpl never.
#[local] Arguments to_ist : simpl never.

Ltac run :=
  unfold bind, ret, get, modify, lift, raise, try_except, capture, request,
    set_db in *; simpl in *.

Ltac solve_log :=
  intros;
  repeat match goal with
         | H : In _ [] |- _ => destruct H
         | H : In _ (_ :: _) |- _ => destruct H as [H|H]
         end;
  simplify_eq; try done.

Lemma find_app_last {A} (f : A -> bool) (l : list A) (x : A) :
  List.find f l = None -> f x = true -> List.find f (l ++ [x]) = Some x.
Proof.
  induction l as [|a l IH]; simpl; intros Hn Hx.
  - by rewrite Hx.
  - destruct (f a); [done|]. by apply IH.
Qed.

Lemma find_filter_none {A} (f g : A -> bool) (l : list A) :
  List.find f l = None -> List.find f (List.filter g l) = None.
Proof.
  induction l as [|a l IH]; simpl; [done|].
  destruct (f a) eqn:Hf; [done|]. intros Hn.
  destruct (g a); simpl; rewrite ?Hf; by apply IH.
Qed.

Lemma app_eq_self {A} (l new : list A) : l = l ++ new -> new = [].
Proof.
  intros H. rewrite <- (app_nil_r l) in H at 1. by apply app_inv_head in H.
Qed.

(** What [ensure_service] does: nothing when the service is built, else one
    [Authenticate] exchange; it raises exactly when that is refused. *)
Lemma ensure_service_cases (w : W) :
  (has_service api (calendar w) = true /\ ensure_service api w = (Ok tt, w))
  \/ (has_service api (calendar w) = false
      /\ exists a cal,
           authenticate api (calendar w) = (a, cal)
           /\ ensure_service api w
              = (match a with
                 | Answered _ => Ok tt
                 | Refused msg => Raise (Exception msg)
                 end,
                 mk_world (db w) cal (calls w ++ [Authenticate a]) (ticks w))).
Proof.
  unfold ensure_service. run.
  destruct (has_service api (calendar w)); [by left|right].
  split; [done|].
  destruct (authenticate api (calendar w)) as [a cal]. exists a, cal.
  split; [done|]. by destruct a as [[]|].
Qed.

(** The event request built for a row whose times can be computed. *)
Lemma create_contest_event_cases row rem (w : W) :
  exists new,
    let '(r, w') := create_contest_event api row rem w in
    calls w' = calls w ++ new /\ db w' = db w /\ ticks w' = ticks w
    /\ (forall body a, In (Insert body a) new ->
          overrides body
          = map (fun m => ("popup", m))
              (default Config.DEFAULT_REMINDER_MINUTES rem)
          /\ r = match a with
                 | Answered ev => Ok ev
                 | Refused e =>
                     Raise (Exception
                              ("Failed to create calendar event: " ++ e)%string)
                 end)
    /\ (forall ev, r = Ok ev ->
          is_Some (fromisoformat (row_start_time row))
          /\ exists body, In (Insert body (Answered ev)) new)
    /\ r <> Raise CancelledError.
Proof.
  unfold create_contest_event.
  destruct (ensure_service_cases w) as [[Hs E]|[Hs (a & cal & Ha & E)]].
  - run. rewrite E. simpl.
    destruct (fromisoformat _) as [start|]; simpl;
      [|exists []; rewrite app_nil_r; split_and!; solve_log].
    destruct (add_micros _ _) as [stop|]; simpl;
      [|exists []; rewrite app_nil_r; split_and!; solve_log].
    destruct (events_insert api _ (calendar w)) as [[ev|e] cal]; simpl;
      eexists [_]; (split; [done|]); split_and!; solve_log.
    split; [done|]. eexists. by left.
  - run. rewrite E. simpl. destruct a as [[]|msg]; simpl.
    + destruct (fromisoformat _) as [start|]; simpl;
        [|exists [Authenticate (Answered ())]; split_and!; solve_log].
      destruct (add_micros _ _) as [stop|]; simpl;
        [|exists [Authenticate (Answered ())]; split_and!; solve_log].
      destruct (events_insert api _ cal) as [[ev|e] cal'] eqn:Hi; simpl;
        eexists [_; _]; rewrite <- app_assoc; (split; [done|]); split_and!;
        solve_log.
      split; [done|]. eexists. right. by left.
    + exists [Authenticate (Refused msg)]. split_and!; solve_log.
Qed.


Lemma save_calendar_event_spec eid cid (w : W) :
  save_calendar_event wall_clock eid cid w
  = (Ok tt,
     mk_world
       (mk_database (contests (db w))
          (replace_calendar_event
             (mk_calendar_event_row eid cid (isoformat (wall_clock (ticks w))))
             (calendar_events (db w)))
          (preferences (db w)))
       (calendar w) (calls w) (Datatypes.S (ticks w))).
Proof. done. Qed.

Lemma bind_ok {A B} (m : M W A) (k : A -> M W B) (w w' : W) a :
  m w = (Ok a, w') -> bind m k w = k a w'.
Proof. unfold bind. by intros ->. Qed.

Lemma try_except_run {A} (m : M W A) (h : string -> M W A) (w : W) :
  try_except m h w
  = match m w with
    | (Raise (Exception msg), w') => h msg w'
    | r => r
    end.
Proof. done. Qed.

Lemma is_contest_in_calendar_spec cid (w : W) :
  is_contest_in_calendar cid w
  = (Ok match select_event (db w) cid with
        | Some r => (true, Some (event_id r))
        | None => (false, None)
        end, w).
Proof.
  unfold is_contest_in_calendar, bind, get, ret.
  by destruct (select_event (db w) cid).
Qed.

Lemma get_contest_by_id_spec cid (w : W) :
  get_contest_by_id cid w = (Ok (select_contest (db w) cid), w).
Proof. done. Qed.

(** The three ways a call of the booking tool can go. *)
Lemma add_no_conflict_absent (w : W) cid rem force :
  (force = true \/ select_event (db w) cid = None) ->
  select_contest (db w) cid = None ->
  add_contest_to_calendar_tool api wall_clock IST cid rem force w
  = (Ok (NotFound cid), w).
Proof.
  intros Hf Hc. unfold add_contest_to_calendar_tool.
  rewrite (bind_ok _ _ _ _ _ (is_contest_in_calendar_spec cid w)).
  assert ((let '(already_exists, _) :=
             match select_event (db w) cid with
             | Some r => (true, Some (event_id r))
             | None => (false, None)
             end in already_exists && negb force) = false) as Hsel.
  { destruct Hf as [-> | ->]; [|done].
    destruct (select_event (db w) cid); apply andb_false_r. }
  destruct (match select_event (db w) cid with
            | Some r => _ | None => _ end) as [already_exists event_id].
  rewrite Hsel.
  rewrite (bind_ok _ _ _ _ _ (get_contest_by_id_spec cid w)).
  by rewrite Hc.
Qed.

Lemma add_conflict (w : W) cid rem r :
  select_event (db w) cid = Some r ->
  add_contest_to_calendar_tool api wall_clock IST cid rem false w
  = (Ok (Conflict (event_id r)), w).
Proof.
  intros Hr. unfold add_contest_to_calendar_tool.
  rewrite (bind_ok _ _ _ _ _ (is_contest_in_calendar_spec cid w)).
  by rewrite Hr.
Qed.

Lemma add_attempt (w : W) cid rem force row :
  (force = true \/ select_event (db w) cid = None) ->
  select_contest (db w) cid = Some row ->
  add_contest_to_calendar_tool api wall_clock IST cid rem force w =
  match create_contest_event api row (Some (default [30; 10] rem)) w with
  | (Ok ev, w') =>
      (Ok match fromisoformat (row_start_time row) ≫= to_ist IST with
          | Some t => Success row t ev (default [30; 10] rem)
          | None =>
              Failure
                match fromisoformat (row_start_time row) with
                | Some _ => "date value out of range"
                | None => "Invalid isoformat string: " ++ row_start_time row
                end%string
          end,
       (save_calendar_event wall_clock (ev_id ev) cid w').2)
  | (Raise (Exception e), w') => (Ok (Failure e), w')
  | (Raise CancelledError, w') => (Raise CancelledError, w')
  end.
Proof.
  intros Hf Hc. unfold add_contest_to_calendar_tool.
  rewrite (bind_ok _ _ _ _ _ (is_contest_in_calendar_spec cid w)).
  assert ((let '(already_exists, _) :=
             match select_event (db w) cid with
             | Some r => (true, Some (event_id r))
             | None => (false, None)
             end in already_exists && negb force) = false) as Hsel.
  { destruct Hf as [-> | ->]; [|done].
    destruct (select_event (db w) cid); apply andb_false_r. }
  destruct (match select_event (db w) cid with
            | Some r => _ | None => _ end) as [already_exists event_id].
  rewrite Hsel.
  rewrite (bind_ok _ _ _ _ _ (get_contest_by_id_spec cid w)).
  rewrite Hc, try_except_run.
  replace (match rem with Some r => r | None => [30; 10] end)
    with (default [30; 10] rem) by (by destruct rem).
  unfold bind at 1.
  destruct (create_contest_event _ _ _ _) as [[ev|[e|]] w']; [|done..].
  unfold bind at 1. rewrite save_calendar_event_spec.
  unfold bind, lift, ret, raise.
  destruct (fromisoformat (row_start_time row)) as [start|]; [|done].
  change (Some start ≫= to_ist IST) with (to_ist IST start).
  by destruct (to_ist IST start).
Qed.


Lemma add_cases (w : W) cid rem force :
  (exists r, select_event (db w) cid = Some r /\ force = false
             /\ add_contest_to_calendar_tool api wall_clock IST cid rem force w
                = (Ok (Conflict (event_id r)), w))
  \/ ((force = true \/ select_event (db w) cid = None)
      /\ select_contest (db w) cid = None
      /\ add_contest_to_calendar_tool api wall_clock IST cid rem force w
         = (Ok (NotFound cid), w))
  \/ ((force = true \/ select_event (db w) cid = None)
      /\ exists row, select_contest (db w) cid = Some row).
Proof.
  destruct force.
  - right. destruct (select_contest (db w) cid) as [row|] eqn:Hc.
    + right. eauto.
    + left. split_and!; auto. apply add_no_conflict_absent; auto.
  - destruct (select_event (db w) cid) as [r|] eqn:Hr.
    + left. exists r. split_and!; auto. by apply add_conflict.
    + right. destruct (select_contest (db w) cid) as [row|] eqn:Hc.
      * right. eauto.
      * left. split_and!; auto. apply add_no_conflict_absent; auto.
Qed.

(** C3, as amended.  A contest that is absent from the store is reported
    [NotFound] when [force] is set or no booking row names it; the booking
    look-up comes first, so without [force] a booking row for that
    contest_id makes the answer [Conflict] with that row's event_id.  The
    world is left as it was. *)
Theorem absent_contest_outcome (w : W) cid rem force :
  select_contest (db w) cid = None ->
  add_contest_to_calendar_tool api wall_clock IST cid rem force w
  = (Ok (if force then NotFound cid
         else match select_event (db w) cid with
              | Some r => Conflict (event_id r)
              | None => NotFound cid
              end), w).
Proof.
  intros Hc. destruct force.
  - apply add_no_conflict_absent; auto.
  - destruct (select_event (db w) cid) as [r|] eqn:Hr.
    + by apply add_conflict.
    + apply add_no_conflict_absent; auto.
Qed.

(** C8.  When the calendar refuses the insert request of a booking
    attempt, the tool answers [Failure] with the upstream text (behind the
    prefix that [create_contest_event] puts before it), and the database,
    hence the booking table, is what it was. *)
Theorem refused_insert_leaves_store (w w1 : W) cid rem force o new body e :
  add_contest_to_calendar_tool api wall_clock IST cid rem force w = (o, w1) ->
  calls w1 = calls w ++ new ->
  In (Insert body (Refused e)) new ->
  o = Ok (Failure ("Failed to create calendar event: " ++ e)%string)
  /\ db w1 = db w.
Proof.
  intros Hrun Hcalls Hin.
  destruct (add_cases w cid rem force)
    as [(r & _ & _ & E)|[(_ & _ & E)|(Hf & row & Hc)]].
  1,2: rewrite E in Hrun; injection Hrun as <- <-;
       apply app_eq_self in Hcalls; by subst.
  rewrite (add_attempt _ _ _ _ _ Hf Hc) in Hrun.
  destruct (create_contest_event_cases row (Some (default [30; 10] rem)) w)
    as (new' & Hnew).
  destruct (create_contest_event _ _ _ _) as [r w'].
  destruct Hnew as (Hcalls' & Hdb & _ & Hlog & _ & _).
  assert (new' = new) as ->.
  { destruct r as [ev|[msg|]]; injection Hrun as <- <-; simpl in Hcalls;
      rewrite Hcalls' in Hcalls; by apply app_inv_head in Hcalls. }
  destruct (Hlog _ _ Hin) as [_ ->]. by injection Hrun as <- <-.
Qed.


(** X1.  Booked once, refused after.  Once the calendar has answered an
    insert request of a call made without [force], the booking row is
    there and every later call without [force] answers [Conflict] with the
    event_id the calendar issued, and touches nothing.  The first call
    itself answers [Success] when the start can be shown in IST. *)
Lemma booked_twice (w w1 : W) cid rem1 rem2 o1 new body ev :
  add_contest_to_calendar_tool api wall_clock IST cid rem1 false w = (o1, w1) ->
  calls w1 = calls w ++ new ->
  In (Insert body (Answered ev)) new ->
  (exists row start,
     select_contest (db w) cid = Some row
     /\ fromisoformat (row_start_time row) = Some start
     /\ o1 = Ok match to_ist IST start with
                | Some t => Success row t ev (default [30; 10] rem1)
                | None => Failure "date value out of range"
                end)
  /\ select_event (db w1) cid
     = Some (mk_calendar_event_row (ev_id ev) cid
               (isoformat (wall_clock (ticks w))))
  /\ add_contest_to_calendar_tool api wall_clock IST cid rem2 false w1
     = (Ok (Conflict (ev_id ev)), w1).
Proof.
  intros Hrun Hcalls Hin.
  destruct (add_cases w cid rem1 false)
    as [(r & _ & _ & E)|[(_ & _ & E)|(Hf & row & Hc)]].
  1,2: rewrite E in Hrun; injection Hrun as <- <-;
       apply app_eq_self in Hcalls; by subst.
  destruct Hf as [[=]|Hsel].
  rewrite (add_attempt _ _ _ _ _ (or_intror Hsel) Hc) in Hrun.
  destruct (create_contest_event_cases row (Some (default [30; 10] rem1)) w)
    as (new' & Hnew).
  destruct (create_contest_event _ _ _ _) as [r w'].
  destruct Hnew as (Hcalls' & Hdb & Hticks & Hlog & Hok & _).
  assert (new' = new) as ->.
  { destruct r as [ev'|[msg|]]; injection Hrun as <- <-; simpl in Hcalls;
      rewrite Hcalls' in Hcalls; by apply app_inv_head in Hcalls. }
  destruct (Hlog _ _ Hin) as [_ ->].
  destruct (Hok ev eq_refl) as [[start Hstart] _].
  injection Hrun as <- <-. simpl.
  assert (select_event
            (mk_database (contests (db w'))
               (replace_calendar_event
                  (mk_calendar_event_row (ev_id ev) cid
                     (isoformat (wall_clock (ticks w'))))
                  (calendar_events (db w')))
               (preferences (db w'))) cid
          = Some (mk_calendar_event_row (ev_id ev) cid
                    (isoformat (wall_clock (ticks w))))) as Hbooked.
  { rewrite Hdb, Hticks. unfold select_event, replace_calendar_event in *.
    simpl.
    apply find_app_last; [by apply find_filter_none|]. simpl.
    apply String.eqb_refl. }
  split_and!.
  - exists row, start. rewrite Hstart. by split_and!.
  - done.
  - apply (add_conflict _ cid rem2
             (mk_calendar_event_row (ev_id ev) cid
                (isoformat (wall_clock (ticks w))))).
    exact Hbooked.
Qed.

(** The reminders of a booking made without [reminder_minutes] are 30 and
    10 minutes, whatever the preferences hold. *)
Lemma reminders_without_argument (w w1 : W) cid force o new body a :
  add_contest_to_calendar_tool api wall_clock IST cid None force w = (o, w1) ->
  calls w1 = calls w ++ new ->
  In (Insert body a) new ->
  overrides body = [("popup", 30); ("popup", 10)].
Proof.
  intros Hrun Hcalls Hin.
  destruct (add_cases w cid None force)
    as [(r & _ & _ & E)|[(_ & _ & E)|(Hf & row & Hc)]].
  1,2: rewrite E in Hrun; injection Hrun as <- <-;
       apply app_eq_self in Hcalls; by subst.
  rewrite (add_attempt _ _ _ _ _ Hf Hc) in Hrun.
  destruct (create_contest_event_cases row (Some (default [30; 10] None)) w)
    as (new' & Hnew).
  destruct (create_contest_event _ _ _ _) as [r w'].
  destruct Hnew as (Hcalls' & _ & _ & Hlog & _ & _).
  assert (new' = new) as ->.
  { destruct r as [ev'|[msg|]]; injection Hrun as <- <-; simpl in Hcalls;
      rewrite Hcalls' in Hcalls; by apply app_inv_head in Hcalls. }
  by destruct (Hlog _ _ Hin) as [-> _].
Qed.



(** [INSERT OR REPLACE] leaves one row with the key of the row written. *)
Lemma replace_contest_key r t :
  List.filter (fun x => String.eqb (row_id x) (row_id r)) (replace_contest r t)
  = [r].
Proof.
  unfold replace_contest. rewrite List.filter_app. simpl.
  rewrite String.eqb_refl.
  replace (List.filter _ (List.filter _ t)) with (@nil contest_row); [done|].
  induction t as [|x t IH]; simpl; [done|].
  destruct (String.eqb (row_id x) (row_id r)) eqn:E; simpl; [done|].
  by rewrite E.
Qed.

Lemma save_one_contest c (w : W) :
  save_contests wall_clock [c] w
  = (Ok tt,
     mk_world
       (mk_database
          (replace_contest
             (mk_contest_row (id c) (platform c) (title c) (start_time c)
                (duration_seconds c) (default "" (url c))
                (isoformat (wall_clock (ticks w))))
             (contests (db w)))
          (calendar_events (db w)) (preferences (db w)))
       (calendar w) (calls w) (Datatypes.S (ticks w))).
Proof. done. Qed.


(** *** Booking rows and the contests they name *)

Lemma find_some_iff {A} (f : A -> bool) (l : list A) :
  List.find f l <> None <-> exists x, In x l /\ f x = true.
Proof.
  split.
  - destruct (List.find f l) as [x|] eqn:E; [|done]. intros _.
    apply find_some in E. eauto.
  - intros (x & Hx & Hf) E. by rewrite (find_none _ _ E x Hx) in Hf.
Qed.

Lemma select_contest_replace r t calendar_events preferences k :
  select_contest (mk_database t calendar_events preferences) k <> None ->
  select_contest
    (mk_database (replace_contest r t) calendar_events preferences) k <> None.
Proof.
  unfold select_contest, replace_contest. simpl. rewrite !find_some_iff.
  intros (x & Hx & Hk). apply String.eqb_eq in Hk.
  destruct (String.eqb (row_id x) (row_id r)) eqn:E.
  - exists r. split; [apply in_or_app; right; by left|].
    apply String.eqb_eq in E. apply String.eqb_eq. congruence.
  - exists x. split; [|by apply String.eqb_eq].
    apply in_or_app. left. apply filter_In. by rewrite E.
Qed.

Lemma save_contests_bookings_stored cs : forall (w : W),
  Spec.bookings_stored (db w) ->
  Spec.bookings_stored (db (save_contests wall_clock cs w).2).
Proof.
  induction cs as [|c cs IH]; intros w Hw; [done|].
  change (save_contests wall_clock (c :: cs) w)
    with (save_contests wall_clock cs (save_contests wall_clock [c] w).2).
  apply IH. rewrite save_one_contest. simpl.
  intros r Hr. simpl in Hr. apply select_contest_replace.
  destruct (db w) as [t ce p]. by apply Hw.
Qed.

Lemma add_bookings_stored (w : W) cid rem force :
  Spec.bookings_stored (db w) ->
  Spec.bookings_stored
    (db (add_contest_to_calendar_tool api wall_clock IST cid rem force w).2).
Proof.
  intros Hw.
  destruct (add_cases w cid rem force)
    as [(r & _ & _ & E)|[(_ & _ & E)|(Hf & row & Hc)]].
  1,2: by rewrite E.
  rewrite (add_attempt _ _ _ _ _ Hf Hc).
  destruct (create_contest_event_cases row (Some (default [30; 10] rem)) w)
    as (new & Hnew).
  destruct (create_contest_event _ _ _ _) as [[ev|[e|]] w'];
    destruct Hnew as (_ & Hdb & _); simpl; rewrite ?Hdb; try done.
  intros r Hr. simpl in Hr. unfold replace_calendar_event in Hr.
  apply in_app_or in Hr as [Hr|[<-|[]]].
  - apply filter_In in Hr as [Hr _]. unfold select_contest. simpl. by apply Hw.
  - unfold select_contest in *. simpl. by rewrite Hc.
Qed.

(** X2.  An absent contest is reported as such.  On every database whose
    booking rows name stored contests, and these are the databases the
    tools produce from an empty one, an absent contest is reported
    [NotFound] whatever [force] is. *)
Lemma absent_contest_not_found (w : W) cid rem force :
  Spec.bookings_stored (db w) ->
  select_contest (db w) cid = None ->
  add_contest_to_calendar_tool api wall_clock IST cid rem force w
  = (Ok (NotFound cid), w).
Proof.
  intros Hw Hc. apply add_no_conflict_absent; [|done]. right.
  destruct (select_event (db w) cid) as [r|] eqn:E; [|done].
  apply find_some in E as [Hr Hk]. apply String.eqb_eq in Hk.
  specialize (Hw r Hr). by rewrite Hk in Hw.
Qed.

End EngineFacts.

(** ** The pipeline: what is fetched, stored and queried *)

Section PipelineFacts.
Import PyStr PyDatetime Eff Data.
Local Open Scope list_scope.
Context {S : Type}.
Context (wall_clock : nat -> datetime).
Context (local_offset : datetime -> Z).

Abbreviation W := (world S).

(** C5.  Whatever the three awaited tasks do, [fetch_all] returns, and what
    it returns is the records of those that returned a list, in task
    order; one that raised adds nothing.  [fetch_all] is this fan-in over
    the three adapters. *)
Theorem fetch_all_partial_failure :
  (forall (t1 t2 t3 : M W (list contest)) (w w1 w2 w3 : W) r1 r2 r3,
     t1 w = (r1, w1) -> t2 w1 = (r2, w2) -> t3 w2 = (r3, w3) ->
     fetch_all_of [t1; t2; t3] w
     = (Ok (match r1 with Ok l => l | Raise _ => [] end
            ++ match r2 with Ok l => l | Raise _ => [] end
            ++ match r3 with Ok l => l | Raise _ => [] end), w3))
  /\ (forall cf lc cc,
        fetch_all (S := S) wall_clock local_offset cf lc cc
        = fetch_all_of
            [fetch_codeforces cf; fetch_leetcode wall_clock lc;
             fetch_codechef local_offset cc]).
Proof.
  split; [|done].
  intros t1 t2 t3 w w1 w2 w3 r1 r2 r3 H1 H2 H3.
  rewrite fetch_all_of_three, H1, H2, H3.
  destruct r1, r2, r3; simpl; by rewrite ?app_nil_r.
Qed.


Lemma save_contests_rows cs : forall (w : W),
  Forall (fun c => utc_iso (start_time c)) cs ->
  Forall (fun r => utc_iso (row_start_time r)) (contests (db w)) ->
  Forall (fun r => utc_iso (row_start_time r))
    (contests (db (save_contests wall_clock cs w).2)).
Proof.
  induction cs as [|c cs IH]; intros w Hcs Hrows; [done|].
  inversion Hcs as [|? ? Hc Hcs']; subst.
  change (save_contests wall_clock (c :: cs) w)
    with (save_contests wall_clock cs (save_contests wall_clock [c] w).2).
  apply IH; [done|]. simpl. unfold replace_contest.
  apply Forall_app. split; [|by constructor].
  apply List.Forall_forall. intros r Hr. apply filter_In in Hr as [Hr _].
  by apply (proj1 (List.Forall_forall _ _) Hrows).
Qed.

Lemma in_window_instants platform a b r d :
  valid a = true -> tzinfo a = utc -> valid b = true -> tzinfo b = utc ->
  valid d = true -> tzinfo d = utc -> row_start_time r = isoformat d ->
  in_window platform (isoformat a) (isoformat b) r
  = match platform with
    | Some p => String.eqb (row_platform r) p
    | None => true
    end
    && (instant a <? instant d) && (instant d <? instant b).
Proof.
  intros Va Ta Vb Tb Vd Td E. unfold in_window.
  by rewrite E, !isoformat_ltb.
Qed.

(** C10.  Every start time the three adapters produce is [isoformat] of a
    UTC-aware value, and [save_contests] stores it as it is, so the table
    keeps holding only such strings.  They all have one layout, zero-padded
    fields of fixed width, a six-digit fraction when the microseconds are
    not zero, and the suffix +00:00; on it the byte-wise order of the
    strings is the order of the instants, and so the comparisons of the
    query's [WHERE] clause against ISO-rendered UTC bounds are comparisons
    of instants. *)
Theorem start_times_order_like_instants :
  (forall cf lc cc (w : W),
     exists l w',
       fetch_all wall_clock local_offset cf lc cc w = (Ok l, w')
       /\ Forall (fun c => utc_iso (start_time c)) l
       /\ (Forall (fun r => utc_iso (row_start_time r)) (contests (db w)) ->
           Forall (fun r => utc_iso (row_start_time r))
             (contests (db (save_contests wall_clock l w').2))))
  /\ (forall d1 d2,
        valid d1 = true -> tzinfo d1 = utc ->
        valid d2 = true -> tzinfo d2 = utc ->
        isoformat d1
        = (fixed 4 (year d1) ++ "-" ++ fixed 2 (month d1) ++ "-"
           ++ fixed 2 (day d1) ++ "T" ++ fixed 2 (hour d1) ++ ":"
           ++ fixed 2 (minute d1) ++ ":" ++ fixed 2 (second d1)
           ++ utc_tail (microsecond d1))%string
        /\ (isoformat d1 ?= isoformat d2)%string = (instant d1 ?= instant d2)
        /\ String.ltb (isoformat d1) (isoformat d2)
           = (instant d1 <? instant d2))
  /\ (forall (rows : list contest_row) platform a b r,
        Forall (fun r => utc_iso (row_start_time r)) rows -> In r rows ->
        valid a = true -> tzinfo a = utc ->
        valid b = true -> tzinfo b = utc ->
        exists d,
          valid d = true /\ tzinfo d = utc /\ row_start_time r = isoformat d
          /\ in_window platform (isoformat a) (isoformat b) r
             = match platform with
               | Some p => String.eqb (row_platform r) p
               | None => true
               end
               && (instant a <? instant d) && (instant d <? instant b)).
Proof.
  split_and!.
  - intros cf lc cc w.
    destruct (fetch_all_iso wall_clock local_offset cf lc cc w)
      as (l & w' & E & Hdb & Hl).
    exists l, w'. split_and!; try done.
    intros Hrows. apply save_contests_rows; [done|]. by rewrite Hdb.
  - intros d1 d2 V1 T1 V2 T2. split_and!.
    + by apply isoformat_utc.
    + by apply isoformat_compare.
    + by apply isoformat_ltb.
  - intros rows platform a b r Hrows Hr Va Ta Vb Tb.
    destruct (proj1 (List.Forall_forall _ _) Hrows r Hr) as (d & Vd & Td & E).
    exists d. split_and!; try done. by apply in_window_instants.
Qed.


Lemma insert_by_start_time_perm r l :
  Permutation (insert_by_start_time r l) (r :: l).
Proof.
  induction l as [|x l IH]; simpl; [done|].
  destruct (String.ltb _ _); [done|].
  rewrite IH. apply perm_swap.
Qed.

Lemma order_by_start_time_perm l : Permutation (order_by_start_time l) l.
Proof.
  induction l as [|x l IH]; simpl; [done|].
  rewrite insert_by_start_time_perm. by constructor.
Qed.

Lemma string_ltb_asym (a b : string) :
  String.ltb a b = true -> String.ltb b a = false.
Proof.
  unfold String.ltb. rewrite (String.compare_antisym a b).
  by destruct (b ?= a)%string.
Qed.

Lemma insert_by_start_time_sorted r l :
  Sorted (fun x y => String.ltb (row_start_time y) (row_start_time x) = false)
    l ->
  Sorted (fun x y => String.ltb (row_start_time y) (row_start_time x) = false)
    (insert_by_start_time r l).
Proof.
  induction l as [|x l IH]; simpl; intros Hs.
  - by repeat constructor.
  - inversion Hs as [|? ? Hl Hx]; subst.
    destruct (String.ltb (row_start_time r) (row_start_time x)) eqn:E.
    + constructor; [done|]. constructor. by apply string_ltb_asym.
    + constructor; [by apply IH|].
      destruct l as [|y l]; simpl; [by constructor|].
      destruct (String.ltb (row_start_time r) (row_start_time y));
        constructor; [done|]. by inversion Hx.
Qed.

Lemma order_by_start_time_sorted l :
  Sorted (fun x y => String.ltb (row_start_time y) (row_start_time x) = false)
    (order_by_start_time l).
Proof.
  induction l as [|x l IH]; simpl; [constructor|].
  by apply insert_by_start_time_sorted.
Qed.

(** What the query computes when the table holds ISO UTC start times: the
    rows that start after the second reading of the clock and before the
    first reading plus the horizon, in ascending order of start. *)
Lemma get_upcoming_contests_window (w : W) platform days_ahead cutoff :
  valid (wall_clock (ticks w)) = true ->
  tzinfo (wall_clock (ticks w)) = utc ->
  valid (wall_clock (Datatypes.S (ticks w))) = true ->
  tzinfo (wall_clock (Datatypes.S (ticks w))) = utc ->
  add_micros (wall_clock (ticks w)) (days_ahead * US_PER_DAY) = Some cutoff ->
  Forall (fun r => utc_iso (row_start_time r)) (contests (db w)) ->
  exists rows,
    get_upcoming_contests wall_clock platform days_ahead w
    = (Ok rows,
       mk_world (db w) (calendar w) (calls w)
         (Datatypes.S (Datatypes.S (ticks w))))
    /\ Sorted
         (fun x y => String.ltb (row_start_time y) (row_start_time x) = false)
         rows
    /\ forall r,
         In r rows <->
         In r (contests (db w))
         /\ match truthy platform with
            | Some p => row_platform r = p
            | None => True
            end
         /\ exists d,
              valid d = true /\ tzinfo d = utc
              /\ row_start_time r = isoformat d
              /\ instant (wall_clock (Datatypes.S (ticks w))) < instant d
                 < instant (wall_clock (ticks w)) + days_ahead * US_PER_DAY.
Proof.
  intros V1 T1 V2 T2 Hcut Hrows.
  destruct (add_micros_utc _ _ _ T1 Hcut) as (Vc & Tc & Ic).
  eexists. split; [|split].
  - unfold get_upcoming_contests, bind, now, lift, get, ret. simpl.
    rewrite Hcut. simpl. reflexivity.
  - apply order_by_start_time_sorted.
  - intros r.
    rewrite (Permutation_in' (eq_refl r) (order_by_start_time_perm _)).
    rewrite filter_In. split.
    + intros [Hr Hw].
      destruct (proj1 (List.Forall_forall _ _) Hrows r Hr) as (d & Vd & Td & E).
      rewrite (in_window_instants _ _ _ _ d) in Hw by done.
      rewrite !andb_true_iff in Hw. destruct Hw as [[Hp H1] H2].
      split_and!; try done.
      * destruct (truthy platform); [|done]. by apply String.eqb_eq.
      * exists d. split_and!; try done; lia.
    + intros (Hr & Hp & d & Vd & Td & E & H1 & H2). split; [done|].
      rewrite (in_window_instants _ _ _ _ d) by done.
      rewrite !andb_true_iff. split_and!; try lia.
      destruct (truthy platform); [|done]. by apply String.eqb_eq.
Qed.

End PipelineFacts.

(** ** The store: keys, look-ups and preferences *)

Section StoreFacts.
Import PyStr PyDatetime Eff Data.
Local Open Scope list_scope.
Context {S : Type}.
Context (wall_clock : nat -> datetime).

Abbreviation W := (world S).

#[local] Arguments fromisoformat : simpl never.
#[local] Arguments isoformat : simpl never.
#[local] Arguments add_micros : simpl never.

Lemma save_contests_cons c cs (w : W) :
  save_contests wall_clock (c :: cs) w
  = save_contests wall_clock cs (save_contests wall_clock [c] w).2.
Proof. done. Qed.

Lemma save_contests_ok cs : forall w : W,
  (save_contests wall_clock cs w).1 = Ok tt.
Proof.
  induction cs as [|c cs IH]; intros w; [done|].
  rewrite (save_contests_cons c cs). apply IH.
Qed.

Lemma save_contests_run l (w : W) :
  save_contests wall_clock l w = (Ok tt, (save_contests wall_clock l w).2).
Proof.
  pose proof (save_contests_ok l w) as H.
  by destruct (save_contests wall_clock l w) as [r w2]; simpl in *; subst.
Qed.

Lemma save_contests_app a b (w : W) :
  (save_contests wall_clock (a ++ b) w).2
  = (save_contests wall_clock b (save_contests wall_clock a w).2).2.
Proof.
  revert w. induction a as [|c a IH]; intros w; [done|].
  simpl app.
  rewrite (save_contests_cons c (a ++ b)), (save_contests_cons c a).
  apply IH.
Qed.

(** [save_contests] writes the table [contests] and reads the clock once
    for every record; the rest of the world stays as it is. *)
Lemma save_contests_frame cs : forall w : W,
  let w' := (save_contests wall_clock cs w).2 in
  calendar_events (db w') = calendar_events (db w)
  /\ preferences (db w') = preferences (db w)
  /\ calendar w' = calendar w /\ calls w' = calls w
  /\ ticks w' = (ticks w + length cs)%nat.
Proof.
  induction cs as [|c cs IH]; intros w; simpl.
  - split_and!; try done; lia.
  - rewrite (save_contests_cons c cs).
    destruct (IH (save_contests wall_clock [c] w).2)
      as (-> & -> & -> & -> & ->).
    rewrite save_one_contest. simpl. split_and!; try done; lia.
Qed.

Lemma find_app {A} (f : A -> bool) (l1 l2 : list A) :
  List.find f (l1 ++ l2)
  = match List.find f l1 with
    | Some x => Some x
    | None => List.find f l2
    end.
Proof.
  induction l1 as [|x l1 IH]; simpl; [done|]. by destruct (f x).
Qed.

Lemma find_filter {A} (f g : A -> bool) (l : list A) :
  List.find f (List.filter g l) = List.find (fun x => f x && g x) l.
Proof.
  induction l as [|x l IH]; simpl; [done|].
  destruct (g x); simpl; destruct (f x); simpl; auto.
Qed.

Lemma find_ext {A} (f g : A -> bool) (l : list A) :
  (forall x, f x = g x) -> List.find f l = List.find g l.
Proof.
  intros E. induction l as [|x l IH]; simpl; [done|]. by rewrite E, IH.
Qed.

Lemma find_never {A} (f : A -> bool) (l : list A) :
  (forall x, f x = false) -> List.find f l = None.
Proof.
  intros E. induction l as [|x l IH]; simpl; [done|]. by rewrite E.
Qed.

(** Looking a key up after [INSERT OR REPLACE]. *)
Lemma select_contest_replace_eq r t ce p k :
  select_contest (mk_database (replace_contest r t) ce p) k
  = if String.eqb (row_id r) k then Some r
    else select_contest (mk_database t ce p) k.
Proof.
  unfold select_contest, replace_contest. simpl contests.
  rewrite find_app, find_filter. simpl.
  destruct (String.eqb_spec (row_id r) k) as [<-|N].
  - rewrite find_never; [done|].
    intros x. by destruct (String.eqb (row_id x) (row_id r)).
  - rewrite (find_ext _ (fun x => String.eqb (row_id x) k)).
    + by destruct (List.find _ t).
    + intros x. destruct (String.eqb_spec (row_id x) k) as [<-|]; [|done].
      simpl. apply negb_true_iff. apply String.eqb_neq. congruence.
Qed.

Lemma replace_contest_nodup r t :
  NoDup (map row_id t) -> NoDup (map row_id (replace_contest r t)).
Proof.
  intros H. unfold replace_contest. rewrite map_app. simpl.
  apply NoDup_app. split_and!.
  - induction t as [|x t IH]; simpl; [constructor|].
    apply NoDup_cons in H as [Hx Ht].
    destruct (negb _); simpl; [|by apply IH].
    apply NoDup_cons. split; [|by apply IH].
    intros Hin. apply Hx.
    apply list_elem_of_In, in_map_iff in Hin as (y & Ey & Hy).
    apply filter_In in Hy as [Hy _]. apply list_elem_of_In, in_map_iff.
    eauto.
  - intros k Hk Hr. apply list_elem_of_singleton in Hr. subst k.
    apply list_elem_of_In, in_map_iff in Hk as (y & Ey & Hy).
    apply filter_In in Hy as [_ Hy]. apply negb_true_iff in Hy.
    rewrite Ey, String.eqb_refl in Hy. done.
  - apply NoDup_singleton.
Qed.

Lemma replace_calendar_event_nodup r t :
  NoDup (map event_id t) ->
  NoDup (map event_id (replace_calendar_event r t)).
Proof.
  intros H. unfold replace_calendar_event. rewrite map_app. simpl.
  apply NoDup_app. split_and!.
  - induction t as [|x t IH]; simpl; [constructor|].
    apply NoDup_cons in H as [Hx Ht].
    destruct (negb _); simpl; [|by apply IH].
    apply NoDup_cons. split; [|by apply IH].
    intros Hin. apply Hx.
    apply list_elem_of_In, in_map_iff in Hin as (y & Ey & Hy).
    apply filter_In in Hy as [Hy _]. apply list_elem_of_In, in_map_iff.
    eauto.
  - intros k Hk Hr. apply list_elem_of_singleton in Hr. subst k.
    apply list_elem_of_In, in_map_iff in Hk as (y & Ey & Hy).
    apply filter_In in Hy as [_ Hy]. apply negb_true_iff in Hy.
    rewrite Ey, String.eqb_refl in Hy. done.
  - apply NoDup_singleton.
Qed.

(** X3.  The primary keys stay unique.  If no two rows of [contests] have
    the same id, that is still so after [save_contests], whatever records
    it is given, repeated ids included; and if no two rows of
    [calendar_events] have the same event_id, that is still so after
    [save_calendar_event]. *)
Theorem store_keys_stay_unique :
  (forall cs (w : W),
     NoDup (map row_id (contests (db w))) ->
     NoDup (map row_id (contests (db (save_contests wall_clock cs w).2))))
  /\ (forall eid cid (w : W),
        NoDup (map event_id (calendar_events (db w))) ->
        NoDup (map event_id
                 (calendar_events
                    (db (save_calendar_event wall_clock eid cid w).2)))).
Proof.
  split.
  - induction cs as [|c cs IH]; intros w H; [done|].
    rewrite (save_contests_cons c cs). apply IH.
    rewrite save_one_contest. simpl. by apply replace_contest_nodup.
  - intros eid cid w H. rewrite save_calendar_event_spec. simpl.
    by apply replace_calendar_event_nodup.
Qed.

Lemma save_contests_select_other cs k : forall w : W,
  (forall c, In c cs -> id c <> k) ->
  select_contest (db (save_contests wall_clock cs w).2) k
  = select_contest (db w) k.
Proof.
  induction cs as [|c cs IH]; intros w H; [done|].
  rewrite (save_contests_cons c cs), IH by (intros; apply H; by right).
  rewrite save_one_contest. simpl. rewrite select_contest_replace_eq. simpl.
  destruct (String.eqb_spec (id c) k) as [E|_].
  - destruct (H c); [by left|done].
  - by destruct (db w).
Qed.


(** X5.  Whether a contest counts as booked after a booking row was
    written.  After [save_calendar_event eid cid], [is_contest_in_calendar
    q] answers with the oldest row for [q] that is kept, and the rows kept
    are those under another event_id: the table has one row for each
    event_id.  So for [q = cid] the answer is an earlier booking of the
    contest if there is one under another event_id, else [eid]; and a
    booking of another contest under [eid] is gone. *)
Theorem booking_lookup_after_save eid cid q (w : W) :
  let w' := (save_calendar_event wall_clock eid cid w).2 in
  is_contest_in_calendar q w'
  = (Ok match List.find
                (fun r => String.eqb (contest_id r) q
                          && negb (String.eqb (event_id r) eid))
                (calendar_events (db w)) with
        | Some r => (true, Some (event_id r))
        | None => if String.eqb cid q then (true, Some eid) else (false, None)
        end, w').
Proof.
  intros w'. rewrite is_contest_in_calendar_spec. f_equal. f_equal.
  subst w'. rewrite save_calendar_event_spec. simpl.
  unfold select_event, replace_calendar_event. simpl.
  rewrite find_app, find_filter. simpl.
  destruct (List.find _ _); [done|]. by destruct (String.eqb cid q).
Qed.

End StoreFacts.

(** *** Decimal numerals and the JSON text of preferences *)

Section NumeralFacts.
Import PyStr.

Lemma cons_app c (a b : string) : String c a ++ b = String c (a ++ b).
Proof. done. Qed.

Lemma digits_acc_uint d : forall acc : positive,
  digits_acc (Z.pos acc) (NilEmpty.string_of_uint d)
  = Some (Z.pos (Pos.of_uint_acc d acc)).
Proof.
  induction d; intros acc; simpl; try done;
    rewrite <- IHd; f_equal; unfold digit_val; simpl; lia.
Qed.

Lemma digits_acc_uint_0 d :
  digits_acc 0 (NilEmpty.string_of_uint d) = Some (Z.of_N (Pos.of_uint d)).
Proof.
  induction d; simpl; try done; apply (digits_acc_uint d).
Qed.

Lemma uint_digits d : all_chars is_digit (NilEmpty.string_of_uint d) = true.
Proof. induction d; simpl; done. Qed.

Lemma to_uint_normal p : Decimal.unorm (Pos.to_uint p) = Pos.to_uint p.
Proof.
  rewrite <- DecimalPos.Unsigned.to_of, DecimalPos.Unsigned.of_to. done.
Qed.

(** The numeral of a positive number: digits, the first of them not 0,
    that read back as the number. *)
Lemma decimal_pos p :
  exists c r,
    decimal (Z.pos p) = String c r
    /\ is_digit c = true /\ c <> "0"%char
    /\ all_chars is_digit r = true
    /\ parse_digits (String c r) = Some (Z.pos p).
Proof.
  unfold decimal. simpl.
  pose proof (to_uint_normal p) as N.
  pose proof (DecimalPos.Unsigned.of_to p) as E.
  pose proof (uint_digits (Pos.to_uint p)) as D.
  pose proof (digits_acc_uint_0 (Pos.to_uint p)) as P.
  rewrite E in P. simpl in P.
  destruct (Pos.to_uint p) as [|u|u|u|u|u|u|u|u|u|u] eqn:U; simpl in *;
    try (eexists _, _; split_and!; [reflexivity|done|done|done|done]).
  exfalso. rewrite unorm_D0 in N. unfold Decimal.unorm in N.
  pose proof (nzhead_nonzero u) as Z.
  destruct (Decimal.nzhead u); try done.
  - injection N as <-. by destruct (Unsigned.to_uint_nonzero p).
  - by destruct (Z u0).
Qed.

Lemma json_int_decimal n : json_int (decimal n) = Some n.
Proof.
  destruct n as [|p|p].
  - done.
  - destruct (decimal_pos p) as (c & r & E & D & N0 & _ & P).
    rewrite E. unfold json_int.
    assert (c <> "-"%char) as Nm by (intros ->; done).
    assert (match String c r with String "-" r0 => r0 | _ => String c r end
            = String c r) as ->.
    { destruct c as [[] [] [] [] [] [] [] []]; done. }
    assert (match String c r with String "-" _ => -1 | _ => 1 end = 1) as ->.
    { destruct c as [[] [] [] [] [] [] [] []]; done. }
    assert (forall X Y : option Z,
              match String c r with
              | String "0" (String _ _) => X
              | _ => Y
              end = Y) as ->.
    { intros X Y. destruct c as [[] [] [] [] [] [] [] []]; done. }
    rewrite P. simpl. done.
  - destruct (decimal_pos p) as (c & r & E & D & N0 & _ & P).
    change (decimal (Z.neg p)) with (String "-" (decimal (Z.pos p))).
    rewrite E. unfold json_int.
    assert (forall X Y : option Z,
              match String c r with
              | String "0" (String _ _) => X
              | _ => Y
              end = Y) as ->.
    { intros X Y. destruct c as [[] [] [] [] [] [] [] []]; done. }
    rewrite P. simpl. done.
Qed.

Lemma all_chars_weaken (p q : ascii -> bool) s :
  (forall c, p c = true -> q c = true) ->
  all_chars p s = true -> all_chars q s = true.
Proof.
  intros H. induction s as [|c s IH]; simpl; [done|].
  rewrite !andb_true_iff. intros [? ?]. auto.
Qed.

(** A numeral is not empty and holds only digits and the minus sign. *)
Lemma decimal_numeral n :
  decimal n <> "" /\ all_chars numeral_char (decimal n) = true.
Proof.
  assert (forall c, is_digit c = true -> numeral_char c = true) as W.
  { intros c H. unfold numeral_char. by rewrite H. }
  destruct n as [|p|p].
  - done.
  - destruct (decimal_pos p) as (c & r & E & D & _ & R & _).
    rewrite E. split; [done|]. simpl. rewrite (W c D). simpl.
    by apply (all_chars_weaken is_digit).
  - destruct (decimal_pos p) as (c & r & E & D & _ & R & _).
    change (decimal (Z.neg p)) with (String "-" (decimal (Z.pos p))).
    rewrite E. split; [done|]. simpl. rewrite (W c D). simpl.
    by apply (all_chars_weaken is_digit).
Qed.

Lemma rev_string_rev s : forall a b,
  rev_string a (rev_string b s) = rev_string (s ++ a)%string b.
Proof.
  induction s as [|c s IH]; intros a b; simpl; [done|]. by rewrite IH.
Qed.

Lemma rev_string_involutive s : rev_string "" (rev_string "" s) = s.
Proof. rewrite rev_string_rev. simpl. apply string_app_nil_r. Qed.

Lemma rev_string_app x : forall acc y,
  rev_string acc (x ++ y)%string = rev_string (rev_string acc x) y.
Proof.
  induction x as [|c x IH]; intros acc y; [done|].
  rewrite cons_app. simpl. apply IH.
Qed.

(** A string that neither starts nor ends with white space is its own
    [strip]. *)
Lemma strip_fixed s :
  lstrip s = s -> lstrip (rev_string "" s) = rev_string "" s -> strip s = s.
Proof.
  intros H1 H2. unfold strip. rewrite H1, H2. apply rev_string_involutive.
Qed.

Lemma numeral_not_space c : numeral_char c = true -> is_space c = false.
Proof. destruct c as [[] [] [] [] [] [] [] []]; done. Qed.

Lemma lstrip_head c r :
  is_space c = false -> lstrip (String c r) = String c r.
Proof. simpl. by intros ->. Qed.

Lemma rev_string_numeral s : forall acc,
  s <> "" -> all_chars numeral_char s = true ->
  exists c r, rev_string acc s = String c r /\ numeral_char c = true.
Proof.
  induction s as [|c s IH]; intros acc N A; [done|].
  simpl in A. apply andb_true_iff in A as [Ac As]. simpl.
  destruct s as [|c' s'].
  - simpl. eauto.
  - apply IH; done.
Qed.

Lemma strip_numeral s :
  s <> "" -> all_chars numeral_char s = true -> strip s = s.
Proof.
  intros N A. apply strip_fixed.
  - destruct s as [|c r]; [done|]. simpl in A.
    apply andb_true_iff in A as [Ac _].
    by apply lstrip_head, numeral_not_space.
  - destruct (rev_string_numeral s "" N A) as (c & r & -> & Hc).
    by apply lstrip_head, numeral_not_space.
Qed.

Lemma strip_space_numeral s :
  s <> "" -> all_chars numeral_char s = true -> strip (String " " s) = s.
Proof.
  intros N A. unfold strip.
  change (lstrip (String " " s)) with (lstrip s).
  apply (strip_numeral s N A).
Qed.

Lemma split_on_other t : forall cur rest,
  all_chars numeral_char t = true ->
  split_on "," cur (t ++ rest)%string = split_on "," (rev_string cur t) rest.
Proof.
  induction t as [|c t IH]; intros cur rest A; [done|].
  simpl in A. apply andb_true_iff in A as [Ac At].
  rewrite cons_app. simpl.
  assert (Ascii.eqb c "," = false) as ->
    by (destruct c as [[] [] [] [] [] [] [] []]; done).
  by apply IH.
Qed.

Lemma join_cons2 sep a b l :
  join sep (a :: b :: l) = (a ++ sep ++ join sep (b :: l))%string.
Proof. done. Qed.

Lemma split_on_numerals d ds :
  all_chars numeral_char d = true ->
  List.Forall (fun x => all_chars numeral_char x = true) ds ->
  split_on "," "" (join ", " (d :: ds)) = d :: map (String " ") ds.
Proof.
  assert (forall ds a cur,
            all_chars numeral_char a = true ->
            List.Forall (fun x => all_chars numeral_char x = true) ds ->
            split_on "," cur (join ", " (a :: ds))
            = rev_string "" (rev_string cur a) :: map (String " ") ds) as G.
  { clear. induction ds as [|x ds IH]; intros a cur Ha Hds.
    - simpl. rewrite <- (string_app_nil_r a) at 1.
      by rewrite split_on_other.
    - apply Forall_cons in Hds as [Hx Hds].
      change (join ", " (a :: x :: ds))
        with (a ++ String "," (String " " (join ", " (x :: ds))))%string.
      rewrite split_on_other by done.
      set (rest := join ", " (x :: ds)). simpl. f_equal. subst rest.
      rewrite (IH x (String " " "")) by done. f_equal.
      rewrite rev_string_rev. simpl. by rewrite string_app_nil_r. }
  intros Hd Hds. rewrite G by done. by rewrite rev_string_involutive.
Qed.

Lemma join_numerals_head d ds :
  d <> "" -> all_chars numeral_char d = true ->
  exists c r, join ", " (d :: ds) = String c r /\ numeral_char c = true.
Proof.
  intros N A. destruct d as [|c r]; [done|].
  simpl in A. apply andb_true_iff in A as [Ac _].
  destruct ds as [|x ds]; [by exists c, r|].
  rewrite join_cons2, cons_app. eauto.
Qed.

Lemma join_numerals_last ds : forall d acc,
  d <> "" -> all_chars numeral_char d = true ->
  List.Forall (fun x => x <> "" /\ all_chars numeral_char x = true) ds ->
  exists c r,
    rev_string acc (join ", " (d :: ds)) = String c r
    /\ numeral_char c = true.
Proof.
  induction ds as [|x ds IH]; intros d acc N A F.
  - by apply rev_string_numeral.
  - apply Forall_cons in F as [[Nx Ax] F].
    rewrite join_cons2, !rev_string_app. by apply IH.
Qed.

Lemma strip_join_numerals d ds :
  d <> "" -> all_chars numeral_char d = true ->
  List.Forall (fun x => x <> "" /\ all_chars numeral_char x = true) ds ->
  strip (join ", " (d :: ds)) = join ", " (d :: ds).
Proof.
  intros N A F. apply strip_fixed.
  - destruct (join_numerals_head d ds N A) as (c & r & -> & Hc).
    by apply lstrip_head, numeral_not_space.
  - destruct (join_numerals_last ds d "" N A F) as (c & r & -> & Hc).
    by apply lstrip_head, numeral_not_space.
Qed.

End NumeralFacts.

Section PreferenceFacts.
Import PyStr PyDatetime Eff Data.
Local Open Scope list_scope.
Context {S : Type}.

Abbreviation W := (world S).

(** [json.loads] reads back what [json.dumps] writes for a list of
    integers and for an integer. *)
Lemma json_loads_ints l : json_loads (value_str (PyInts l)) = Some (PyInts l).
Proof.
  unfold value_str, json_loads.
  set (inner := join ", " (map decimal l)).
  change ("[" ++ inner ++ "]")%string with (String "[" (inner ++ "]")).
  assert (rev_string "" (String "[" (inner ++ "]"))
          = String "]" (rev_string "[" inner)) as R.
  { simpl. by rewrite rev_string_app. }
  rewrite strip_fixed; [| done | by rewrite R].
  assert (rev_string "" (inner ++ "]") = String "]" (rev_string "" inner))
    as -> by (by rewrite rev_string_app).
  rewrite rev_string_involutive. clear R.
  destruct l as [|a l]; [done|].
  assert (List.Forall (fun x => x <> "" /\ all_chars numeral_char x = true)
            (map decimal l)) as F.
  { apply List.Forall_forall. intros x Hx.
    apply in_map_iff in Hx as (n & <- & _). apply decimal_numeral. }
  destruct (decimal_numeral a) as [Na Aa].
  subst inner.
  change (map decimal (a :: l)) with (decimal a :: map decimal l).
  rewrite strip_join_numerals by done.
  destruct (join_numerals_head (decimal a) (map decimal l) Na Aa)
    as (c & r & E & _).
  rewrite E. rewrite <- E. clear E c r.
  rewrite split_on_numerals;
    [|done|eapply Forall_impl; [exact F|]; by intros x [_ ?]].
  assert (mapM (fun x => json_int (strip x))
            (decimal a :: map (String " ") (map decimal l))
          = Some (a :: l)) as ->; [|done].
  apply mapM_Some_2. constructor.
  - rewrite strip_numeral by done. apply json_int_decimal.
  - clear -F. induction l as [|b l IH]; simpl; [constructor|].
    simpl in F. apply Forall_cons in F as [[Nb Ab] F].
    constructor; [|by apply IH].
    rewrite strip_space_numeral by done. apply json_int_decimal.
Qed.

Lemma json_loads_int n : json_loads (decimal n) = Some (PyInt n).
Proof.
  unfold json_loads.
  destruct (decimal_numeral n) as [N A].
  rewrite strip_numeral by done.
  pose proof (json_int_decimal n) as J.
  destruct (decimal n) as [|c r] eqn:E; [done|].
  simpl in A. apply andb_true_iff in A as [Ac _].
  destruct c as [[] [] [] [] [] [] [] []]; try done; by rewrite J.
Qed.

Lemma get_after_set key value dflt (w : W) :
  get_preference key dflt (set_preference key value w).2
  = (Ok match json_loads (value_str value) with
        | Some v => v
        | None => PyStr (value_str value)
        end, (set_preference key value w).2).
Proof.
  unfold get_preference, set_preference, bind, get, modify, ret, set_db.
  simpl. rewrite lookup_insert_eq. by destruct (json_loads _).
Qed.



(** X8.  Preferences are kept by key: setting one key leaves what
    [get_preference] returns for every other key as it was, and a key
    that was never set yields the default given by the caller. *)
Theorem preference_keys_independent key other value dflt (w : W) :
  other <> key ->
  get_preference other dflt (set_preference key value w).2
  = ((get_preference other dflt w).1, (set_preference key value w).2)
  /\ (preferences (db w) !! other = None ->
      get_preference other dflt (set_preference key value w).2
      = (Ok dflt, (set_preference key value w).2)).
Proof.
  intros N.
  assert (get_preference other dflt (set_preference key value w).2
          = ((get_preference other dflt w).1,
             (set_preference key value w).2)) as E.
  { unfold get_preference, set_preference, bind, get, modify, ret, set_db.
    simpl. rewrite lookup_insert_ne by done.
    destruct (preferences (db w) !! other) as [text|]; [|done].
    by destruct (json_loads text). }
  split; [done|]. intros H. rewrite E. f_equal.
  unfold get_preference, bind, get, ret. simpl. by rewrite H.
Qed.

End PreferenceFacts.

(** ** Time zones and the calendar manager *)

Section ZoneFacts.
Import PyStr PyDatetime Eff Data.
Context (IST : Z -> Z).

Lemma to_ist_instant d :
  instant
    match tzinfo d with
    | None =>
        mk_datetime (year d) (month d) (day d) (hour d) (minute d)
          (second d) (microsecond d) utc
    | Some _ => d
    end
  = instant d.
Proof. unfold instant. destruct d as [? ? ? ? ? ? ? [off|]]; simpl; done. Qed.

Lemma to_ist_sound d t :
  to_ist IST d = Some t ->
  valid_fields (year t) (month t) (day t) (hour t) (minute t) (second t)
    (microsecond t) = true
  /\ tzinfo t = Some (IST (instant d))
  /\ instant t = instant d.
Proof.
  unfold to_ist, astimezone_zone. rewrite to_ist_instant.
  destruct (of_micros (instant d) utc) as [u|] eqn:U; [|done].
  apply of_micros_spec in U as (_ & _ & ->).
  intros H. apply of_micros_spec in H as (V & T & E).
  split_and!; try done. unfold instant at 1. rewrite T, E. simpl. lia.
Qed.

Lemma to_ist_total d :
  MIN_INSTANT <= instant d <= MAX_INSTANT ->
  MIN_INSTANT <= instant d + IST (instant d) <= MAX_INSTANT ->
  exists t, to_ist IST d = Some t.
Proof.
  intros R1 R2. unfold to_ist, astimezone_zone. rewrite to_ist_instant.
  destruct (of_micros_total (instant d) utc R1) as [u U]. rewrite U.
  apply of_micros_spec in U as (_ & _ & ->).
  by apply of_micros_total.
Qed.

Lemma to_ist_none d :
  ~ (MIN_INSTANT <= instant d <= MAX_INSTANT
     /\ MIN_INSTANT <= instant d + IST (instant d) <= MAX_INSTANT) ->
  to_ist IST d = None.
Proof.
  intros N. destruct (to_ist IST d) as [t|] eqn:E; [|done]. exfalso.
  apply N. unfold to_ist, astimezone_zone in E. rewrite to_ist_instant in E.
  destruct (of_micros (instant d) utc) as [u|] eqn:U; [|done].
  pose proof U as U'. apply of_micros_spec in U' as (Vu & Tu & Eu).
  rewrite Eu in E.
  pose proof E as E'. apply of_micros_spec in E' as (Vt & Tt & Et).
  assert (valid_offset utc = true) as Hz by done.
  pose proof (of_micros_valid _ _ _ U Hz) as Vu'.
  pose proof (to_micros_range u Vu') as Ru. rewrite Eu in Ru.
  split; [done|].
  assert (valid (mk_datetime (year t) (month t) (day t) (hour t) (minute t)
                   (second t) (microsecond t) utc) = true) as Vt'.
  { unfold valid. simpl. by rewrite Vt. }
  pose proof (to_micros_range _ Vt') as Rt.
  unfold to_micros in Rt. simpl in Rt. unfold to_micros in Et.
  by rewrite Et in Rt.
Qed.

(** X9.  [to_ist] changes the clock a time is read on, not the time: the
    value it returns is a date and time that exist, carries the offset
    that the zone has at that instant, and denotes the same instant; a
    naive value is taken to be UTC.  It returns exactly when the instant
    and its reading on the zone's clock both fall within years 1 to 9999;
    otherwise it raises. *)
Theorem to_ist_same_instant :
  (forall d t,
     to_ist IST d = Some t ->
     valid_fields (year t) (month t) (day t) (hour t) (minute t) (second t)
       (microsecond t) = true
     /\ tzinfo t = Some (IST (instant d))
     /\ instant t = instant d)
  /\ (forall d,
        is_Some (to_ist IST d)
        <-> MIN_INSTANT <= instant d <= MAX_INSTANT
            /\ MIN_INSTANT <= instant d + IST (instant d) <= MAX_INSTANT).
Proof.
  split; [apply to_ist_sound|].
  intros d. split.
  - intros [t E]. destruct (Z_le_dec MIN_INSTANT (instant d));
      destruct (Z_le_dec (instant d) MAX_INSTANT);
      destruct (Z_le_dec MIN_INSTANT (instant d + IST (instant d)));
      destruct (Z_le_dec (instant d + IST (instant d)) MAX_INSTANT);
      try done; rewrite to_ist_none in E by lia; done.
  - intros [R1 R2]. destruct (to_ist_total d R1 R2) as [t E]. by exists t.
Qed.

End ZoneFacts.

Section ManagerFacts.
Import PyStr PyDatetime Eff Data Request.
Local Open Scope list_scope.
Context {S : Type} (api : calendar_api S).
Context (wall_clock : nat -> datetime).
Context (IST : Z -> Z).

Abbreviation W := (world S).

#[local] Arguments fromisoformat : simpl never.
#[local] Arguments isoformat : simpl never.
#[local] Arguments add_micros : simpl never.
#[local] Arguments to_ist : simpl never.

Lemma fromisoformat_utc d :
  valid d = true -> tzinfo d = utc -> fromisoformat (isoformat d) = Some d.
Proof. intros V T. by apply (fromisoformat_isoformat d 0). Qed.

Lemma add_micros_total d delta :
  tzinfo d = utc ->
  MIN_INSTANT <= instant d + delta <= MAX_INSTANT ->
  exists e, add_micros d delta = Some e
            /\ valid e = true /\ tzinfo e = utc
            /\ instant e = instant d + delta.
Proof.
  intros T R. rewrite instant_utc in R by done.
  destruct (of_micros_total _ (tzinfo d) R) as [e E].
  exists e. split; [done|]. by apply (add_micros_utc d).
Qed.

Lemma bind_raise {A B} (m : M W A) (k : A -> M W B) (w w' : W) e :
  m w = (Raise e, w') -> bind m k w = (Raise e, w').
Proof. unfold bind. by intros ->. Qed.

Lemma ensure_service_frame (w w0 : W) r :
  ensure_service api w = (r, w0) -> db w0 = db w /\ ticks w0 = ticks w.
Proof.
  destruct (ensure_service_cases api w) as [[_ ->]|[_ (a & cal & _ & ->)]];
    by intros [= <- <-].
Qed.

Lemma ensure_service_refused (w : W) msg cal :
  has_service api (calendar w) = false ->
  authenticate api (calendar w) = (Refused msg, cal) ->
  ensure_service api w
  = (Raise (Exception msg),
     mk_world (db w) cal (calls w ++ [Authenticate (Refused msg)]) (ticks w)).
Proof.
  intros Hs Ha. unfold ensure_service, bind, get, request. simpl.
  by rewrite Hs, Ha.
Qed.

(** The run of [create_contest_event] for a row whose start is the ISO
    text of a UTC time and whose end can be computed. *)
Lemma create_contest_event_run row rem (w w0 : W) d :
  ensure_service api w = (Ok tt, w0) ->
  row_start_time row = isoformat d -> valid d = true -> tzinfo d = utc ->
  MIN_INSTANT <= instant d + row_duration_seconds row * US_PER_SECOND
  <= MAX_INSTANT ->
  exists e,
    valid e = true /\ tzinfo e = utc
    /\ instant e = instant d + row_duration_seconds row * US_PER_SECOND
    /\ create_contest_event api row rem w
       = let body :=
           event_request row e
             (default Config.DEFAULT_REMINDER_MINUTES rem) in
         let '(a, cal) := events_insert api body (calendar w0) in
         (match a with
          | Answered ev => Ok ev
          | Refused msg =>
              Raise (Exception
                       ("Failed to create calendar event: " ++ msg)%string)
          end,
          mk_world (db w0) cal (calls w0 ++ [Insert body a]) (ticks w0)).
Proof.
  intros Hs Hrow V T R.
  destruct (add_micros_total d _ T R) as (e & He & Ve & Te & Ie).
  exists e. split_and!; try done.
  unfold create_contest_event.
  rewrite (bind_ok _ _ _ _ _ Hs).
  rewrite Hrow, (fromisoformat_utc d V T). unfold lift at 1.
  unfold bind at 1, ret at 1. rewrite He. unfold lift at 1.
  unfold bind at 1, ret at 1. rewrite try_except_run.
  unfold event_request, request. rewrite Hrow.
  destruct (events_insert api _ (calendar w0)) as [[ev|msg] cal]; done.
Qed.

(** X10.  The event request mirrors the stored row.  For a row whose
    [start_time] is the ISO text of a UTC time, and whose end falls within
    years 1 to 9999, [create_contest_event] sends one insert request once
    the service is there: its start is the stored text as it is, its end
    is the ISO text of the UTC time [duration_seconds] later, both are
    labelled Asia/Kolkata, the summary is "platform: title", the default
    reminders are off and there is one popup reminder for each of the
    minutes asked for, in their order ([DEFAULT_REMINDER_MINUTES] if none
    are given).  The event the service answers with is returned; a refusal
    is raised behind "Failed to create calendar event: ". *)
Theorem event_request_mirrors_row row rem (w w0 : W) d :
  ensure_service api w = (Ok tt, w0) ->
  row_start_time row = isoformat d -> valid d = true -> tzinfo d = utc ->
  MIN_INSTANT <= instant d + row_duration_seconds row * US_PER_SECOND
  <= MAX_INSTANT ->
  exists e,
    valid e = true /\ tzinfo e = utc
    /\ instant e = instant d + row_duration_seconds row * US_PER_SECOND
    /\ create_contest_event api row rem w
       = let body :=
           event_request row e
             (default Config.DEFAULT_REMINDER_MINUTES rem) in
         let '(a, cal) := events_insert api body (calendar w0) in
         (match a with
          | Answered ev => Ok ev
          | Refused msg =>
              Raise (Exception
                       ("Failed to create calendar event: " ++ msg)%string)
          end,
          mk_world (db w0) cal (calls w0 ++ [Insert body a]) (ticks w0)).
Proof. apply create_contest_event_run. Qed.

End ManagerFacts.

(** ** The tools *)

Section ToolFacts.
Import PyStr PyDatetime Eff Data Request.
Local Open Scope list_scope.
Context {S : Type} (api : calendar_api S).
Context (wall_clock : nat -> datetime).
Context (IST : Z -> Z).

Abbreviation W := (world S).

#[local] Arguments fromisoformat : simpl never.
#[local] Arguments isoformat : simpl never.
#[local] Arguments add_micros : simpl never.
#[local] Arguments to_ist : simpl never.

(** X11.  Without credentials nothing is asked of the calendar.  When the
    manager has no service and authenticating is refused, the three
    operations of the manager raise that refusal as it is, with no prefix
    of their own, after the one [Authenticate] exchange; the booking tool
    for a stored contest, the listing tool and the removal tool answer
    their failure texts with it, and the store is what it was. *)
Theorem refused_authentication (w : W) msg cal :
  has_service api (calendar w) = false ->
  authenticate api (calendar w) = (Refused msg, cal) ->
  let w' :=
    mk_world (db w) cal (calls w ++ [Authenticate (Refused msg)]) (ticks w) in
  (forall row rem,
     create_contest_event api row rem w = (Raise (Exception msg), w'))
  /\ (forall days_ahead,
        list_events api wall_clock days_ahead w = (Raise (Exception msg), w'))
  /\ (forall eid, delete_event api eid w = (Raise (Exception msg), w'))
  /\ (forall cid rem force row,
        (force = true \/ select_event (db w) cid = None) ->
        select_contest (db w) cid = Some row ->
        add_contest_to_calendar_tool api wall_clock IST cid rem force w
        = (Ok (Failure msg), w'))
  /\ (forall days_ahead,
        list_calendar_contests_tool api wall_clock IST days_ahead w
        = (Ok (ListFailure msg), w'))
  /\ (forall eid,
        delete_calendar_event_tool api eid w = (Ok (DeleteFailure msg), w')).
Proof.
  intros Hs Ha w'.
  pose proof (ensure_service_refused api w msg cal Hs Ha) as E.
  assert (forall row rem,
            create_contest_event api row rem w = (Raise (Exception msg), w'))
    as C.
  { intros row rem. unfold create_contest_event.
    by rewrite (bind_raise _ _ _ _ _ E). }
  assert (forall days_ahead,
            list_events api wall_clock days_ahead w
            = (Raise (Exception msg), w')) as L.
  { intros days_ahead. unfold list_events.
    by rewrite (bind_raise _ _ _ _ _ E). }
  assert (forall eid, delete_event api eid w = (Raise (Exception msg), w'))
    as D.
  { intros eid. unfold delete_event. by rewrite (bind_raise _ _ _ _ _ E). }
  split_and!; try done.
  - intros cid rem force row Hf Hc.
    by rewrite (add_attempt api wall_clock IST w cid rem force row Hf Hc), C.
  - intros days_ahead. unfold list_calendar_contests_tool.
    rewrite try_except_run. by rewrite (bind_raise _ _ _ _ _ (L days_ahead)).
  - intros eid. unfold delete_calendar_event_tool.
    rewrite try_except_run. by rewrite (bind_raise _ _ _ _ _ (D eid)).
Qed.

(** [get_contest_resource] leaves the world as it is. *)
Lemma resource_store cid (w : W) : (get_contest_resource IST cid w).2 = w.
Proof.
  unfold get_contest_resource.
  rewrite (bind_ok _ _ _ _ _ (get_contest_by_id_spec cid w)).
  destruct (select_contest (db w) cid) as [row|]; [|done].
  unfold bind, lift, ret, raise, format_ist_time.
  destruct (fromisoformat _) as [start|]; [|done].
  by destruct (to_ist IST start).
Qed.


(** X13.  A booking that is in range succeeds.  The contest is stored with
    a start that is the ISO text of a UTC time, it is not booked yet or
    [force] is set, the service is there, and the end of the contest and
    its start on the Indian clock fall within years 1 to 9999.  Then the
    tool sends the one insert request for the row and the reminders
    ([30; 10] if none are given).  If the calendar answers with an event,
    the tool answers [Success] with the start on the Indian clock, which
    is the same instant, and exactly one booking row is written: the
    event's id for this contest, stamped with one clock reading; the
    table of contests and the preferences are untouched.  If the calendar
    refuses, the tool answers [Failure] and the store is what it was. *)
Theorem booking_succeeds_in_range (w w0 : W) cid rem force row d :
  (force = true \/ select_event (db w) cid = None) ->
  select_contest (db w) cid = Some row ->
  ensure_service api w = (Ok tt, w0) ->
  row_start_time row = isoformat d -> valid d = true -> tzinfo d = utc ->
  MIN_INSTANT <= instant d + row_duration_seconds row * US_PER_SECOND
  <= MAX_INSTANT ->
  MIN_INSTANT <= instant d + IST (instant d) <= MAX_INSTANT ->
  exists e t,
    valid e = true /\ tzinfo e = utc
    /\ instant e = instant d + row_duration_seconds row * US_PER_SECOND
    /\ to_ist IST d = Some t
    /\ tzinfo t = Some (IST (instant d)) /\ instant t = instant d
    /\ add_contest_to_calendar_tool api wall_clock IST cid rem force w
       = let body := event_request row e (default [30; 10] rem) in
         let '(a, cal) := events_insert api body (calendar w0) in
         match a with
         | Answered ev =>
             (Ok (Success row t ev (default [30; 10] rem)),
              mk_world
                (mk_database (contests (db w))
                   (replace_calendar_event
                      (mk_calendar_event_row (ev_id ev) cid
                         (isoformat (wall_clock (ticks w))))
                      (calendar_events (db w)))
                   (preferences (db w)))
                cal (calls w0 ++ [Insert body a]) (Datatypes.S (ticks w)))
         | Refused msg =>
             (Ok (Failure
                    ("Failed to create calendar event: " ++ msg)%string),
              mk_world (db w) cal (calls w0 ++ [Insert body a]) (ticks w))
         end.
Proof.
  intros Hf Hc Hs Hrow V T R1 R2.
  destruct (create_contest_event_run api row (Some (default [30; 10] rem))
              w w0 d Hs Hrow V T R1) as (e & Ve & Te & Ie & Hrun).
  assert (MIN_INSTANT <= instant d <= MAX_INSTANT) as R0.
  { rewrite instant_utc by done. by apply to_micros_range. }
  destruct (to_ist_total IST d R0 R2) as [t Ht].
  destruct (to_ist_sound IST d t Ht) as (_ & Tt & It).
  destruct (ensure_service_frame api w w0 _ Hs) as [Hdb Hticks].
  exists e, t. split_and!; try done.
  rewrite (add_attempt api wall_clock IST w cid rem force row Hf Hc), Hrun.
  cbv zeta. simpl default.
  destruct (events_insert api _ (calendar w0)) as [[ev|msg] cal].
  - rewrite Hrow, (fromisoformat_utc d V T). simpl. rewrite Ht.
    unfold set_db. simpl. by rewrite Hdb, Hticks.
  - by rewrite Hdb, Hticks.
Qed.

(** What a call that answered [Success] has done to the store. *)
Lemma add_success_store (w w1 : W) cid rem force row t ev rems :
  add_contest_to_calendar_tool api wall_clock IST cid rem force w
  = (Ok (Success row t ev rems), w1) ->
  select_contest (db w) cid = Some row
  /\ rems = default [30; 10] rem
  /\ db w1
     = mk_database (contests (db w))
         (replace_calendar_event
            (mk_calendar_event_row (ev_id ev) cid
               (isoformat (wall_clock (ticks w))))
            (calendar_events (db w)))
         (preferences (db w)).
Proof.
  intros Hrun.
  destruct (add_cases api wall_clock IST w cid rem force)
    as [(r & _ & _ & E)|[(_ & _ & E)|(Hf & row' & Hc)]].
  1,2: by rewrite E in Hrun.
  rewrite (add_attempt api wall_clock IST w cid rem force row' Hf Hc) in Hrun.
  destruct (create_contest_event_cases api row'
              (Some (default [30; 10] rem)) w) as (new & Hnew).
  destruct (create_contest_event _ _ _ _) as [[ev'|[e|]] w'];
    destruct Hnew as (_ & Hdb & Hticks & _); [|done..].
  rewrite save_calendar_event_spec in Hrun. simpl in Hrun.
  destruct (fromisoformat (row_start_time row') ≫= to_ist IST) as [t'|];
    [|done].
  injection Hrun as <- <- <- <- <-. by rewrite Hdb, Hticks.
Qed.

(** X14.  Booking again with [force] adds, it does not replace.  When a
    forced call for a contest that is booked already answers [Success]
    with an event of another id, the earlier booking row is still there
    beside the new one, the calendar holds two events, and a later call
    without [force] answers [Conflict] with the event_id of the earlier
    booking, not with the one just made. *)
Theorem forced_booking_keeps_first
    (w w1 : W) cid rem rem' row t ev rems r0 :
  add_contest_to_calendar_tool api wall_clock IST cid rem true w
  = (Ok (Success row t ev rems), w1) ->
  select_event (db w) cid = Some r0 ->
  event_id r0 <> ev_id ev ->
  In r0 (calendar_events (db w1))
  /\ In (mk_calendar_event_row (ev_id ev) cid
           (isoformat (wall_clock (ticks w))))
       (calendar_events (db w1))
  /\ add_contest_to_calendar_tool api wall_clock IST cid rem' false w1
     = (Ok (Conflict (event_id r0)), w1).
Proof.
  intros Hrun Hr0 Hne.
  destruct (add_success_store _ _ _ _ _ _ _ _ _ Hrun) as (_ & _ & Hdb).
  pose proof Hr0 as Hfind. unfold select_event in Hfind.
  apply find_some in Hfind as [Hin Hk].
  split_and!.
  - rewrite Hdb. simpl. unfold replace_calendar_event.
    apply in_or_app. left. apply filter_In. split; [done|]. simpl.
    apply negb_true_iff. by apply String.eqb_neq.
  - rewrite Hdb. simpl. unfold replace_calendar_event.
    apply in_or_app. right. by left.
  - apply add_conflict. rewrite Hdb.
    unfold select_event, replace_calendar_event. simpl.
    rewrite find_app, find_filter.
    assert (List.find
              (fun x => String.eqb (contest_id x) cid
                        && negb (String.eqb (event_id x) (ev_id ev)))
              (calendar_events (db w)) = Some r0) as ->; [|done].
    clear Hin Hdb Hrun. unfold select_event in Hr0.
    induction (calendar_events (db w)) as [|x l IH]; [done|].
    simpl in *. destruct (String.eqb (contest_id x) cid) eqn:E.
    + injection Hr0 as ->. simpl.
      by apply String.eqb_neq in Hne as ->.
    + simpl. by apply IH.
Qed.

Lemma delete_tool_store (w : W) eid :
  db (delete_calendar_event_tool api eid w).2 = db w.
Proof.
  unfold delete_calendar_event_tool, delete_event, ensure_service.
  unfold bind, ret, get, raise, try_except, request, set_db. simpl.
  destruct (has_service api (calendar w)); simpl.
  - by destruct (events_delete api eid (calendar w)) as [[[]|e] cal].
  - destruct (authenticate api (calendar w)) as [[[]|msg] cal0]; simpl;
      [|done].
    by destruct (events_delete api eid cal0) as [[[]|e] cal].
Qed.

(** X15.  Removing an event does not free the contest.  After
    [delete_calendar_event_tool], whatever event it was asked to remove
    and whatever the calendar answered, a contest that had a booking row
    still has it, so booking it again without [force] answers [Conflict]
    with the event_id of that row, the removed event included. *)
Theorem deleted_event_still_blocks (w : W) eid cid rem r :
  select_event (db w) cid = Some r ->
  let w1 := (delete_calendar_event_tool api eid w).2 in
  add_contest_to_calendar_tool api wall_clock IST cid rem false w1
  = (Ok (Conflict (event_id r)), w1).
Proof.
  intros Hr w1. apply add_conflict. subst w1. by rewrite delete_tool_store.
Qed.

(** X16.  The reminders asked for are the reminders set.  Every insert
    request of a booking call carries one popup reminder for each of the
    minutes the caller gave, in the caller's order, and [30; 10] when the
    caller gave none; an empty list gives an event without reminders.
    [Success] reports that same list. *)
Theorem booking_reminders (w w1 : W) cid rem force o new body a :
  add_contest_to_calendar_tool api wall_clock IST cid rem force w = (o, w1) ->
  calls w1 = calls w ++ new ->
  In (Insert body a) new ->
  overrides body = map (fun m => ("popup", m)) (default [30; 10] rem)
  /\ forall row t ev rems,
       o = Ok (Success row t ev rems) -> rems = default [30; 10] rem.
Proof.
  intros Hrun Hcalls Hin. split.
  - destruct (add_cases api wall_clock IST w cid rem force)
      as [(r & _ & _ & E)|[(_ & _ & E)|(Hf & row & Hc)]].
    1,2: rewrite E in Hrun; injection Hrun as <- <-;
         apply app_eq_self in Hcalls; by subst.
    rewrite (add_attempt api wall_clock IST _ _ _ _ _ Hf Hc) in Hrun.
    destruct (create_contest_event_cases api row
                (Some (default [30; 10] rem)) w) as (new' & Hnew).
    destruct (create_contest_event _ _ _ _) as [r w'].
    destruct Hnew as (Hcalls' & _ & _ & Hlog & _ & _).
    assert (new' = new) as ->.
    { destruct r as [ev'|[msg|]]; injection Hrun as <- <-; simpl in Hcalls;
        rewrite Hcalls' in Hcalls; by apply app_inv_head in Hcalls. }
    by destruct (Hlog _ _ Hin) as [-> _].
  - intros row t ev rems ->.
    by destruct (add_success_store _ _ _ _ _ _ _ _ _ Hrun) as (_ & -> & _).
Qed.

End ToolFacts.

(** *** The text of a time, and the listing of calendar events *)

Section IsoTextFacts.
Import PyStr PyDatetime.

Lemma all_chars_app p a b :
  all_chars p (a ++ b) = all_chars p a && all_chars p b.
Proof.
  induction a as [|c a IH]; simpl; [done|]. by rewrite IH, andb_assoc.
Qed.

Lemma digit_char_iso n : iso_char (digit_char (n mod 10)) = true.
Proof.
  assert (0 <= n mod 10 <= 9) as B
    by (pose proof (Z.mod_pos_bound n 10); lia).
  unfold iso_char. by rewrite is_digit_digit_char.
Qed.

Lemma fixed_iso w : forall n, all_chars iso_char (fixed w n) = true.
Proof.
  induction w as [|w IH]; intros n; simpl; [done|].
  rewrite all_chars_app, IH. simpl. by rewrite digit_char_iso.
Qed.

Lemma replace_char_app c by_ a b :
  replace_char c by_ (a ++ b)
  = (replace_char c by_ a ++ replace_char c by_ b)%string.
Proof.
  induction a as [|x a IH]; simpl; [done|]. rewrite IH.
  destruct (Ascii.eqb x c); [|done]. by rewrite string_app_assoc.
Qed.

Lemma replace_char_absent c by_ s p :
  p c = false -> all_chars p s = true -> replace_char c by_ s = s.
Proof.
  intros Hc. induction s as [|x s IH]; simpl; [done|].
  rewrite andb_true_iff. intros [Hx Hs].
  destruct (Ascii.eqb_spec x c) as [->|_]; [congruence|]. by rewrite IH.
Qed.

Lemma contains_char_app c a b :
  contains_char c (a ++ b) = contains_char c a || contains_char c b.
Proof.
  induction a as [|x a IH]; simpl; [done|]. by rewrite IH, orb_assoc.
Qed.

(** The ISO text of a time holds a T and no Z. *)
Lemma isoformat_chars d off :
  valid d = true -> tzinfo d = Some off ->
  off mod (60 * US_PER_SECOND) = 0 ->
  all_chars iso_char (isoformat d) = true
  /\ contains_char "T" (isoformat d) = true.
Proof.
  intros V T Hmin.
  pose proof V as V'.
  apply valid_bounds in V' as (Y & D & H & M & S & U).
  pose proof (day_two_digits _ _ _ D).
  pose proof D as D'. apply valid_date_bounds in D' as [Dm Dd].
  assert (- US_PER_DAY < off < US_PER_DAY) as Hoff.
  { unfold valid in V. apply andb_true_iff in V as [_ V]. rewrite T in V.
    simpl in V. apply andb_true_iff in V. lia. }
  unfold isoformat, format_time. rewrite T.
  unfold format_offset. cbv zeta.
  set (a := Z.abs off).
  assert (a mod (3600 * US_PER_SECOND) mod (60 * US_PER_SECOND) = 0) as ->.
  { unfold US_PER_SECOND in *. subst a. Z.div_mod_to_equations. lia. }
  change (0 =? 0) with true. cbv iota.
  set (hh := a / (3600 * US_PER_SECOND)).
  set (mm := a mod (3600 * US_PER_SECOND) / (60 * US_PER_SECOND)).
  assert (0 <= hh <= 23 /\ 0 <= mm <= 59) as (Hh & Hm).
  { unfold US_PER_DAY, US_PER_SECOND in *. subst hh mm a.
    Z.div_mod_to_equations. lia. }
  rewrite !pad_fixed by (simpl; lia).
  assert (all_chars iso_char
            (if microsecond d =? 0 then ""
             else "." ++ fixed 6 (microsecond d)) = true) as Hus.
  { destruct (microsecond d =? 0); [done|]. apply (fixed_iso 6). }
  split.
  - rewrite !all_chars_app, !fixed_iso, Hus. by destruct (off <? 0).
  - rewrite !contains_char_app. simpl. by rewrite !orb_true_r.
Qed.

#[local] Arguments fixed : simpl never.

Lemma zulu_replaced d :
  valid d = true -> tzinfo d = utc -> microsecond d = 0 ->
  contains_char "T" (zulu d) = true
  /\ replace_char "Z" "+00:00" (zulu d) = isoformat d.
Proof.
  intros V T U. split.
  - unfold zulu. rewrite !contains_char_app. simpl. by rewrite !orb_true_r.
  - rewrite (isoformat_utc d V T), U. unfold zulu.
    change (utc_tail 0) with "+00:00".
    rewrite !replace_char_app.
    rewrite !(replace_char_absent "Z" "+00:00" (fixed _ _) iso_char)
      by (done || apply fixed_iso).
    done.
Qed.

End IsoTextFacts.

Section ListingFacts.
Import PyStr PyDatetime Eff Data.
Local Open Scope list_scope.
Context {S : Type} (api : calendar_api S).
Context (wall_clock : nat -> datetime).
Context (IST : Z -> Z).

Abbreviation W := (world S).

#[local] Arguments fromisoformat : simpl never.
#[local] Arguments isoformat : simpl never.
#[local] Arguments add_micros : simpl never.
#[local] Arguments to_ist : simpl never.
#[local] Arguments replace_char : simpl never.
#[local] Arguments contains_char : simpl never.

Lemma events_loop_frame events : forall acc (w : W),
  exists r, events_loop IST events acc w = (r, w)
            /\ r <> Raise CancelledError.
Proof.
  induction events as [|event rest IH]; intros acc w; simpl.
  - by exists (Ok acc).
  - unfold bind, lift, ret, raise, format_ist_time.
    destruct (contains_char "T" (ev_start event)).
    + destruct (fromisoformat _) as [start|]; [|by eexists].
      destruct (to_ist IST start) as [t|]; simpl; [apply IH|by eexists].
    + apply IH.
Qed.

Lemma list_events_frame days_ahead (w : W) :
  exists r w', list_events api wall_clock days_ahead w = (r, w')
               /\ db w' = db w /\ r <> Raise CancelledError.
Proof.
  unfold list_events, ensure_service.
  unfold bind, ret, get, raise, lift, request, now. simpl.
  destruct (has_service api (calendar w)); simpl.
  - destruct (add_micros _ _) as [m|]; simpl; [|by eexists _, _].
    destruct (events_list api _ _ (calendar w)) as [[l|e] cal];
      by eexists _, _.
  - destruct (authenticate api (calendar w)) as [[[]|msg] cal0]; simpl;
      [|by eexists _, _].
    destruct (add_micros _ _) as [m|]; simpl; [|by eexists _, _].
    destruct (events_list api _ _ cal0) as [[l|e] cal]; by eexists _, _.
Qed.

Lemma list_tool_run days_ahead (w : W) :
  exists o w',
    list_calendar_contests_tool api wall_clock IST days_ahead w = (Ok o, w')
    /\ db w' = db w.
Proof.
  unfold list_calendar_contests_tool. rewrite try_except_run.
  unfold bind at 1.
  destruct (list_events_frame days_ahead w) as (r & w' & -> & Hdb & Hr).
  destruct r as [[|event rest]|[msg|]]; try done.
  - by eexists _, _.
  - unfold bind.
    destruct (events_loop_frame (event :: rest) [] w') as (r & -> & Hr').
    destruct r as [l|[msg|]]; try done; by eexists _, _.
  - by eexists _, _.
Qed.

Lemma list_tool_store days_ahead (w : W) :
  db (list_calendar_contests_tool api wall_clock IST days_ahead w).2 = db w.
Proof. by destruct (list_tool_run days_ahead w) as (o & w' & -> & Hdb). Qed.

(** X17.  The listing tool always answers.  Whatever the calendar answers
    and whatever the events hold, [list_calendar_contests_tool] returns
    one of its three texts, every exception being turned into the failure
    text, and the store is what it was. *)
Theorem list_tool_always_answers days_ahead (w : W) :
  exists o w',
    list_calendar_contests_tool api wall_clock IST days_ahead w = (Ok o, w')
    /\ db w' = db w.
Proof. apply list_tool_run. Qed.


(** X19.  The window of the calendar listing comes from one reading of
    the clock.  Once the service is there, [list_events] reads the clock
    once and sends one request, for the events between that reading and
    the time [days_ahead] days later, both as ISO texts of UTC times; it
    returns what the calendar lists and raises a refusal as it is.  An
    empty list makes the tool answer that there are no events, a refusal
    its failure text with the calendar's words. *)
Theorem list_window_from_one_reading days_ahead (w w0 : W) :
  ensure_service api w = (Ok tt, w0) ->
  valid (wall_clock (ticks w)) = true ->
  tzinfo (wall_clock (ticks w)) = utc ->
  MIN_INSTANT <= instant (wall_clock (ticks w)) + days_ahead * US_PER_DAY
  <= MAX_INSTANT ->
  exists time_max,
    valid time_max = true /\ tzinfo time_max = utc
    /\ instant time_max
       = instant (wall_clock (ticks w)) + days_ahead * US_PER_DAY
    /\ let time_min := isoformat (wall_clock (ticks w)) in
       let '(a, cal) :=
         events_list api time_min (isoformat time_max) (calendar w0) in
       let w' :=
         mk_world (db w) cal
           (calls w0 ++ [ListEvents time_min (isoformat time_max) a])
           (Datatypes.S (ticks w)) in
       list_events api wall_clock days_ahead w
       = (match a with
          | Answered l => Ok l
          | Refused e => Raise (Exception e)
          end, w')
       /\ (a = Answered [] ->
           list_calendar_contests_tool api wall_clock IST days_ahead w
           = (Ok NoEvents, w'))
       /\ (forall e,
             a = Refused e ->
             list_calendar_contests_tool api wall_clock IST days_ahead w
             = (Ok (ListFailure e), w')).
Proof.
  intros Hs V T R.
  destruct (add_micros_total _ _ T R) as (m & Hm & Vm & Tm & Im).
  destruct (ensure_service_frame api w w0 _ Hs) as [Hdb Hticks].
  exists m. split_and!; try done. cbv zeta.
  destruct (events_list api _ _ (calendar w0)) as [a cal] eqn:E.
  assert (list_events api wall_clock days_ahead w
          = (match a with
             | Answered l => Ok l
             | Refused e => Raise (Exception e)
             end,
             mk_world (db w) cal
               (calls w0
                ++ [ListEvents (isoformat (wall_clock (ticks w)))
                      (isoformat m) a])
               (Datatypes.S (ticks w)))) as L.
  { unfold list_events. rewrite (bind_ok _ _ _ _ _ Hs).
    unfold bind, now, lift, ret, raise, request.
    cbn [db calendar calls ticks]. rewrite Hticks, Hm.
    cbn [db calendar calls ticks]. by rewrite E, Hdb. }
  split_and!; try done.
  - intros ->. unfold list_calendar_contests_tool.
    rewrite try_except_run. by rewrite (bind_ok _ _ _ _ _ L).
  - intros e ->. unfold list_calendar_contests_tool.
    rewrite try_except_run. by rewrite (bind_raise _ _ _ _ _ L).
Qed.

End ListingFacts.

(** ** The adapters, entry by entry *)

Section AdapterFacts.
Import PyStr PyDatetime Eff Data Entry Origin.
Local Open Scope list_scope.
Context {S : Type}.
Context (wall_clock : nat -> datetime).
Context (IST : Z -> Z).
Context (local_offset : datetime -> Z).

Abbreviation W := (world S).

#[local] Arguments fromisoformat : simpl never.
#[local] Arguments isoformat : simpl never.
#[local] Arguments add_micros : simpl never.
#[local] Arguments to_ist : simpl never.
#[local] Arguments fromtimestamp_utc : simpl never.
#[local] Arguments astimezone_utc : simpl never.
#[local] Arguments py_int : simpl never.
#[local] Arguments codeforces_contest : simpl never.
#[local] Arguments leetcode_contest : simpl never.
#[local] Arguments codechef_contest : simpl never.

Lemma mapM_step {A B} (f : A -> option B) x l :
  mapM f (x :: l) = y ← f x; k ← mapM f l; Some (y :: k).
Proof. done. Qed.

Lemma codeforces_loop_mapM entries : forall acc (w : W),
  codeforces_loop entries acc w
  = (match mapM codeforces_contest
             (List.filter (fun e => String.eqb (cf_phase e) "BEFORE")
                entries)
     with
     | Some l => Ok (acc ++ l)
     | None => Raise (Exception "year is out of range")
     end, w).
Proof.
  induction entries as [|entry rest IH]; intros acc w.
  - simpl. by rewrite app_nil_r.
  - cbn [codeforces_loop List.filter].
    destruct (String.eqb (cf_phase entry) "BEFORE"); [|apply IH].
    rewrite mapM_step.
    pose proof (eq_refl (codeforces_contest entry)) as C.
    unfold codeforces_contest at 2 in C.
    unfold bind, lift, ret, raise.
    destruct (fromtimestamp_utc _) as [start|]; rewrite C; [|done].
    rewrite IH. cbn [mbind option_bind].
    destruct (mapM _ _); [|done].
    cbn [mbind option_bind]. by rewrite <- app_assoc.
Qed.

Lemma leetcode_loop_omap now_ entries : forall acc (w : W),
  leetcode_loop now_ entries acc w
  = (match mapM (fun e => fromtimestamp_utc (lc_startTime e)) entries with
     | Some _ =>
         Ok (acc
             ++ omap (fun e =>
                        if instant now_
                           <? EPOCH + lc_startTime e * US_PER_SECOND
                        then leetcode_contest e else None) entries)
     | None => Raise (Exception "year is out of range")
     end, w).
Proof.
  induction entries as [|entry rest IH]; intros acc w.
  - simpl. by rewrite app_nil_r.
  - cbn [leetcode_loop omap list_omap]. rewrite mapM_step.
    pose proof (eq_refl (leetcode_contest entry)) as C.
    unfold leetcode_contest at 2 in C.
    unfold bind, lift, ret, raise.
    destruct (fromtimestamp_utc (lc_startTime entry)) as [start|] eqn:E;
      [|done].
    apply fromtimestamp_utc_spec in E as (_ & _ & I).
    unfold datetime_ltb. rewrite I. cbn [mbind option_bind] in *.
    destruct (instant now_ <? _); rewrite ?C, IH;
      destruct (mapM _ rest); cbn [mbind option_bind]; try done.
    by rewrite <- app_assoc.
Qed.

Lemma codechef_loop_omap entries : forall acc (w : W),
  codechef_loop local_offset entries acc w
  = (Ok (acc ++ omap (codechef_contest local_offset) entries), w).
Proof.
  induction entries as [|entry rest IH]; intros acc w;
    cbn [codechef_loop omap list_omap].
  - by rewrite app_nil_r.
  - pose proof (eq_refl (codechef_contest local_offset entry)) as C.
    unfold codechef_contest at 2 in C.
    unfold bind at 1, try_except, codechef_entry.
    unfold bind, lift, ret, raise.
    destruct (fromisoformat _) as [start|]; cbn [mbind option_bind] in C;
      [|rewrite C; apply IH].
    destruct (astimezone_utc _ _) as [u|]; cbn [mbind option_bind] in C;
      [|rewrite C; apply IH].
    destruct (py_int _) as [m|]; cbn [mbind option_bind] in C;
      rewrite C; [|apply IH].
    rewrite IH. by rewrite <- app_assoc.
Qed.

(** X20.  One unreadable start loses every Codeforces contest.  On a
    response whose status is OK, [fetch_codeforces] returns the records
    of the entries in phase BEFORE, in their order, when the start of
    each of them can be read as a time.  When one of them cannot, the
    exception is caught around the whole loop and the list is empty.  A
    status other than OK gives the empty list.  The world is untouched. *)
Theorem fetch_codeforces_all_or_nothing data (w : W) :
  fetch_codeforces (Response data) w
  = (Ok (if String.eqb (cf_status data) "OK"
         then default []
                (mapM codeforces_contest
                   (List.filter
                      (fun e => String.eqb (cf_phase e) "BEFORE")
                      (cf_result data)))
         else []), w).
Proof.
  unfold fetch_codeforces, try_except, bind, await, ret.
  destruct (String.eqb (cf_status data) "OK"); simpl; [|done].
  rewrite codeforces_loop_mapM. by destruct (mapM _ _).
Qed.

(** X21.  LeetCode contests are kept when they start strictly after one
    reading of the clock.  [fetch_leetcode] reads the clock once and
    returns, in their order, the records of the entries whose startTime
    is later than that reading; an entry that starts at that reading or
    before it is dropped.  When the start of one entry, kept or not,
    cannot be read as a time, the list is empty. *)
Theorem fetch_leetcode_strictly_future entries (w : W) :
  fetch_leetcode wall_clock (Response entries) w
  = (Ok (match mapM (fun e => fromtimestamp_utc (lc_startTime e)) entries
         with
         | Some _ =>
             omap (fun e =>
                     if instant (wall_clock (ticks w))
                        <? EPOCH + lc_startTime e * US_PER_SECOND
                     then leetcode_contest e else None) entries
         | None => []
         end),
     mk_world (db w) (calendar w) (calls w) (Datatypes.S (ticks w))).
Proof.
  unfold fetch_leetcode, try_except, bind, await, ret, now.
  rewrite leetcode_loop_omap. by destruct (mapM _ _).
Qed.


#[local] Arguments codeforces_contest : simpl nomatch.
#[local] Arguments leetcode_contest : simpl nomatch.
#[local] Arguments codechef_contest : simpl nomatch.

Lemma codeforces_contest_origin e c :
  codeforces_contest e = Some c ->
  from_platform "Codeforces" "codeforces_" c.
Proof.
  unfold codeforces_contest. destruct (fromtimestamp_utc _); [|done].
  intros [= <-]. split; [done|]. by eexists.
Qed.

Lemma leetcode_contest_origin e c :
  leetcode_contest e = Some c -> from_platform "LeetCode" "leetcode_" c.
Proof.
  unfold leetcode_contest. destruct (fromtimestamp_utc _); [|done].
  intros [= <-]. split; [done|]. by eexists.
Qed.

Lemma codechef_contest_origin e c :
  codechef_contest local_offset e = Some c ->
  from_platform "CodeChef" "codechef_" c.
Proof.
  unfold codechef_contest. destruct (fromisoformat _); [|done]. simpl.
  destruct (astimezone_utc _ _); [|done]. simpl.
  destruct (py_int _); [|done].
  intros [= <-]. split; [done|]. by eexists.
Qed.

Lemma mapM_Forall {A B} (f : A -> option B) (P : B -> Prop) xs l :
  (forall x y, f x = Some y -> P y) -> mapM f xs = Some l -> Forall P l.
Proof.
  intros H E. apply mapM_Some_1 in E.
  induction E as [|x y xs l Hxy _ IH]; constructor; eauto.
Qed.

Lemma omap_Forall {A B} (f : A -> option B) (P : B -> Prop) xs :
  (forall x y, f x = Some y -> P y) -> Forall P (omap f xs).
Proof.
  intros H. induction xs as [|x xs IH]; simpl; [constructor|].
  destruct (f x) eqn:E; [constructor|]; eauto.
Qed.

Lemma fetch_codeforces_origin cf (w w' : W) l :
  fetch_codeforces cf w = (Ok l, w') ->
  Forall (from_platform "Codeforces" "codeforces_") l.
Proof.
  destruct cf as [|msg|data].
  - done.
  - by intros [= <- <-].
  - unfold fetch_codeforces, try_except, bind, await, ret.
    destruct (String.eqb _ _); simpl; [|intros [= <- <-]; constructor].
    rewrite codeforces_loop_mapM.
    destruct (mapM _ _) as [l'|] eqn:E; intros [= <- <-]; [|constructor].
    simpl. eapply mapM_Forall; [|exact E]. apply codeforces_contest_origin.
Qed.

Lemma fetch_leetcode_origin lc (w w' : W) l :
  fetch_leetcode wall_clock lc w = (Ok l, w') ->
  Forall (from_platform "LeetCode" "leetcode_") l.
Proof.
  destruct lc as [|msg|data].
  - done.
  - by intros [= <- <-].
  - unfold fetch_leetcode, try_except, bind, await, ret, now.
    rewrite leetcode_loop_omap.
    destruct (mapM _ _); intros [= <- <-]; [|constructor].
    apply omap_Forall. intros x y. destruct (_ <? _); [|done].
    apply leetcode_contest_origin.
Qed.

Lemma fetch_codechef_origin cc (w w' : W) l :
  fetch_codechef local_offset cc w = (Ok l, w') ->
  Forall (from_platform "CodeChef" "codechef_") l.
Proof.
  destruct cc as [|msg|data].
  - done.
  - by intros [= <- <-].
  - unfold fetch_codechef, try_except, bind, await, ret.
    destruct (String.eqb _ _); simpl; [|intros [= <- <-]; constructor].
    rewrite codechef_loop_omap. intros [= <- <-].
    apply omap_Forall, codechef_contest_origin.
Qed.

Lemma from_adapter_id c1 c2 :
  from_adapter c1 -> from_adapter c2 -> id c1 = id c2 ->
  platform c1 = platform c2.
Proof.
  intros [[P1 [s1 I1]]|[[P1 [s1 I1]]|[P1 [s1 I1]]]]
         [[P2 [s2 I2]]|[[P2 [s2 I2]]|[P2 [s2 I2]]]] E;
    rewrite P1, P2; try done;
    rewrite I1, I2 in E; cbv [String.append] in E; discriminate E.
Qed.

(** X23.  A fetched id names its platform.  Every record [fetch_all]
    returns carries the name of one of the three platforms and an id that
    starts with that platform's prefix.  So two fetched records with the
    same id are of the same platform: a contest of one platform never
    replaces a stored contest of another. *)
Theorem fetched_ids_name_their_platform cf lc cc (w w1 : W) l :
  fetch_all wall_clock local_offset cf lc cc w = (Ok l, w1) ->
  Forall from_adapter l
  /\ forall c1 c2, In c1 l -> In c2 l -> id c1 = id c2 ->
                   platform c1 = platform c2.
Proof.
  intros Hrun.
  assert (Forall from_adapter l) as F.
  { unfold fetch_all in Hrun. rewrite fetch_all_of_three in Hrun.
    destruct (fetch_codeforces cf w) as [r1 w2] eqn:E1.
    destruct (fetch_leetcode wall_clock lc w2) as [r2 w3] eqn:E2.
    destruct (fetch_codechef local_offset cc w3) as [r3 w4] eqn:E3.
    injection Hrun as <- <-.
    assert (Forall from_adapter (collect [r1])) as F1.
    { destruct r1 as [l1|]; [|constructor]. simpl. rewrite app_nil_r.
      eapply Forall_impl; [exact (fetch_codeforces_origin _ _ _ _ E1)|].
      intros c H. by left. }
    assert (Forall from_adapter (collect [r2])) as F2.
    { destruct r2 as [l2|]; [|constructor]. simpl. rewrite app_nil_r.
      eapply Forall_impl; [exact (fetch_leetcode_origin _ _ _ _ E2)|].
      intros c H. right. by left. }
    assert (Forall from_adapter (collect [r3])) as F3.
    { destruct r3 as [l3|]; [|constructor]. simpl. rewrite app_nil_r.
      eapply Forall_impl; [exact (fetch_codechef_origin _ _ _ _ E3)|].
      intros c H. right. by right. }
    destruct r1, r2, r3; simpl in *; rewrite ?app_nil_r in *;
      repeat (apply Forall_app; split); done. }
  split; [done|]. intros c1 c2 H1 H2.
  apply from_adapter_id; by apply (proj1 (List.Forall_forall _ _) F).
Qed.

(** X24.  What is fetched can be read back.  Every [start_time] that
    [fetch_all] returns is the ISO text of a UTC time that exists, and
    [fromisoformat] reads that text back as that time. *)
Theorem fetched_start_times_parse_back cf lc cc (w w1 : W) l :
  fetch_all wall_clock local_offset cf lc cc w = (Ok l, w1) ->
  Forall
    (fun c =>
       exists d,
         valid d = true /\ tzinfo d = utc
         /\ start_time c = isoformat d
         /\ fromisoformat (start_time c) = Some d)
    l.
Proof.
  intros Hrun.
  destruct (fetch_all_iso wall_clock local_offset cf lc cc w)
    as (l' & w' & E & _ & F).
  rewrite E in Hrun. injection Hrun as <- <-.
  eapply Forall_impl; [exact F|]. intros c (d & V & T & Ec).
  exists d. split_and!; try done. rewrite Ec. by apply fromisoformat_utc.
Qed.

Lemma lex_eq a b : lex a b = Eq -> a = Eq /\ b = Eq.
Proof. by destruct a. Qed.

(** Two values that exist and have the same fields in microseconds have
    the same fields. *)
Lemma to_micros_inj d1 d2 :
  valid d1 = true -> valid d2 = true -> tzinfo d1 = tzinfo d2 ->
  to_micros d1 = to_micros d2 -> d1 = d2.
Proof.
  intros V1 V2 T E.
  pose proof (to_micros_compare d1 d2 V1 V2) as C.
  rewrite E, Z.compare_refl in C. symmetry in C. unfold fields_compare in C.
  repeat (apply lex_eq in C as [?%Z.compare_eq C]).
  apply Z.compare_eq in C.
  destruct d1, d2; simpl in *; congruence.
Qed.

Lemma of_micros_to_micros d :
  valid d = true -> of_micros (to_micros d) (tzinfo d) = Some d.
Proof.
  intros V.
  destruct (of_micros_total _ (tzinfo d) (to_micros_range d V)) as [d' E].
  rewrite E. f_equal.
  pose proof E as E'. apply of_micros_spec in E' as (V' & T' & M').
  apply to_micros_inj; try done.
  unfold valid in *. rewrite V', T'. by apply andb_true_iff in V as [_ ->].
Qed.

(** X25.  A CodeChef start is shown as it was given.  CodeChef gives its
    start dates on the Indian clock, with the offset +05:30.  For an
    entry whose date parses with that offset to an instant that is not
    before year 1, and whose duration reads as an integer, the adapter
    stores the ISO text of the same instant in UTC, [fromisoformat] reads
    that text back, and [to_ist], with the zone at its fixed offset of
    five and a half hours, gives back the very time the platform gave,
    field by field. *)
Theorem codechef_start_shown_as_given entry d minutes :
  (forall t, IST t = 19800 * US_PER_SECOND) ->
  fromisoformat (contest_start_date_iso entry) = Some d ->
  tzinfo d = Some (19800 * US_PER_SECOND) ->
  MIN_INSTANT <= instant d ->
  py_int (contest_duration entry) = Some minutes ->
  exists c u,
    codechef_contest local_offset entry = Some c
    /\ start_time c = isoformat u
    /\ fromisoformat (start_time c) = Some u
    /\ to_ist IST u = Some d.
Proof.
  intros Hist Hparse T Hmin Hdur.
  pose proof (fromisoformat_valid _ _ Hparse) as V.
  assert (instant d <= MAX_INSTANT) as Hmax.
  { pose proof (to_micros_range d V). unfold instant. rewrite T. simpl.
    unfold US_PER_SECOND in *. lia. }
  destruct (astimezone_utc_aware local_offset d _ T ltac:(lia))
    as (u & Hu & Vu & Tu & Iu).
  eexists _, u. unfold codechef_contest. rewrite Hparse. simpl.
  rewrite Hu. simpl. rewrite Hdur. simpl.
  split; [done|]. split; [done|]. split; [by apply fromisoformat_utc|].
  unfold to_ist, astimezone_zone. rewrite Tu. simpl.
  rewrite (instant_utc u Tu). rewrite <- Tu at 1.
  rewrite (of_micros_to_micros u Vu), Hist.
  rewrite <- (instant_utc u Tu), Iu. unfold instant. rewrite T. simpl.
  replace (to_micros d - 19800 * US_PER_SECOND + 19800 * US_PER_SECOND)
    with (to_micros d) by lia.
  rewrite <- T. by apply of_micros_to_micros.
Qed.

End AdapterFacts.

(** ** The query for upcoming contests, and the tool that lists them *)

Section OrderFacts.

Lemma ascii_compare_trans (a b c : ascii) :
  (a ?= b)%char = Lt -> (b ?= c)%char = Lt -> (a ?= c)%char = Lt.
Proof.
  unfold Ascii.compare. rewrite !N.compare_lt_iff. lia.
Qed.

Lemma string_compare_trans a : forall b c,
  (a ?= b)%string = Lt -> (b ?= c)%string = Lt -> (a ?= c)%string = Lt.
Proof.
  induction a as [|x a IH]; intros [|y b] [|z c]; simpl; try done.
  destruct (x ?= y)%char eqn:Exy; try done;
    destruct (y ?= z)%char eqn:Eyz; try done.
  - apply Ascii.compare_eq_iff in Exy, Eyz. subst.
    assert ((z ?= z)%char = Eq) as ->.
    { unfold Ascii.compare. apply N.compare_refl. }
    apply IH.
  - apply Ascii.compare_eq_iff in Exy. subst. by rewrite Eyz.
  - apply Ascii.compare_eq_iff in Eyz. subst. by rewrite Exy.
  - by rewrite (ascii_compare_trans x y z).
Qed.

Lemma string_ltb_trans a b c :
  String.ltb a b = true -> String.ltb b c = true -> String.ltb a c = true.
Proof.
  unfold String.ltb.
  destruct (a ?= b)%string eqn:E1; try done.
  destruct (b ?= c)%string eqn:E2; try done.
  by rewrite (string_compare_trans a b c).
Qed.

End OrderFacts.

Section FetchToolFacts.
Import PyStr PyDatetime Eff Data.
Local Open Scope list_scope.
Context {S : Type}.
Context (wall_clock : nat -> datetime).
Context (IST : Z -> Z).
Context (local_offset : datetime -> Z).

Abbreviation W := (world S).

#[local] Arguments fromisoformat : simpl never.
#[local] Arguments isoformat : simpl never.
#[local] Arguments add_micros : simpl never.
#[local] Arguments to_ist : simpl never.

(** X26.  No horizon, no contests.  With [days_ahead] zero or negative,
    [get_upcoming_contests] returns no contest, whatever is stored and
    whatever platform is asked for, when the clock does not go back
    between its two readings: the start of a row would have to be after
    the second reading and before a time that is not after the first. *)
Theorem no_upcoming_without_horizon (w : W) platform days_ahead cutoff :
  valid (wall_clock (ticks w)) = true ->
  tzinfo (wall_clock (ticks w)) = utc ->
  valid (wall_clock (Datatypes.S (ticks w))) = true ->
  tzinfo (wall_clock (Datatypes.S (ticks w))) = utc ->
  instant (wall_clock (ticks w))
  <= instant (wall_clock (Datatypes.S (ticks w))) ->
  days_ahead <= 0 ->
  add_micros (wall_clock (ticks w)) (days_ahead * US_PER_DAY)
  = Some cutoff ->
  get_upcoming_contests wall_clock platform days_ahead w
  = (Ok [],
     mk_world (db w) (calendar w) (calls w)
       (Datatypes.S (Datatypes.S (ticks w)))).
Proof.
  intros V1 T1 V2 T2 Hmono Hdays Hcut.
  destruct (add_micros_utc _ _ _ T1 Hcut) as (Vc & Tc & Ic).
  unfold get_upcoming_contests, bind, now, lift, get, ret. simpl.
  rewrite Hcut. simpl. f_equal. f_equal.
  replace (List.filter _ _) with (@nil contest_row); [done|].
  symmetry. induction (contests (db w)) as [|r l IH]; [done|].
  simpl. rewrite <- IH.
  assert (in_window (truthy platform)
            (isoformat (wall_clock (Datatypes.S (ticks w))))
            (isoformat cutoff) r = false) as ->; [|done].
  unfold in_window. destruct (String.ltb _ (row_start_time r)) eqn:E1;
    [|by rewrite andb_false_r].
  destruct (String.ltb (row_start_time r) _) eqn:E2;
    [|by rewrite andb_false_r].
  pose proof (string_ltb_trans _ _ _ E1 E2) as E.
  rewrite isoformat_ltb in E by done. apply Z.ltb_lt in E.
  unfold US_PER_DAY, US_PER_SECOND in *. lia.
Qed.

(** The adapters touch nothing but the clock. *)
Lemma codeforces_loop_frame entries : forall acc (w : W),
  (codeforces_loop entries acc w).2 = w.
Proof.
  induction entries as [|entry rest IH]; intros acc w; simpl; [done|].
  destruct (String.eqb _ _); [|apply IH].
  unfold bind, lift, ret, raise.
  destruct (fromtimestamp_utc _); [apply IH|done].
Qed.

Lemma leetcode_loop_frame now_ entries : forall acc (w : W),
  (leetcode_loop now_ entries acc w).2 = w.
Proof.
  induction entries as [|entry rest IH]; intros acc w; simpl; [done|].
  unfold bind, lift, ret, raise.
  destruct (fromtimestamp_utc _); [|done].
  destruct (datetime_ltb _ _); apply IH.
Qed.

Lemma fetch_all_frame cf lc cc (w : W) :
  exists l w1,
    fetch_all wall_clock local_offset cf lc cc w = (Ok l, w1)
    /\ db w1 = db w /\ calendar w1 = calendar w /\ calls w1 = calls w.
Proof.
  unfold fetch_all. rewrite fetch_all_of_three.
  assert (exists r1, fetch_codeforces cf w = (r1, w)) as [r1 ->].
  { pose proof (fetch_codeforces_spec cf w) as H.
    destruct cf; [by eexists|..]; destruct H as (l & -> & _); by eexists. }
  assert (exists r2 w2, fetch_leetcode wall_clock lc w = (r2, w2)
                        /\ db w2 = db w /\ calendar w2 = calendar w
                        /\ calls w2 = calls w) as (r2 & w2 & -> & D & C & L).
  { unfold fetch_leetcode, try_except, bind, await, ret, raise, now.
    destruct lc as [|msg|data]; [by eexists _, _..|].
    set (w1 := mk_world _ _ _ _).
    pose proof (leetcode_loop_frame (wall_clock (ticks w)) data [] w1) as F.
    destruct (leetcode_loop _ _ _ _) as [[l|[msg|]] w']; simpl in F;
      subst w'; by eexists _, _. }
  assert (exists r3, fetch_codechef local_offset cc w2 = (r3, w2))
    as [r3 ->].
  { pose proof (fetch_codechef_spec local_offset cc w2) as H.
    destruct cc; [by eexists|..]; destruct H as (l & -> & _); by eexists. }
  by eexists _, _.
Qed.

Lemma listing_loop_spec rows : forall acc (w : W),
  exists r,
    listing_loop IST rows acc w = (r, w)
    /\ forall entries,
         r = Ok entries ->
         exists shown,
           entries = acc ++ shown
           /\ map listed shown = rows
           /\ Forall
                (fun e =>
                   (exists start t,
                      fromisoformat (row_start_time (listed e)) = Some start
                      /\ to_ist IST start = Some t
                      /\ listed_start e = strftime_ist t)
                   /\ listed_url e
                      = match row_url (listed e) with
                        | "" => None
                        | u => Some u
                        end)
                shown.
Proof.
  induction rows as [|row rest IH]; intros acc w; simpl.
  - eexists. split; [done|]. intros entries [= <-]. exists [].
    by rewrite app_nil_r.
  - unfold bind, lift, ret, raise.
    destruct (fromisoformat _) as [start|] eqn:Es;
      [|eexists; split; [done|]; by intros ? [=]].
    destruct (to_ist IST start) as [t|] eqn:Et;
      [|eexists; split; [done|]; by intros ? [=]].
    set (entry := mk_listing row (strftime_ist t)
                    match row_url row with
                    | "" => None
                    | u => Some u
                    end).
    destruct (IH (acc ++ [entry]) w) as (r & -> & Hr).
    exists r. split; [done|]. intros entries ->.
    destruct (Hr entries eq_refl) as (shown & -> & Hm & Hf).
    exists (entry :: shown). rewrite <- app_assoc. split; [done|].
    split; [by rewrite <- Hm|]. constructor; [|done]. simpl.
    split; [|done]. by exists start, t.
Qed.

Lemma listing_loop_total rows : forall acc (w : W),
  (forall r, In r rows ->
     exists d, row_start_time r = isoformat d
               /\ valid d = true /\ tzinfo d = utc
               /\ MIN_INSTANT <= instant d + IST (instant d)
                  <= MAX_INSTANT) ->
  exists shown,
    listing_loop IST rows acc w = (Ok (acc ++ shown), w)
    /\ map listed shown = rows
    /\ Forall
         (fun e =>
            exists d t,
              row_start_time (listed e) = isoformat d
              /\ valid d = true /\ tzinfo d = utc
              /\ to_ist IST d = Some t /\ instant t = instant d
              /\ listed_start e = strftime_ist t)
         shown.
Proof.
  induction rows as [|row rest IH]; intros acc w H.
  - exists []. simpl. by rewrite app_nil_r.
  - destruct (H row (or_introl eq_refl)) as (d & Hrow & V & T & R).
    assert (MIN_INSTANT <= instant d <= MAX_INSTANT) as R0.
    { rewrite instant_utc by done. by apply to_micros_range. }
    destruct (to_ist_total IST d R0 R) as [t Ht].
    destruct (to_ist_sound IST d t Ht) as (_ & _ & It).
    cbn [listing_loop]. rewrite Hrow, (fromisoformat_utc d V T).
    unfold bind at 1, lift at 1, ret at 1.
    unfold bind at 1, lift at 1, ret at 1. rewrite Ht.
    set (entry := mk_listing row _ _).
    destruct (IH (acc ++ [entry]) w) as (shown & -> & Hm & Hf).
    { intros r Hr. apply H. by right. }
    exists (entry :: shown). rewrite <- app_assoc. split; [done|].
    split; [by rewrite <- Hm|]. constructor; [|done].
    exists d, t. by split_and!.
Qed.

Lemma get_upcoming_contests_result platform days_ahead (w : W) :
  exists r w',
    get_upcoming_contests wall_clock platform days_ahead w = (r, w')
    /\ db w' = db w /\ calendar w' = calendar w /\ calls w' = calls w
    /\ forall rows,
         r = Ok rows ->
         exists current_time cutoff_time,
           rows
           = order_by_start_time
               (List.filter
                  (in_window (truthy platform) current_time cutoff_time)
                  (contests (db w))).
Proof.
  unfold get_upcoming_contests, bind, now, lift, get, ret, raise. simpl.
  destruct (add_micros _ _) as [cutoff|]; simpl.
  - eexists _, _. split; [done|]. split_and!; try done.
    intros rows [= <-]. by eexists _, _.
  - eexists _, _. split; [done|]. by split_and!.
Qed.

(** The tool as the composition of its four steps. *)
Lemma fetch_tool_run platform days_ahead cf lc cc (w w1 : W) l :
  fetch_all wall_clock local_offset cf lc cc w = (Ok l, w1) ->
  fetch_contests_tool wall_clock IST local_offset platform days_ahead
    cf lc cc w
  = match get_upcoming_contests wall_clock
            (truthy (Some (str_strip platform))) days_ahead
            (save_contests wall_clock l w1).2 with
    | (Ok [], w3) => (Ok NoUpcoming, w3)
    | (Ok rows, w3) =>
        match listing_loop IST rows [] w3 with
        | (Ok entries, w4) => (Ok (Upcoming entries), w4)
        | (Raise e, w4) => (Raise e, w4)
        end
    | (Raise e, w3) => (Raise e, w3)
    end.
Proof.
  intros Hf. unfold fetch_contests_tool. cbv zeta.
  rewrite (bind_ok _ _ _ _ _ Hf).
  rewrite (bind_ok _ _ _ _ _ (save_contests_run wall_clock l w1)).
  unfold bind at 1.
  destruct (get_upcoming_contests _ _ _ _) as [[[|row rows]|e] w3];
    try done.
Qed.

(** Where [fetch_contests_tool] leaves the store. *)
Lemma fetch_tool_store platform days_ahead cf lc cc (w : W) :
  exists l w1,
    fetch_all wall_clock local_offset cf lc cc w = (Ok l, w1)
    /\ db w1 = db w
    /\ let w' :=
         (fetch_contests_tool wall_clock IST local_offset platform
            days_ahead cf lc cc w).2 in
       db w' = db (save_contests wall_clock l w1).2
       /\ calendar w' = calendar w /\ calls w' = calls w.
Proof.
  destruct (fetch_all_frame cf lc cc w)
    as (l & w1 & Hf & Hdb & Hcal & Hcalls).
  exists l, w1. split; [done|]. split; [done|].
  rewrite (fetch_tool_run _ _ _ _ _ _ _ _ Hf). cbv zeta.
  destruct (save_contests_frame wall_clock l w1) as (_ & _ & Hc2 & Hl2 & _).
  destruct (get_upcoming_contests_result
              (truthy (Some (str_strip platform))) days_ahead
              (save_contests wall_clock l w1).2)
    as (r & w3 & -> & Hdb3 & Hc3 & Hl3 & _).
  destruct r as [[|row rows]|e].
  - simpl. split_and!; congruence.
  - destruct (listing_loop_spec (row :: rows) [] w3) as (r & -> & _).
    destruct r; simpl; split_and!; congruence.
  - simpl. split_and!; congruence.
Qed.




End FetchToolFacts.

(** ** An invariant of the store under every tool *)

Section EndToEnd.
Import PyStr PyDatetime Eff Data.
Local Open Scope list_scope.
Context {S : Type} (api : calendar_api S).
Context (wall_clock : nat -> datetime).
Context (IST : Z -> Z).
Context (local_offset : datetime -> Z).

Abbreviation W := (world S).

(** X30.  Every booking names a stored contest, whatever the tools are
    asked.  The property that each row of calendar_events carries the id
    of a row of contests holds in the empty store, and each of the five
    tools and the contest resource keeps it, whatever their arguments,
    whatever the platforms return and whatever the calendar answers. *)
Theorem bookings_always_name_stored_contests :
  Spec.bookings_stored empty_database
  /\ forall w : W,
       Spec.bookings_stored (db w) ->
       (forall platform days_ahead cf lc cc,
          Spec.bookings_stored
            (db (fetch_contests_tool wall_clock IST local_offset platform
                   days_ahead cf lc cc w).2))
       /\ (forall cid rem force,
             Spec.bookings_stored
               (db (add_contest_to_calendar_tool api wall_clock IST cid rem
                      force w).2))
       /\ (forall days_ahead,
             Spec.bookings_stored
               (db (list_calendar_contests_tool api wall_clock IST
                      days_ahead w).2))
       /\ (forall eid,
             Spec.bookings_stored
               (db (delete_calendar_event_tool api eid w).2))
       /\ (forall l,
             Spec.bookings_stored (db (set_reminder_preferences_tool l w).2))
       /\ (forall cid,
             Spec.bookings_stored (db (get_contest_resource IST cid w).2)).
Proof.
  split; [by intros r []|]. intros w Hw. split_and!.
  - intros platform days_ahead cf lc cc.
    destruct (fetch_tool_store wall_clock IST local_offset platform
                days_ahead cf lc cc w) as (l & w1 & _ & Hdb1 & Hdb & _).
    cbv zeta in Hdb. rewrite Hdb.
    apply save_contests_bookings_stored. by rewrite Hdb1.
  - intros cid rem force. by apply add_bookings_stored.
  - intros days_ahead. by rewrite list_tool_store.
  - intros eid. by rewrite delete_tool_store.
  - intros l. done.
  - intros cid. by rewrite resource_store.
Qed.

End EndToEnd.

(** ** The model at work: concrete runs *)

Section Runs.
Import PyStr PyDatetime Eff Data Sample.
Local Open Scope list_scope.

(** C1.  The stored default is not consulted.  After
    [set_reminder_preferences_tool [60; 30; 10]] the preference is in the
    table and [get_preference] reads it back, yet a booking made without
    [reminder_minutes] asks the calendar for reminders at 30 and 10
    minutes and reports those. *)
Theorem stored_default_reminders_unused :
  let w := (set_reminder_preferences_tool [60; 30; 10] fresh).2 in
  preferences (db w) !! "default_reminders" = Some "[60, 30, 10]"
  /\ (get_preference "default_reminders" PyNone w).1
     = Ok (PyInts [60; 30; 10])
  /\ (let '(o, w1) :=
        add_contest_to_calendar_tool scripted clock ist "codeforces_1900"
          None false w in
      (o, calls w1))
     = (Ok (Success round_900
              (mk_datetime 2024 3 1 20 5 0 0 (Some (19800 * US_PER_SECOND)))
              event_1 [30; 10]),
        [Authenticate (Answered tt); Insert request_900 (Answered event_1)])
  /\ overrides request_900 = [("popup", 30); ("popup", 10)].
Proof. vm_compute. by split_and!. Qed.

(** C2.  A contest that starts at 9999-12-31T23:00:00Z and lasts half an
    hour: the calendar accepts the event and the booking row is written,
    but the start cannot be shown in IST, so the first call answers
    [Failure]; the second call answers [Conflict] with the event_id of the
    event that was created. *)
Theorem booking_reported_failed_after_insert :
  let '(o1, w1) :=
    add_contest_to_calendar_tool scripted clock ist "codeforces_9999" None
      false far_future in
  o1 = Ok (Failure "date value out of range")
  /\ calls w1
     = [Insert
          (mk_event_body "Codeforces: Millennium Round"
             "Contest URL: https://codeforces.com/contest/9999"
             "9999-12-31T23:00:00+00:00" "Asia/Kolkata"
             "9999-12-31T23:30:00+00:00" "Asia/Kolkata" false
             [("popup", 30); ("popup", 10)])
          (Answered event_2)]
  /\ calendar_events (db w1)
     = [mk_calendar_event_row "evt_2" "codeforces_9999"
          "2024-02-20T12:00:00+00:00"]
  /\ add_contest_to_calendar_tool scripted clock ist "codeforces_9999" None
       false w1
     = (Ok (Conflict "evt_2"), w1).
Proof. vm_compute. by split_and!. Qed.

(** C3, as stated, fails: the contest is absent, a booking row names it and
    [force] is off; the answer is [Conflict], not [NotFound]. *)
Lemma absent_contest_conflict :
  select_contest (db orphan_booking) "codeforces_1900" = None
  /\ add_contest_to_calendar_tool scripted clock ist "codeforces_1900" None
       false orphan_booking
     = (Ok (Conflict "evt_1"), orphan_booking).
Proof. vm_compute. by split. Qed.

(** C4.  The two ends of the window come from two readings of the clock.
    With readings two microseconds apart around noon and a horizon of one
    day, the query returns neither the contest at noon nor the one at noon
    the next day; the window of the specification holds the first when
    taken from the first reading and the second when taken from the second.
    [list_events], next to it, derives both of its bounds from one
    reading. *)
Theorem upcoming_window_reads_clock_twice :
  (get_upcoming_contests straddle None 1 two_noons).1 = Ok []
  /\ Spec.query_upcoming (straddle 0) None 1 (contests (db two_noons))
     = [at_noon]
  /\ Spec.query_upcoming (straddle 1) None 1 (contests (db two_noons))
     = [next_noon]
  /\ calls (list_events scripted straddle 1 two_noons).2
     = [ListEvents "2024-03-01T11:59:59.999999+00:00"
          "2024-03-02T11:59:59.999999+00:00" (Answered [])].
Proof. vm_compute. by split_and!. Qed.


(** An entry whose UTC equivalent would fall in year 0 is dropped by the
    inner [try], and the rest of the batch is kept. *)
Example codechef_drops_unrepresentable_start :
  fetch_codechef local_utc
    (Response (mk_cc_data "success" [before_year_1; start_2030])) fresh
  = (Ok [mk_contest "codechef_START123" "CodeChef" "Starters 123"
           "2024-03-01T14:30:00+00:00" 9000
           (Some "https://www.codechef.com/START123")], fresh).
Proof. reflexivity. Qed.

(** *** The theorems above at concrete inputs *)

Lemma absent_contest_outcome_witness :
  select_contest (db orphan_booking) "codeforces_1900" = None
  /\ add_contest_to_calendar_tool scripted clock ist "codeforces_1900" None
       true orphan_booking
     = (Ok (NotFound "codeforces_1900"), orphan_booking)
  /\ add_contest_to_calendar_tool scripted clock ist "codeforces_1900" None
       false orphan_booking
     = (Ok (Conflict "evt_1"), orphan_booking).
Proof.
  split; [reflexivity|]. split.
  - exact (absent_contest_outcome scripted clock ist orphan_booking
             "codeforces_1900" None true eq_refl).
  - exact (absent_contest_outcome scripted clock ist orphan_booking
             "codeforces_1900" None false eq_refl).
Defined.

Lemma fetch_all_partial_failure_witness :
  fetch_codeforces Cancelled fresh = (Raise CancelledError, fresh)
  /\ fetch_all clock local_utc Cancelled (Response [weekly_listed])
       (Response (mk_cc_data "success" [start_2030])) fresh
     = (Ok [mk_contest "leetcode_weekly-1" "LeetCode" "Weekly Contest 1"
              "2024-03-02T02:30:00+00:00" 5400
              (Some "https://leetcode.com/contest/weekly-1");
            mk_contest "codechef_START123" "CodeChef" "Starters 123"
              "2024-03-01T14:30:00+00:00" 9000
              (Some "https://www.codechef.com/START123")],
        mk_world (db fresh) (calendar fresh) (calls fresh) 1).
Proof.
  split; [reflexivity|].
  exact (proj1 (fetch_all_partial_failure clock local_utc)
           (fetch_codeforces Cancelled)
           (fetch_leetcode clock (Response [weekly_listed]))
           (fetch_codechef local_utc
              (Response (mk_cc_data "success" [start_2030])))
           fresh fresh (mk_world (db fresh) (calendar fresh) (calls fresh) 1)
           (mk_world (db fresh) (calendar fresh) (calls fresh) 1)
           (Raise CancelledError) _ _ eq_refl eq_refl eq_refl).
Defined.



Lemma refused_insert_leaves_store_witness :
  add_contest_to_calendar_tool scripted clock ist "codeforces_1900" None
    false refusing
  = (Ok (Failure
           "Failed to create calendar event: HttpError 403: quotaExceeded"),
     mk_world (db refusing) (mk_script true [] [])
       [Insert request_900 (Refused "HttpError 403: quotaExceeded")] 0)
  /\ Ok (Failure
           "Failed to create calendar event: HttpError 403: quotaExceeded")
     = Ok (Failure ("Failed to create calendar event: "
                    ++ "HttpError 403: quotaExceeded")%string)
  /\ db refusing = db refusing.
Proof.
  split; [reflexivity|].
  exact (refused_insert_leaves_store scripted clock ist refusing
           (mk_world (db refusing) (mk_script true [] [])
              [Insert request_900 (Refused "HttpError 403: quotaExceeded")] 0)
           "codeforces_1900" None false _
           [Insert request_900 (Refused "HttpError 403: quotaExceeded")]
           request_900 "HttpError 403: quotaExceeded"
           eq_refl eq_refl (or_introl eq_refl)).
Defined.


Lemma start_times_order_like_instants_witness :
  valid (straddle 0) = true /\ valid (straddle 1) = true
  /\ (isoformat (straddle 0) ?= isoformat (straddle 1))%string
     = (instant (straddle 0) ?= instant (straddle 1))
  /\ String.ltb (isoformat (straddle 0)) (isoformat (straddle 1))
     = (instant (straddle 0) <? instant (straddle 1)).
Proof.
  split; [reflexivity|]. split; [reflexivity|].
  exact (proj2 (proj1 (proj2 (start_times_order_like_instants
                                (S := script) clock local_utc))
                  (straddle 0) (straddle 1) eq_refl eq_refl eq_refl eq_refl)).
Defined.

End Runs.

(** ** More runs: the properties at concrete inputs *)

Section MoreRuns.
Import PyStr PyDatetime Eff Data Entry Origin Request Sample.
Local Open Scope list_scope.

Lemma store_keys_stay_unique_witness :
  NoDup (map row_id (contests (db fresh)))
  /\ NoDup
       (map row_id
          (contests
             (db (save_contests clock [weekly_before; weekly_after] fresh).2)))
  /\ NoDup (map event_id (calendar_events (db booked)))
  /\ NoDup
       (map event_id
          (calendar_events
             (db (save_calendar_event clock "evt_0" "leetcode_weekly-1"
                    booked).2))).
Proof.
  assert (NoDup (map row_id (contests (db fresh)))) as H1
    by apply NoDup_singleton.
  assert (NoDup (map event_id (calendar_events (db booked)))) as H2
    by apply NoDup_singleton.
  split; [exact H1|]. split.
  - exact (proj1 (store_keys_stay_unique clock)
             [weekly_before; weekly_after] fresh H1).
  - split; [exact H2|].
    exact (proj2 (store_keys_stay_unique clock) "evt_0" "leetcode_weekly-1"
             booked H2).
Defined.


Lemma preference_keys_independent_witness :
  "days_ahead" <> "default_reminders"
  /\ get_preference "days_ahead" (PyInt 30)
       (set_preference "default_reminders" (PyInts [60; 30]) fresh).2
     = (Ok (PyInt 30),
        (set_preference "default_reminders" (PyInts [60; 30]) fresh).2).
Proof.
  assert ("days_ahead" <> "default_reminders") as N by discriminate.
  split; [exact N|].
  exact (proj2 (preference_keys_independent "default_reminders" "days_ahead"
                  (PyInts [60; 30]) (PyInt 30) fresh N) eq_refl).
Defined.

Lemma no_upcoming_without_horizon_witness :
  instant (clock 0) <= instant (clock 1)
  /\ add_micros (clock 0) (0 * US_PER_DAY) = Some (clock 0)
  /\ get_upcoming_contests clock None 0 two_noons
     = (Ok [], mk_world (db two_noons) (calendar two_noons) [] 2).
Proof.
  assert (instant (clock 0) <= instant (clock 1)) as M
    by (vm_compute; discriminate).
  split; [exact M|]. split; [reflexivity|].
  exact (no_upcoming_without_horizon clock two_noons None 0 (clock 0)
           eq_refl eq_refl eq_refl eq_refl M (Z.le_refl 0) eq_refl).
Defined.

Lemma to_ist_same_instant_witness :
  to_ist ist start_900 = Some start_900_ist
  /\ tzinfo start_900_ist = Some (ist (instant start_900))
  /\ instant start_900_ist = instant start_900.
Proof.
  split; [reflexivity|].
  exact (proj2 (proj1 (to_ist_same_instant ist) start_900 start_900_ist
                  eq_refl)).
Defined.

Lemma in_range_900 :
  MIN_INSTANT
  <= instant start_900 + row_duration_seconds round_900 * US_PER_SECOND
  <= MAX_INSTANT.
Proof. split; vm_compute; discriminate. Defined.

Lemma in_range_900_ist :
  MIN_INSTANT <= instant start_900 + ist (instant start_900) <= MAX_INSTANT.
Proof. split; vm_compute; discriminate. Defined.

Lemma event_request_mirrors_row_witness :
  ensure_service scripted ready = (Ok tt, ready)
  /\ row_start_time round_900 = isoformat start_900
  /\ exists e,
       valid e = true /\ tzinfo e = utc
       /\ instant e
          = instant start_900 + row_duration_seconds round_900 * US_PER_SECOND
       /\ create_contest_event scripted round_900 (Some [60; 5]) ready
          = let body :=
              event_request round_900 e
                (default Config.DEFAULT_REMINDER_MINUTES (Some [60; 5])) in
            let '(a, cal) := events_insert scripted body (calendar ready) in
            (match a with
             | Answered ev => Ok ev
             | Refused msg =>
                 Raise (Exception
                          ("Failed to create calendar event: " ++ msg)%string)
             end,
             mk_world (db ready) cal (calls ready ++ [Insert body a])
               (ticks ready)).
Proof.
  split; [reflexivity|]. split; [reflexivity|].
  exact (event_request_mirrors_row scripted round_900 (Some [60; 5]) ready
           ready start_900 eq_refl eq_refl eq_refl eq_refl in_range_900).
Defined.

Lemma refused_authentication_witness :
  has_service no_credentials (calendar locked_out) = false
  /\ add_contest_to_calendar_tool no_credentials clock ist "codeforces_1900"
       None false locked_out
     = (Ok (Failure "credentials.json is missing"),
        mk_world (db locked_out) tt
          [Authenticate (Refused "credentials.json is missing")] 0)
  /\ list_calendar_contests_tool no_credentials clock ist 30 locked_out
     = (Ok (ListFailure "credentials.json is missing"),
        mk_world (db locked_out) tt
          [Authenticate (Refused "credentials.json is missing")] 0)
  /\ delete_calendar_event_tool no_credentials "evt_1" locked_out
     = (Ok (DeleteFailure "credentials.json is missing"),
        mk_world (db locked_out) tt
          [Authenticate (Refused "credentials.json is missing")] 0).
Proof.
  split; [reflexivity|].
  pose proof (refused_authentication no_credentials clock ist locked_out
                "credentials.json is missing" tt eq_refl eq_refl) as H.
  cbv zeta in H. destruct H as (_ & _ & _ & Hadd & Hlist & Hdel).
  split; [|split].
  - exact (Hadd "codeforces_1900" None false round_900 (or_intror eq_refl)
             eq_refl).
  - exact (Hlist 30).
  - exact (Hdel "evt_1").
Defined.


Lemma booking_succeeds_in_range_witness :
  select_event (db ready) "codeforces_1900" = None
  /\ select_contest (db ready) "codeforces_1900" = Some round_900
  /\ exists e t,
       valid e = true /\ tzinfo e = utc
       /\ instant e
          = instant start_900 + row_duration_seconds round_900 * US_PER_SECOND
       /\ to_ist ist start_900 = Some t
       /\ tzinfo t = Some (ist (instant start_900))
       /\ instant t = instant start_900
       /\ add_contest_to_calendar_tool scripted clock ist "codeforces_1900"
            (Some [60; 5]) false ready
          = let body :=
              event_request round_900 e (default [30; 10] (Some [60; 5])) in
            let '(a, cal) := events_insert scripted body (calendar ready) in
            match a with
            | Answered ev =>
                (Ok (Success round_900 t ev (default [30; 10] (Some [60; 5]))),
                 mk_world
                   (mk_database (contests (db ready))
                      (replace_calendar_event
                         (mk_calendar_event_row (ev_id ev) "codeforces_1900"
                            (isoformat (clock (ticks ready))))
                         (calendar_events (db ready)))
                      (preferences (db ready)))
                   cal (calls ready ++ [Insert body a])
                   (Datatypes.S (ticks ready)))
            | Refused msg =>
                (Ok (Failure
                       ("Failed to create calendar event: " ++ msg)%string),
                 mk_world (db ready) cal (calls ready ++ [Insert body a])
                   (ticks ready))
            end.
Proof.
  split; [reflexivity|]. split; [reflexivity|].
  exact (booking_succeeds_in_range scripted clock ist ready ready
           "codeforces_1900" (Some [60; 5]) false round_900 start_900
           (or_intror eq_refl) eq_refl eq_refl eq_refl eq_refl eq_refl
           in_range_900 in_range_900_ist).
Defined.

Lemma forced_booking_keeps_first_witness :
  add_contest_to_calendar_tool scripted clock ist "codeforces_1900" None true
    booked
  = (Ok (Success round_900 start_900_ist event_1 [30; 10]), booked_again)
  /\ select_event (db booked) "codeforces_1900"
     = Some (mk_calendar_event_row "evt_0" "codeforces_1900"
               "2024-02-19T08:00:00+00:00")
  /\ add_contest_to_calendar_tool scripted clock ist "codeforces_1900" None
       false booked_again
     = (Ok (Conflict "evt_0"), booked_again).
Proof.
  assert (add_contest_to_calendar_tool scripted clock ist "codeforces_1900"
            None true booked
          = (Ok (Success round_900 start_900_ist event_1 [30; 10]),
             booked_again)) as Hrun by (vm_compute; reflexivity).
  assert ("evt_0" <> "evt_1") as N by discriminate.
  split; [exact Hrun|]. split; [reflexivity|].
  exact (proj2 (proj2 (forced_booking_keeps_first scripted clock ist booked
                         booked_again "codeforces_1900" None None round_900
                         start_900_ist event_1 [30; 10]
                         (mk_calendar_event_row "evt_0" "codeforces_1900"
                            "2024-02-19T08:00:00+00:00")
                         Hrun eq_refl N))).
Defined.

Lemma deleted_event_still_blocks_witness :
  delete_calendar_event_tool scripted "evt_0" booked
  = (Ok (Deleted "evt_0"),
     mk_world (db booked) (mk_script true [Answered event_1] [])
       [Delete "evt_0" (Answered tt)] 0)
  /\ add_contest_to_calendar_tool scripted clock ist "codeforces_1900" None
       false (delete_calendar_event_tool scripted "evt_0" booked).2
     = (Ok (Conflict "evt_0"),
        (delete_calendar_event_tool scripted "evt_0" booked).2).
Proof.
  split; [reflexivity|].
  exact (deleted_event_still_blocks scripted clock ist booked "evt_0"
           "codeforces_1900" None
           (mk_calendar_event_row "evt_0" "codeforces_1900"
              "2024-02-19T08:00:00+00:00") eq_refl).
Defined.

Lemma booking_reminders_witness :
  add_contest_to_calendar_tool scripted clock ist "codeforces_1900"
    (Some [60; 5]) false ready
  = (Ok (Success round_900 start_900_ist event_1 [60; 5]),
     mk_world
       (mk_database [round_900]
          [mk_calendar_event_row "evt_1" "codeforces_1900"
             "2024-02-20T12:00:00+00:00"] ∅)
       (mk_script true [] [])
       [Insert (event_request round_900 end_900 [60; 5]) (Answered event_1)]
       1)
  /\ overrides (event_request round_900 end_900 [60; 5])
     = [("popup", 60); ("popup", 5)].
Proof.
  assert (add_contest_to_calendar_tool scripted clock ist "codeforces_1900"
            (Some [60; 5]) false ready
          = (Ok (Success round_900 start_900_ist event_1 [60; 5]),
             mk_world
               (mk_database [round_900]
                  [mk_calendar_event_row "evt_1" "codeforces_1900"
                     "2024-02-20T12:00:00+00:00"] ∅)
               (mk_script true [] [])
               [Insert (event_request round_900 end_900 [60; 5])
                  (Answered event_1)] 1)) as Hrun
    by (vm_compute; reflexivity).
  split; [exact Hrun|].
  exact (proj1 (booking_reminders scripted clock ist ready _
                  "codeforces_1900" (Some [60; 5]) false _
                  [Insert (event_request round_900 end_900 [60; 5])
                     (Answered event_1)]
                  (event_request round_900 end_900 [60; 5])
                  (Answered event_1) Hrun eq_refl (or_introl eq_refl))).
Defined.



Lemma utc_iso_900 :
  Forall (fun r => utc_iso (row_start_time r)) (contests (db fresh)).
Proof.
  constructor; [|constructor]. exists start_900. by split_and!.
Defined.

Lemma frozen_window n t :
  instant (frozen (Datatypes.S n)) < t < instant (frozen n) + 30 * US_PER_DAY ->
  MIN_INSTANT <= t + ist t <= MAX_INSTANT.
Proof.
  unfold ist.
  change (instant (frozen (Datatypes.S n))) with (instant (frozen 0)).
  change (instant (frozen n)) with (instant (frozen 0)).
  assert (instant (frozen 0) = 63844113600000000) as -> by reflexivity.
  unfold MIN_INSTANT, MAX_INSTANT, MAXORDINAL, US_PER_DAY, US_PER_SECOND. lia.
Defined.

Lemma frozen_horizon n :
  MIN_INSTANT <= instant (frozen n) + 30 * US_PER_DAY <= MAX_INSTANT.
Proof. split; vm_compute; discriminate. Defined.


Lemma bookings_always_name_stored_contests_witness :
  Spec.bookings_stored (db fresh)
  /\ Spec.bookings_stored
       (db (add_contest_to_calendar_tool scripted clock ist "codeforces_1900"
              None false fresh).2).
Proof.
  assert (Spec.bookings_stored (db fresh)) as H by (by intros r []).
  split; [exact H|].
  exact (proj1 (proj2 (proj2 (bookings_always_name_stored_contests scripted
                                clock ist local_utc) fresh H))
           "codeforces_1900" None false).
Defined.

(** What [fetch_all] returns when Codeforces lists [listed_900], LeetCode
    lists [weekly_listed] and CodeChef is down. *)
Lemma fetch_two_listed :
  fetch_all clock local_utc (Response (mk_cf_data "OK" [listed_900]))
    (Response [weekly_listed]) (Failed "offline") fresh
  = (Ok [mk_contest "codeforces_1900" "Codeforces" "Codeforces Round 900"
           "2024-03-01T14:35:00+00:00" 7200
           (Some "https://codeforces.com/contest/1900");
         mk_contest "leetcode_weekly-1" "LeetCode" "Weekly Contest 1"
           "2024-03-02T02:30:00+00:00" 5400
           (Some "https://leetcode.com/contest/weekly-1")],
     mk_world (db fresh) (calendar fresh) (calls fresh) 1).
Proof. vm_compute. reflexivity. Defined.

Lemma fetched_ids_name_their_platform_witness :
  Forall from_adapter
    [mk_contest "codeforces_1900" "Codeforces" "Codeforces Round 900"
       "2024-03-01T14:35:00+00:00" 7200
       (Some "https://codeforces.com/contest/1900");
     mk_contest "leetcode_weekly-1" "LeetCode" "Weekly Contest 1"
       "2024-03-02T02:30:00+00:00" 5400
       (Some "https://leetcode.com/contest/weekly-1")].
Proof.
  exact (proj1 (fetched_ids_name_their_platform clock local_utc _ _ _ fresh _
                  _ fetch_two_listed)).
Defined.

Lemma fetched_start_times_parse_back_witness :
  Forall
    (fun c =>
       exists d,
         valid d = true /\ tzinfo d = utc
         /\ start_time c = isoformat d
         /\ fromisoformat (start_time c) = Some d)
    [mk_contest "codeforces_1900" "Codeforces" "Codeforces Round 900"
       "2024-03-01T14:35:00+00:00" 7200
       (Some "https://codeforces.com/contest/1900");
     mk_contest "leetcode_weekly-1" "LeetCode" "Weekly Contest 1"
       "2024-03-02T02:30:00+00:00" 5400
       (Some "https://leetcode.com/contest/weekly-1")].
Proof.
  exact (fetched_start_times_parse_back clock local_utc _ _ _ fresh _ _
           fetch_two_listed).
Defined.

Lemma codechef_start_shown_as_given_witness :
  fromisoformat (contest_start_date_iso start_2030) = Some evening_ist
  /\ py_int (contest_duration start_2030) = Some 150
  /\ exists c u,
       codechef_contest local_utc start_2030 = Some c
       /\ start_time c = isoformat u
       /\ fromisoformat (start_time c) = Some u
       /\ to_ist ist u = Some evening_ist.
Proof.
  assert (MIN_INSTANT <= instant evening_ist) as R
    by (vm_compute; discriminate).
  split; [reflexivity|]. split; [reflexivity|].
  exact (codechef_start_shown_as_given ist local_utc start_2030 evening_ist
           150 (fun _ => eq_refl) eq_refl eq_refl R eq_refl).
Defined.

Lemma list_window_from_one_reading_witness :
  ensure_service scripted ready = (Ok tt, ready)
  /\ MIN_INSTANT <= instant (clock (ticks ready)) + 30 * US_PER_DAY
     <= MAX_INSTANT
  /\ exists time_max,
       valid time_max = true /\ tzinfo time_max = utc
       /\ instant time_max = instant (clock (ticks ready)) + 30 * US_PER_DAY
       /\ let time_min := isoformat (clock (ticks ready)) in
          let '(a, cal) :=
            events_list scripted time_min (isoformat time_max)
              (calendar ready) in
          let w' :=
            mk_world (db ready) cal
              (calls ready ++ [ListEvents time_min (isoformat time_max) a])
              (Datatypes.S (ticks ready)) in
          list_events scripted clock 30 ready
          = (match a with
             | Answered l => Ok l
             | Refused e => Raise (Exception e)
             end, w')
          /\ (a = Answered [] ->
              list_calendar_contests_tool scripted clock ist 30 ready
              = (Ok NoEvents, w'))
          /\ (forall e,
                a = Refused e ->
                list_calendar_contests_tool scripted clock ist 30 ready
                = (Ok (ListFailure e), w')).
Proof.
  assert (MIN_INSTANT <= instant (clock (ticks ready)) + 30 * US_PER_DAY
          <= MAX_INSTANT) as R by (split; vm_compute; discriminate).
  split; [reflexivity|]. split; [exact R|].
  exact (list_window_from_one_reading scripted clock ist 30 ready ready
           eq_refl eq_refl eq_refl R).
Defined.

Lemma booked_twice_witness :
  add_contest_to_calendar_tool scripted clock ist "codeforces_1900" None false
    ready
  = (Ok (Success round_900 start_900_ist event_1 [30; 10]),
     mk_world
       (mk_database [round_900]
          [mk_calendar_event_row "evt_1" "codeforces_1900"
             "2024-02-20T12:00:00+00:00"] ∅)
       (mk_script true [] []) [Insert request_900 (Answered event_1)] 1)
  /\ add_contest_to_calendar_tool scripted clock ist "codeforces_1900"
       (Some [60; 5]) false
       (mk_world
          (mk_database [round_900]
             [mk_calendar_event_row "evt_1" "codeforces_1900"
                "2024-02-20T12:00:00+00:00"] ∅)
          (mk_script true [] []) [Insert request_900 (Answered event_1)] 1)
     = (Ok (Conflict "evt_1"),
        mk_world
          (mk_database [round_900]
             [mk_calendar_event_row "evt_1" "codeforces_1900"
                "2024-02-20T12:00:00+00:00"] ∅)
          (mk_script true [] []) [Insert request_900 (Answered event_1)] 1).
Proof.
  assert (add_contest_to_calendar_tool scripted clock ist "codeforces_1900"
            None false ready
          = (Ok (Success round_900 start_900_ist event_1 [30; 10]),
             mk_world
               (mk_database [round_900]
                  [mk_calendar_event_row "evt_1" "codeforces_1900"
                     "2024-02-20T12:00:00+00:00"] ∅)
               (mk_script true [] [])
               [Insert request_900 (Answered event_1)] 1)) as Hrun
    by (vm_compute; reflexivity).
  split; [exact Hrun|].
  exact (proj2 (proj2 (booked_twice scripted clock ist ready _
                         "codeforces_1900" None (Some [60; 5]) _
                         [Insert request_900 (Answered event_1)] request_900
                         event_1 Hrun eq_refl (or_introl eq_refl)))).
Defined.

Lemma absent_contest_not_found_witness :
  Spec.bookings_stored (db fresh)
  /\ select_contest (db fresh) "codeforces_1" = None
  /\ add_contest_to_calendar_tool scripted clock ist "codeforces_1" None true
       fresh
     = (Ok (NotFound "codeforces_1"), fresh).
Proof.
  assert (Spec.bookings_stored (db fresh)) as H by (by intros r []).
  split; [exact H|]. split; [reflexivity|].
  exact (absent_contest_not_found scripted clock ist fresh "codeforces_1"
           None true H eq_refl).
Defined.

End MoreRuns.
